(** * Kids Task Tracker: the task lifecycle engine of [app.py]

    A shallow embedding of the domain logic of [app.py] (credential
    handling, loading of the data file, recurrence, time windows, the
    per-date completion record and the add/remove task commands),
    followed by the properties of the specification that concern them.

    Python values are represented as follows.
    - [str]: Rocq's [string]; the character with code [n] stands for the
      code point U+00[n], so the model covers the strings whose code
      points are below 256 (Basic Latin and Latin-1 Supplement).  The
      library functions used by the program ([str.lower],
      [str.isdigit], [str.encode]) are given on that range in full.
    - [dict] with string keys: [gmap string _]; a key that may be
      missing from a record-like dict: an [option] field.
    - [list]: [list]; a reference to an element of a list: its index.
    - [float]: a binary64 number of the library's specification of
      IEEE 754 arithmetic, [SpecFloat.spec_float].
    - exceptions: the left summand of a [sum]; message boxes, page
      changes and writes of the data file: a list of [Effect]s returned
      next to the new state. *)

From Stdlib Require Import ZArith NArith Ascii String List Lia DecimalString.
From Stdlib Require DecimalZ DecimalPos SpecFloat.
From stdpp Require Import base option list gmap strings.

Local Open Scope string_scope.
Local Open Scope list_scope.

#[local] Set Warnings "-register-all".

(** ** Python strings *)

Module PyStr.

Definition ord (c : ascii) : N := N_of_ascii c.

(** [str.isdigit] on one character: the characters whose Unicode
    property Numeric_Type is Digit or Decimal.  Below U+0100 these are
    the ASCII digits and the superscripts U+00B2, U+00B3 and U+00B9. *)
Definition char_isdigit (c : ascii) : bool :=
  let n := ord c in
  (((48 <=? n) && (n <=? 57)) || (n =? 178) || (n =? 179) || (n =? 185))%N.

(** The characters [0] to [9]. *)
Definition char_is_ascii_digit (c : ascii) : bool :=
  let n := ord c in ((48 <=? n) && (n <=? 57))%N.

Definition chars (s : string) : list ascii := list_ascii_of_string s.

(** [s.isdigit()]: all characters are digits and there is at least one. *)
Definition isdigit (s : string) : bool :=
  match s with
  | EmptyString => false
  | _ => forallb char_isdigit (chars s)
  end.

Definition is_ascii_digits (s : string) : bool :=
  forallb char_is_ascii_digit (chars s).

(** [str.lower] on one character: [A]-[Z] and U+00C0-U+00DE (without
    the multiplication sign U+00D7) move up by 32. *)
Definition char_lower (c : ascii) : ascii :=
  let n := ord c in
  if (((65 <=? n) && (n <=? 90))
      || ((192 <=? n) && (n <=? 222) && negb (n =? 215)))%N
  then ascii_of_N (n + 32) else c.

Fixpoint lower (s : string) : string :=
  match s with
  | EmptyString => EmptyString
  | String c s' => String (char_lower c) (lower s')
  end.

(** [len(s)] *)
Definition len (s : string) : nat := String.length s.

(** Truth value of a string: [not s] holds of the empty string only. *)
Definition truthy (s : string) : bool :=
  match s with EmptyString => false | _ => true end.

(** [s.encode()]: UTF-8, one byte below U+0080 and two bytes from
    there to U+00FF. *)
Definition encode_char (c : ascii) : list N :=
  let n := ord c in
  if (n <? 128)%N then [n]
  else [N.lor 192 (N.shiftr n 6); N.lor 128 (N.land n 63)].

Definition encode (s : string) : list N := flat_map encode_char (chars s).

(** [str(n)] for an integer. *)
Definition of_int (z : Z) : string := NilZero.string_of_int (Z.to_int z).

(** ["%02d"]-style formatting of a non-negative number, at least
    [width] characters. *)
Fixpoint zeros (k : nat) : string :=
  match k with O => "" | S k' => String "0" (zeros k') end.

Definition zfill (width : nat) (z : Z) : string :=
  let s := of_int z in zeros (width - String.length s) +:+ s.

End PyStr.

(** ** [hashlib.sha256]

    SHA-256 (FIPS 180-4) on a list of bytes, 32-bit words as [N] with the
    reduction modulo [2^32] written out. *)

Module SHA256.
Local Open Scope N_scope.

Definition mask32 : N := 4294967295.

Definition add32 (x y : N) : N := (x + y) mod 4294967296.

Definition rotr (n x : N) : N :=
  N.lor (N.shiftr x n) (N.land (N.shiftl x (32 - n)) mask32).

Definition not32 (x : N) : N := N.lxor x mask32.

Definition choose (x y z : N) : N :=
  N.lxor (N.land x y) (N.land (not32 x) z).

Definition majority (x y z : N) : N :=
  N.lxor (N.lxor (N.land x y) (N.land x z)) (N.land y z).

Definition big_sigma0 (x : N) : N :=
  N.lxor (N.lxor (rotr 2 x) (rotr 13 x)) (rotr 22 x).

Definition big_sigma1 (x : N) : N :=
  N.lxor (N.lxor (rotr 6 x) (rotr 11 x)) (rotr 25 x).

Definition small_sigma0 (x : N) : N :=
  N.lxor (N.lxor (rotr 7 x) (rotr 18 x)) (N.shiftr x 3).

Definition small_sigma1 (x : N) : N :=
  N.lxor (N.lxor (rotr 17 x) (rotr 19 x)) (N.shiftr x 10).

(** Round constants. *)
Definition round_constants : list N :=
  [ 1116352408; 1899447441; 3049323471; 3921009573;
    961987163; 1508970993; 2453635748; 2870763221;
    3624381080; 310598401; 607225278; 1426881987;
    1925078388; 2162078206; 2614888103; 3248222580;
    3835390401; 4022224774; 264347078; 604807628;
    770255983; 1249150122; 1555081692; 1996064986;
    2554220882; 2821834349; 2952996808; 3210313671;
    3336571891; 3584528711; 113926993; 338241895;
    666307205; 773529912; 1294757372; 1396182291;
    1695183700; 1986661051; 2177026350; 2456956037;
    2730485921; 2820302411; 3259730800; 3345764771;
    3516065817; 3600352804; 4094571909; 275423344;
    430227734; 506948616; 659060556; 883997877;
    958139571; 1322822218; 1537002063; 1747873779;
    1955562222; 2024104815; 2227730452; 2361852424;
    2428436474; 2756734187; 3204031479; 3329325298 ].

(** The eight working variables. *)
Record regs := Regs { ra : N; rb : N; rc : N; rd : N;
                      re : N; rf : N; rg : N; rh : N }.

Definition initial_hash : regs :=
  Regs 1779033703 3144134277 1013904242 2773480762
       1359893119 2600822924 528734635 1541459225.

(** Padding: a one bit, zero bits up to 56 modulo 64 bytes, then the
    bit length as a 64-bit big-endian number. *)
Definition be_bytes (width : nat) (x : N) : list N :=
  map (fun i => N.land (N.shiftr x (8 * N.of_nat i)) 255)
      (rev (seq 0 width)).

Definition pad (msg : list N) : list N :=
  let l := N.of_nat (length msg) in
  let k := (119 - l mod 64) mod 64 in
  msg ++ [128] ++ repeat 0 (N.to_nat k) ++ be_bytes 8 (8 * l).

Definition be_word (b : list N) : N :=
  fold_left (fun acc x => acc * 256 + x) b 0.

(** Cut a list into pieces of [n] elements; [fuel] bounds the number
    of pieces. *)
Fixpoint chunks {A} (fuel n : nat) (l : list A) : list (list A) :=
  match fuel with
  | O => []
  | S fuel' =>
      match l with
      | [] => []
      | _ => firstn n l :: chunks fuel' n (skipn n l)
      end
  end.

Definition block_words (block : list N) : list N :=
  map be_word (chunks 16 4 block).

(** Message schedule: sixteen words of the block, then forty-eight
    derived ones. *)
Definition schedule_step (w : list N) : list N :=
  let t := length w in
  w ++ [add32 (add32 (add32 (small_sigma1 (nth (t - 2) w 0))
                            (nth (t - 7) w 0))
                     (small_sigma0 (nth (t - 15) w 0)))
              (nth (t - 16) w 0)].

Definition schedule (block : list N) : list N :=
  Nat.iter 48 schedule_step (block_words block).

Definition round (r : regs) (kw : N * N) : regs :=
  let t1 := add32 (add32 (add32 (add32 (rh r) (big_sigma1 (re r)))
                                (choose (re r) (rf r) (rg r)))
                         (fst kw)) (snd kw) in
  let t2 := add32 (big_sigma0 (ra r)) (majority (ra r) (rb r) (rc r)) in
  Regs (add32 t1 t2) (ra r) (rb r) (rc r)
       (add32 (rd r) t1) (re r) (rf r) (rg r).

Definition compress (h : regs) (block : list N) : regs :=
  let r := fold_left round (combine round_constants (schedule block)) h in
  Regs (add32 (ra h) (ra r)) (add32 (rb h) (rb r))
       (add32 (rc h) (rc r)) (add32 (rd h) (rd r))
       (add32 (re h) (re r)) (add32 (rf h) (rf r))
       (add32 (rg h) (rg r)) (add32 (rh h) (rh r)).

Definition digest (msg : list N) : regs :=
  let p := pad msg in
  fold_left compress (chunks (length p) 64 p) initial_hash.

(** Lower-case hexadecimal, eight digits per word. *)
Definition hex_digit (n : N) : ascii :=
  if n <? 10 then ascii_of_N (48 + n) else ascii_of_N (87 + n).

Definition hex_word (x : N) (rest : string) : string :=
  String (hex_digit (N.land (N.shiftr x 28) 15))
 (String (hex_digit (N.land (N.shiftr x 24) 15))
 (String (hex_digit (N.land (N.shiftr x 20) 15))
 (String (hex_digit (N.land (N.shiftr x 16) 15))
 (String (hex_digit (N.land (N.shiftr x 12) 15))
 (String (hex_digit (N.land (N.shiftr x 8) 15))
 (String (hex_digit (N.land (N.shiftr x 4) 15))
 (String (hex_digit (N.land x 15)) rest))))))).

Definition hexdigest (msg : list N) : string :=
  let r := digest msg in
  hex_word (ra r) (hex_word (rb r) (hex_word (rc r) (hex_word (rd r)
 (hex_word (re r) (hex_word (rf r) (hex_word (rg r) (hex_word (rh r)
  ""))))))).

End SHA256.

(** [hash_pin]: Hashes the PIN for secure storage. *)
Definition hash_pin (pin : string) : string :=
  SHA256.hexdigest (PyStr.encode pin).

(** ** [float]

    A Python [float] is an IEEE 754 binary64 number; its operations are
    those of the library's specification of binary64 arithmetic. *)

Module PyFloat.
Local Open Scope Z_scope.

Definition prec : Z := 53.
Definition emax : Z := 1024.

(** [float(n)] for an [int] *)
Definition of_int (n : Z) : SpecFloat.spec_float :=
  SpecFloat.binary_normalize prec emax n 0 false.

(** [x / y] and [x + y] *)
Definition truediv (x y : SpecFloat.spec_float) : SpecFloat.spec_float :=
  SpecFloat.SFdiv prec emax x y.

Definition add (x y : SpecFloat.spec_float) : SpecFloat.spec_float :=
  SpecFloat.SFadd prec emax x y.

(** [int(x)] drops the fractional part, so it rounds towards zero.  On an
    infinity or a NaN [int] raises; they lie far outside the readings of
    a clock that a [datetime] can hold, which end with the year 9999,
    and [to_int] is given the value 0 on them. *)
Definition to_int (x : SpecFloat.spec_float) : Z :=
  match x with
  | SpecFloat.S754_finite s m e => SpecFloat.cond_Zopp s (Z.shiftl (Z.pos m) e)
  | _ => 0
  end.

End PyFloat.

(** ** [datetime] *)

Record time := Time { t_hour : Z; t_minute : Z; t_second : Z; t_microsecond : Z }.

Record datetime := DateTime {
  year : Z; month : Z; day : Z;
  hour : Z; minute : Z; second : Z; microsecond : Z }.

Module PyTime.
Local Open Scope Z_scope.

(** [datetime.time()] *)
Definition time_of (d : datetime) : time :=
  Time (hour d) (minute d) (second d) (microsecond d).

(** Naive times compare as the tuples
    [(hour, minute, second, microsecond)]. *)
Definition cmp (a b : time) : comparison :=
  match t_hour a ?= t_hour b with
  | Eq => match t_minute a ?= t_minute b with
          | Eq => match t_second a ?= t_second b with
                  | Eq => t_microsecond a ?= t_microsecond b
                  | c => c
                  end
          | c => c
          end
  | c => c
  end.

Definition ltb (a b : time) : bool :=
  match cmp a b with Lt => true | _ => false end.

Definition leb (a b : time) : bool :=
  match cmp a b with Gt => false | _ => true end.

Definition geb (a b : time) : bool :=
  match cmp a b with Lt => false | _ => true end.

(** Proleptic Gregorian ordinal of a date, as [date.toordinal]. *)
Definition is_leap (y : Z) : bool :=
  (y mod 4 =? 0) && (negb (y mod 100 =? 0) || (y mod 400 =? 0)).

Definition days_before_year (y : Z) : Z :=
  let p := y - 1 in p * 365 + p / 4 - p / 100 + p / 400.

Definition days_before_month (y m : Z) : Z :=
  nth (Z.to_nat m) [0; 0; 31; 59; 90; 120; 151; 181; 212; 243; 273; 304; 334] 0
  + (if (2 <? m) && is_leap y then 1 else 0).

Definition toordinal (d : datetime) : Z :=
  days_before_year (year d) + days_before_month (year d) (month d) + day d.

(** [date.weekday()]: Monday is 0 and Sunday is 6. *)
Definition weekday (d : datetime) : Z := (toordinal d + 6) mod 7.

Definition day_names : list string :=
  ["Monday"; "Tuesday"; "Wednesday"; "Thursday"; "Friday"; "Saturday"; "Sunday"].

(** [strftime("%A")] *)
Definition strftime_A (d : datetime) : string :=
  nth (Z.to_nat (weekday d)) day_names "".

(** [strftime("%Y-%m-%d")], the year on four digits. *)
Definition strftime_Ymd (d : datetime) : string :=
  PyStr.zfill 4 (year d) +:+ "-" +:+ PyStr.zfill 2 (month d)
    +:+ "-" +:+ PyStr.zfill 2 (day d).

(** [datetime.strptime(s, "%H:%M").time()].  The directive [%H] reads
    one or two decimal digits with a value up to 23, [%M] one or two
    digits with a value up to 59; the whole string has to be consumed.
    [None] stands for the [ValueError] raised otherwise. *)
Definition digit_value (c : ascii) : option Z :=
  if PyStr.char_is_ascii_digit c then Some (Z.of_N (PyStr.ord c) - 48) else None.

Definition field (bound : Z) (ds : list ascii) : option Z :=
  match ds with
  | [d] => digit_value d
  | [d1; d2] =>
      match digit_value d1, digit_value d2 with
      | Some a, Some b => if 10 * a + b <=? bound then Some (10 * a + b) else None
      | _, _ => None
      end
  | _ => None
  end.

Fixpoint split_colon (l : list ascii) : option (list ascii * list ascii) :=
  match l with
  | [] => None
  | c :: l' =>
      if Ascii.eqb c ":" then Some ([], l')
      else match split_colon l' with
           | Some (a, b) => Some (c :: a, b)
           | None => None
           end
  end.

Definition strptime_HM (s : string) : option time :=
  match split_colon (PyStr.chars s) with
  | Some (hs, ms) =>
      match field 23 hs, field 59 ms with
      | Some h, Some m => Some (Time h m 0 0)
      | _, _ => None
      end
  | None => None
  end.

(** [datetime.timestamp()] for a clock reading given in microseconds
    since the epoch: the whole seconds, as a float, plus
    [microsecond / 1e6], where [microsecond] runs from 0 to 999999 also
    before the epoch. *)
Definition timestamp (clock_us : Z) : SpecFloat.spec_float :=
  PyFloat.add (PyFloat.of_int (clock_us / 1000000))
              (PyFloat.truediv (PyFloat.of_int (clock_us mod 1000000))
                               (PyFloat.of_int 1000000)).

(** [int(datetime.timestamp())] *)
Definition timestamp_seconds (clock_us : Z) : Z := PyFloat.to_int (timestamp clock_us).

End PyTime.

(** ** The document kept in [kid_tasks_data.json] *)

(** A task.  [completed_on] is [None] for a task dict without that key. *)
Record Task := {
  task_id : string;
  text : string;
  start_time : string;
  end_time : string;
  days : list string;
  completed_on : option (gmap string bool) }.

Record Child := { name : string; gender : string; tasks : list Task }.

Record User := { pin : string; children : list Child }.

Record Settings := { theme : string; last_logged_in_user : option string }.

Record Data := { users : gmap string User; settings : Settings }.

#[global] Instance Task_eq_dec : EqDecision Task.
Proof. solve_decision. Defined.

#[global] Instance Child_eq_dec : EqDecision Child.
Proof. solve_decision. Defined.

#[global] Instance User_eq_dec : EqDecision User.
Proof. solve_decision. Defined.

(** Any JSON value, as [json.load] may return it. *)
Inductive JSON :=
| JNull
| JBool (b : bool)
| JNumber (z : Z)
| JString (s : string)
| JList (items : list JSON)
| JDict (entries : list (string * JSON)).

Inductive Exception :=
| JSONDecodeError
| FileNotFoundError
| PermissionError
| UnicodeDecodeError
| KeyError
| ValueError.

(** What the file system and [json.load] answer when [load_data] runs:
    whether [DATA_FILE] exists, whether [open] succeeds, and what
    [json.load] makes of the contents. *)
Record DataFile := {
  os_path_exists : bool;
  open_r : Exception + unit;
  json_load : Exception + JSON }.

(** [{"users": {}, "settings": {"theme": "light"}}] *)
Definition fresh_document : JSON :=
  JDict [("users", JDict []); ("settings", JDict [("theme", JString "light")])].

(** The same document as a [Data] record. *)
Definition fresh_data : Data :=
  {| users := ∅; settings := {| theme := "light"; last_logged_in_user := None |} |}.

(** The clause [except (json.JSONDecodeError, FileNotFoundError)]. *)
Definition load_data_handles (e : Exception) : bool :=
  match e with
  | JSONDecodeError | FileNotFoundError => true
  | _ => false
  end.

(** [KidsTaskTracker.load_data]: Loads user and task data from the local
    JSON file. *)
Definition load_data (f : DataFile) : Exception + JSON :=
  if negb (os_path_exists f) then inr fresh_document
  else
    let attempt :=
      match open_r f with
      | inl e => inl e
      | inr _ => json_load f
      end in
    match attempt with
    | inr document => inr document
    | inl e => if load_data_handles e then inr fresh_document else inl e
    end.

(** ** The controller and what a handler does besides changing it *)

Record Controller := { data : Data; current_user : option string }.

Inductive Effect :=
| showerror (title message : string)
| showinfo (title message : string)
| show_frame (page_name : string)
| save_data.

Definition is_error (out : list Effect) : bool :=
  match out with
  | showerror _ _ :: _ => true
  | _ => false
  end.

Definition set_users (us : gmap string User) (c : Controller) : Controller :=
  {| data := {| users := us; settings := settings (data c) |};
     current_user := current_user c |}.

(** [RegistrationPage.register] *)
Definition register (email_entry pin_entry : string) (c : Controller)
  : Controller * list Effect :=
  let email := PyStr.lower email_entry in
  if negb (PyStr.truthy email) || negb (PyStr.truthy pin_entry) then
    (c, [showerror "Error" "Email and PIN cannot be empty."])
  else if negb (PyStr.len pin_entry =? 6)%nat || negb (PyStr.isdigit pin_entry) then
    (c, [showerror "Error" "PIN must be exactly 6 digits."])
  else
    match users (data c) !! email with
    | Some _ => (c, [showerror "Error" "This email is already registered."])
    | None =>
        (set_users (<[email := {| pin := hash_pin pin_entry; children := [] |}]>
                      (users (data c))) c,
         [save_data;
          showinfo "Success" "Registration successful! Please log in.";
          show_frame "LoginPage"])
    end.

(** [LoginPage.login] *)
Definition login (email_entry pin_entry : string) (c : Controller)
  : Controller * list Effect :=
  let email := PyStr.lower email_entry in
  if negb (PyStr.truthy email) || negb (PyStr.truthy pin_entry) then
    (c, [showerror "Error" "Email and PIN cannot be empty."])
  else
    match users (data c) !! email with
    | Some user_data =>
        if String.eqb (pin user_data) (hash_pin pin_entry) then
          ({| data := {| users := users (data c);
                         settings := {| theme := theme (settings (data c));
                                        last_logged_in_user := Some email |} |};
              current_user := Some email |},
           [save_data; show_frame "DashboardPage"])
        else (c, [showerror "Error" "Invalid email or PIN."])
    | None => (c, [showerror "Error" "Invalid email or PIN."])
    end.

Definition logged_in (out : list Effect) : bool :=
  match out with
  | [save_data; show_frame "DashboardPage"] => true
  | _ => false
  end.

(** ** The dashboard *)

(** The test of [populate_tasks_for_child] that a task is for today:
    the task is skipped when neither ["all"] nor today's weekday name is
    in its [days]. *)
Definition is_for_today (today_weekday : string) (task : Task) : bool :=
  negb (negb (bool_decide ("all" ∈ days task))
        && negb (bool_decide (today_weekday ∈ days task))).

(** [task.get("completed_on", {}).get(today_str, False)] *)
Definition is_completed (today_str : string) (task : Task) : bool :=
  default false (default ∅ (completed_on task) !! today_str).

(** [create_task_bubble] reads both times of the task for the label. *)
Record Bubble := { bubble_task : Task; start_time_obj : time; end_time_obj : time }.

Definition create_task_bubble (task : Task) : Exception + Bubble :=
  match PyTime.strptime_HM (start_time task), PyTime.strptime_HM (end_time task) with
  | Some s, Some e => inr {| bubble_task := task; start_time_obj := s; end_time_obj := e |}
  | _, _ => inl ValueError
  end.

Record Dashboard := {
  todo_frame : list Bubble;
  completed_frame : list Bubble;
  task_widgets : gmap string Bubble;
  blinking_tasks : list string }.

Definition empty_dashboard : Dashboard :=
  {| todo_frame := []; completed_frame := []; task_widgets := ∅; blinking_tasks := [] |}.

(** One turn of the loop of [populate_tasks_for_child]. *)
Definition populate_task (today_str today_weekday : string)
    (acc : Exception + Dashboard) (task : Task) : Exception + Dashboard :=
  match acc with
  | inl e => inl e
  | inr d =>
      if negb (is_for_today today_weekday task) then inr d
      else
        let is_done := is_completed today_str task in
        match create_task_bubble task with
        | inl e => inl e
        | inr task_bubble =>
            inr {| todo_frame :=
                     if is_done then todo_frame d else todo_frame d ++ [task_bubble];
                   completed_frame :=
                     if is_done then completed_frame d ++ [task_bubble]
                     else completed_frame d;
                   task_widgets := <[task_id task := task_bubble]> (task_widgets d);
                   blinking_tasks :=
                     if is_done then blinking_tasks d
                     else blinking_tasks d ++ [task_id task] |}
        end
  end.

(** [DashboardPage.populate_tasks_for_child]: Fills the To-Do and
    Completed frames with tasks for a specific child. *)
Definition populate_tasks_for_child (now : datetime) (child : Child)
    (d : Dashboard) : Exception + Dashboard :=
  let today_str := PyTime.strftime_Ymd now in
  let today_weekday := PyTime.strftime_A now in
  fold_left (populate_task today_str today_weekday) (tasks child) (inr d).

(** The keys of [THEMES] that colour a pending bubble. *)
Inductive ColourKey := task_todo | task_active | task_overdue.

(** The body of the loop of [update_tasks_loop] for one task. *)
Definition task_colour (now : time) (task : Task) : Exception + ColourKey :=
  match PyTime.strptime_HM (start_time task), PyTime.strptime_HM (end_time task) with
  | Some start, Some stop =>
      inr (if PyTime.leb start now && PyTime.ltb now stop then task_active
           else if PyTime.geb now stop then task_overdue
           else task_todo)
  | _, _ => inl ValueError
  end.

(** [DashboardPage.update_tasks_loop]: the colour given to the bubble of
    each blinking task, looked up through [task_widgets]. *)
Definition update_tasks_loop (now : datetime) (d : Dashboard)
  : Exception + list (string * ColourKey) :=
  fold_left
    (fun acc id =>
       match acc with
       | inl e => inl e
       | inr colours =>
           match task_widgets d !! id with
           | None => inr colours
           | Some widget_info =>
               match task_colour (PyTime.time_of now) (bubble_task widget_info) with
               | inl e => inl e
               | inr colour => inr (colours ++ [(id, colour)])
               end
           end
       end)
    (blinking_tasks d) (inr []).

(** The lifecycle state of a task at an instant, as the dashboard shows
    it: no instance when the task is not for today, [DONE] when it goes
    to the Completed frame, otherwise the state named by its colour. *)
Inductive State := TODO | ACTIVE | OVERDUE | DONE.

Definition state_of_colour (k : ColourKey) : State :=
  match k with
  | task_todo => TODO
  | task_active => ACTIVE
  | task_overdue => OVERDUE
  end.

Definition lifecycle_state (now : datetime) (task : Task) : Exception + option State :=
  if negb (is_for_today (PyTime.strftime_A now) task) then inr None
  else
    match create_task_bubble task with
    | inl e => inl e
    | inr _ =>
        if is_completed (PyTime.strftime_Ymd now) task then inr (Some DONE)
        else
          match task_colour (PyTime.time_of now) task with
          | inl e => inl e
          | inr k => inr (Some (state_of_colour k))
          end
    end.

(** [DashboardPage.toggle_task_completion], on the task dict it is
    given: Handles clicking a task bubble to mark it as complete or
    incomplete. *)
Definition toggle_task_completion (today_str : string) (task : Task) : Task :=
  let is_currently_completed := is_completed today_str task in
  let ledger := default ∅ (completed_on task) in
  {| task_id := task_id task;
     text := text task;
     start_time := start_time task;
     end_time := end_time task;
     days := days task;
     completed_on := Some (<[today_str := negb is_currently_completed]> ledger) |}.

(** ** The settings page: children and tasks *)

(** [data["users"][current_user]]; a missing key raises [KeyError]. *)
Definition current_user_data (c : Controller) : Exception + (string * User) :=
  match current_user c with
  | None => inl KeyError
  | Some email =>
      match users (data c) !! email with
      | None => inl KeyError
      | Some user_data => inr (email, user_data)
      end
  end.

Definition set_children (email : string) (user_data : User)
    (cs : list Child) (c : Controller) : Controller :=
  set_users (<[email := {| pin := pin user_data; children := cs |}]>
               (users (data c))) c.

(** [next((c for c in children if c['name'] == child_name), None)]: the
    first child with that name, with its position in the list. *)
Definition find_child (child_name : string) (cs : list Child) : option (nat * Child) :=
  list_find (fun c => name c = child_name) cs.

Definition set_tasks (ts : list Task) (child : Child) : Child :=
  {| name := name child; gender := gender child; tasks := ts |}.

(** The fields of the window [AddTaskPopup]: the entry, the four
    spinboxes and the value of the [BooleanVar] of each day. *)
Record AddTaskPopup := {
  child_name : string;
  task_text_entry : string;
  start_hour : string;
  start_min : string;
  end_hour : string;
  end_min : string;
  day_vars : string -> bool }.

(** [[day for day, var in self.day_vars.items() if var.get()]] *)
Definition selected_days (p : AddTaskPopup) : list string :=
  List.filter (day_vars p) PyTime.day_names.

(** The dict [new_task] built by [save]; [clock_us] is the reading of
    the clock in microseconds since the epoch. *)
Definition new_task (p : AddTaskPopup) (clock_us : Z) : Task :=
  {| task_id := "task_" +:+ PyStr.of_int (PyTime.timestamp_seconds clock_us);
     text := task_text_entry p;
     start_time := start_hour p +:+ ":" +:+ start_min p;
     end_time := end_hour p +:+ ":" +:+ end_min p;
     days := if (length (selected_days p) =? 7)%nat then ["all"] else selected_days p;
     completed_on := Some ∅ |}.

(** [AddTaskPopup.save] *)
Definition save (p : AddTaskPopup) (clock_us : Z) (c : Controller)
  : Exception + (Controller * list Effect) :=
  if negb (PyStr.truthy (task_text_entry p))
     || negb (PyStr.truthy (start_hour p)) || negb (PyStr.truthy (start_min p))
     || negb (PyStr.truthy (end_hour p)) || negb (PyStr.truthy (end_min p))
  then inr (c, [showerror "Error" "All fields must be filled."])
  else
    match selected_days p with
    | [] => inr (c, [showerror "Error" "Please select at least one day."])
    | _ =>
        match current_user_data c with
        | inl e => inl e
        | inr (email, user_data) =>
            let cs := children user_data in
            let cs' :=
              match find_child (child_name p) cs with
              | Some (i, child_data) =>
                  <[i := set_tasks (tasks child_data ++ [new_task p clock_us]) child_data]> cs
              | None => cs
              end in
            inr (set_children email user_data cs' c, [save_data])
        end
    end.

(** [list.remove]: drops the first element equal to [x]. *)
Fixpoint list_remove {A} `{EqDecision A} (x : A) (l : list A) : list A :=
  match l with
  | [] => []
  | y :: l' => if decide (y = x) then l' else y :: list_remove x l'
  end.

(** [SettingsPage.remove_task]; [selected_child_name] is the value of the
    child selector. *)
Definition remove_task (selected_child_name : string) (task_to_remove : Task)
    (c : Controller) : Exception + (Controller * list Effect) :=
  match current_user_data c with
  | inl e => inl e
  | inr (email, user_data) =>
      let cs := children user_data in
      match find_child selected_child_name cs with
      | Some (i, child_data) =>
          if bool_decide (task_to_remove ∈ tasks child_data) then
            inr (set_children email user_data
                   (<[i := set_tasks (list_remove task_to_remove (tasks child_data))
                                     child_data]> cs) c,
                 [save_data])
          else inr (c, [])
      | None => inr (c, [])
      end
  end.

(** The [save] of [SettingsPage.add_child_popup]. *)
Definition add_child (name_entry gender_var : string) (c : Controller)
  : Exception + (Controller * list Effect) :=
  if negb (PyStr.truthy name_entry) then
    inr (c, [showerror "Error" "Name cannot be empty."])
  else
    match current_user_data c with
    | inl e => inl e
    | inr (email, user_data) =>
        inr (set_children email user_data
               (children user_data
                  ++ [{| name := name_entry; gender := gender_var; tasks := [] |}]) c,
             [save_data])
    end.

(** Clicking the bubble of the task at position [ti] of the child at
    position [ci] of the current user: [toggle_task_completion] on that
    task dict, which is the one held in [data]. *)
Definition click_task_bubble (now : datetime) (ci ti : nat) (c : Controller)
  : Exception + (Controller * list Effect) :=
  match current_user_data c with
  | inl e => inl e
  | inr (email, user_data) =>
      let toggle_in child :=
        set_tasks (alter (toggle_task_completion (PyTime.strftime_Ymd now)) ti
                         (tasks child)) child in
      inr (set_children email user_data (alter toggle_in ci (children user_data)) c,
           [save_data])
  end.

(** ** Sample values *)

Definition at_minute (y m d h mi : Z) : datetime := DateTime y m d h mi 0 0.

(** Six times the superscript two, U+00B2. *)
Definition superscript_pin : string :=
  String "178" (String "178" (String "178" (String "178" (String "178" (String "178" ""))))).

Definition fresh_controller : Controller :=
  {| data := fresh_data; current_user := None |}.

Definition brush_teeth : Task :=
  {| task_id := "task_1700000000"; text := "Brush teeth";
     start_time := "09:00"; end_time := "09:30";
     days := ["Monday"]; completed_on := Some ∅ |}.

(** A task whose window ends before it starts. *)
Definition inverted_task : Task :=
  {| task_id := "task_1700000001"; text := "Read";
     start_time := "10:00"; end_time := "09:00";
     days := ["all"]; completed_on := Some ∅ |}.

Definition sam : Child := {| name := "Sam"; gender := "male"; tasks := [] |}.

(** A second child with the same name, who already has a task. *)
Definition other_sam : Child :=
  {| name := "Sam"; gender := "female"; tasks := [brush_teeth] |}.

Definition controller_with (cs : list Child) : Controller :=
  {| data := {| users := {[ "a@b.com" := {| pin := hash_pin "123456"; children := cs |} ]};
                settings := settings fresh_data |};
     current_user := Some "a@b.com" |}.

Definition brush_popup : AddTaskPopup :=
  {| child_name := "Sam"; task_text_entry := "Brush teeth";
     start_hour := "09"; start_min := "00"; end_hour := "09"; end_min := "30";
     day_vars := fun day => String.eqb day "Monday" |}.

Definition wash_popup : AddTaskPopup :=
  {| child_name := "Sam"; task_text_entry := "Wash hands";
     start_hour := "12"; start_min := "00"; end_hour := "12"; end_min := "15";
     day_vars := fun _ => true |}.

(** The children of a user after a command, [[]] when it raised. *)
Definition children_after (email : string)
    (r : Exception + (Controller * list Effect)) : list Child :=
  match r with
  | inr (c, _) =>
      match users (data c) !! email with
      | Some user_data => children user_data
      | None => []
      end
  | inl _ => []
  end.

(** Two commands in a row. *)
Definition and_then (r : Exception + (Controller * list Effect))
    (command : Controller -> Exception + (Controller * list Effect))
  : Exception + (Controller * list Effect) :=
  match r with
  | inr (c, _) => command c
  | inl e => inl e
  end.

(** ** The rest of the controller and of the settings page *)

(** [KidsTaskTracker.logout]: Logs out the current user. *)
Definition logout (c : Controller) : Controller * list Effect :=
  ({| data := {| users := users (data c);
                 settings := {| theme := theme (settings (data c));
                                last_logged_in_user := None |} |};
      current_user := None |},
   [save_data; show_frame "LoginPage"]).

(** The keys of [THEMES]. *)
Definition THEMES : list string := ["dark"; "light"].

(** [KidsTaskTracker.toggle_theme]: Switches between light and dark
    themes.  The attribute [current_theme] is passed next to the
    controller. *)
Definition toggle_theme (current_theme : string) (c : Controller)
  : string * Controller * list Effect :=
  let new_theme := if String.eqb current_theme "dark" then "light" else "dark" in
  (new_theme,
   {| data := {| users := users (data c);
                 settings := {| theme := new_theme;
                                last_logged_in_user :=
                                  last_logged_in_user (settings (data c)) |} |};
      current_user := current_user c |},
   [save_data]).

(** [SettingsPage.change_pin] *)
Definition change_pin (new_pin_entry : string) (c : Controller)
  : Exception + (Controller * list Effect) :=
  if negb (PyStr.len new_pin_entry =? 6)%nat || negb (PyStr.isdigit new_pin_entry) then
    inr (c, [showerror "Error" "PIN must be exactly 6 digits."])
  else
    match current_user_data c with
    | inl e => inl e
    | inr (email, user_data) =>
        inr (set_users (<[email := {| pin := hash_pin new_pin_entry;
                                      children := children user_data |}]>
                          (users (data c))) c,
             [save_data; showinfo "Success" "PIN has been updated."])
    end.

(** [SettingsPage.remove_child]; [askyesno] is the answer to the
    confirmation box.  [list.remove] raises [ValueError] when the child
    is not in the list. *)
Definition remove_child (askyesno : bool) (child_to_remove : Child) (c : Controller)
  : Exception + (Controller * list Effect) :=
  if negb askyesno then inr (c, [])
  else
    match current_user_data c with
    | inl e => inl e
    | inr (email, user_data) =>
        if bool_decide (child_to_remove ∈ children user_data) then
          inr (set_children email user_data
                 (list_remove child_to_remove (children user_data)) c,
               [save_data])
        else inl ValueError
    end.

(** [data["users"].get(current_user, {}).get("children", [])], as the
    settings page reads the children. *)
Definition children_of_current_user (c : Controller) : list Child :=
  match current_user c with
  | None => []
  | Some email =>
      match users (data c) !! email with
      | None => []
      | Some user_data => children user_data
      end
  end.

(** [SettingsPage.populate_child_selector]: the values of the selector
    and the name it shows afterwards: the first value, or what it showed
    before when there is no child. *)
Definition populate_child_selector (shown_before : string) (c : Controller)
  : list string * string :=
  let values := map name (children_of_current_user c) in
  (values, match values with [] => shown_before | first :: _ => first end).

(** [SettingsPage.populate_tasks_for_selected_child]: the tasks that get
    a row with a Remove button. *)
Definition populate_tasks_for_selected_child (selected_child_name : string)
    (c : Controller) : list Task :=
  if negb (PyStr.truthy selected_child_name) then []
  else
    match find_child selected_child_name (children_of_current_user c) with
    | Some (_, child_data) => tasks child_data
    | None => []
    end.

(** [AddTaskPopup.toggle_all_days]: every day variable takes the value of
    the All Days box. *)
Definition toggle_all_days (all_days_var : bool) (p : AddTaskPopup) : AddTaskPopup :=
  {| child_name := child_name p;
     task_text_entry := task_text_entry p;
     start_hour := start_hour p; start_min := start_min p;
     end_hour := end_hour p; end_min := end_min p;
     day_vars := fun day =>
                   if bool_decide (day ∈ PyTime.day_names) then all_days_var
                   else day_vars p day |}.

(** The value that a spinbox with [format="%02.0f"] shows for a whole
    number. *)
Definition spinbox_value (n : Z) : string := PyStr.zfill 2 n.

(** The blinking logic of the loop of [update_tasks_loop]: from the
    colour chosen for the task and the flag kept in the widget info, the
    background put on the bubble and the new flag. *)
Inductive Background := colour_of (k : ColourKey) | bg_secondary.

Definition blink (colour : ColourKey) (was_blinking : bool) : Background * bool :=
  match colour with
  | task_active =>
      if was_blinking then (bg_secondary, false) else (colour_of colour, true)
  | _ => (colour_of colour, false)
  end.

(** [DashboardPage.update_tasks_loop] with what it does to the widgets.
    [flags] holds the entry ["is_blinking"] of the widget info of each
    id, [False] where there is none yet, as [populate_tasks_for_child]
    sets it; two ids that are equal share one widget info.  One pass
    returns the backgrounds it has configured, in order, each with the id
    whose widget got it, and the flags it leaves for the next pass. *)
Definition is_blinking (flags : gmap string bool) (id : string) : bool :=
  default false (flags !! id).

Definition update_widget (now : datetime) (d : Dashboard)
    (acc : Exception + (list (string * Background) * gmap string bool)) (id : string)
  : Exception + (list (string * Background) * gmap string bool) :=
  match acc with
  | inl e => inl e
  | inr (configured, flags) =>
      match task_widgets d !! id with
      | None => inr (configured, flags)
      | Some widget_info =>
          match task_colour (PyTime.time_of now) (bubble_task widget_info) with
          | inl e => inl e
          | inr colour =>
              let (background, flag) := blink colour (is_blinking flags id) in
              inr (configured ++ [(id, background)], <[id := flag]> flags)
          end
      end
  end.

Definition update_tasks_loop_widgets (now : datetime) (d : Dashboard)
    (flags : gmap string bool)
  : Exception + (list (string * Background) * gmap string bool) :=
  fold_left (update_widget now d) (blinking_tasks d) (inr ([], flags)).

(** The backgrounds that one pass has given to the widget of [id]. *)
Definition backgrounds_of (id : string) (configured : list (string * Background))
  : list Background :=
  map snd (List.filter (fun entry => String.eqb id (fst entry)) configured).

(** A bubble that blinks [n] times: the active colour and the secondary
    background in turn, starting with the secondary background when the
    flag is set. *)
Fixpoint alternating (n : nat) (flag : bool) : list Background :=
  match n with
  | O => []
  | S n' => (if flag then bg_secondary else colour_of task_active)
            :: alternating n' (negb flag)
  end.

(** [DashboardPage.rebuild_dashboard]: one pair of frames per child of
    the current user, and the widget table and blinking list shared by
    all of them.  Without data for the current user nothing is built. *)
Definition rebuild_child (now : datetime)
    (acc : Exception + (list (list Bubble * list Bubble) * Dashboard)) (child : Child)
  : Exception + (list (list Bubble * list Bubble) * Dashboard) :=
  match acc with
  | inl e => inl e
  | inr (columns, d) =>
      match populate_tasks_for_child now child
              {| todo_frame := []; completed_frame := [];
                 task_widgets := task_widgets d;
                 blinking_tasks := blinking_tasks d |} with
      | inl e => inl e
      | inr d' => inr (columns ++ [(todo_frame d', completed_frame d')], d')
      end
  end.

Definition rebuild_dashboard (now : datetime) (c : Controller)
  : Exception + (list (list Bubble * list Bubble) * Dashboard) :=
  fold_left (rebuild_child now) (children_of_current_user c)
            (inr ([], empty_dashboard)).

(** [KidsTaskTracker.__init__], from the document that [load_data] has
    returned.  Building the pages looks [current_theme] up in [THEMES];
    [apply_theme] rebuilds the dashboard, at the clock reading
    [now_theme]; then the dashboard is shown, and rebuilt once more at
    [now_show], when [last_logged_in_user] is a non-empty key of
    [users], and the login page otherwise. *)
Definition __init__ (now_theme now_show : datetime) (d : Data)
  : Exception + (Controller * list Effect) :=
  let c := {| data := d; current_user := last_logged_in_user (settings d) |} in
  if negb (bool_decide (theme (settings d) ∈ THEMES)) then inl KeyError
  else
    match rebuild_dashboard now_theme c with
    | inl e => inl e
    | inr _ =>
        let remembered :=
          match current_user c with
          | Some email => PyStr.truthy email && bool_decide (is_Some (users d !! email))
          | None => false
          end in
        if remembered then
          match rebuild_dashboard now_show c with
          | inl e => inl e
          | inr _ => inr (c, [show_frame "DashboardPage"])
          end
        else inr (c, [show_frame "LoginPage"])
    end.

(** The characters that [hexdigest] may produce. *)
Definition is_lower_hex (c : ascii) : bool :=
  let n := PyStr.ord c in
  (((48 <=? n) && (n <=? 57)) || ((97 <=? n) && (n <=? 102)))%N.

#[global] Instance time_eq_dec : EqDecision time.
Proof. solve_decision. Defined.

(** ** More sample values *)

Definition sam_with_two_tasks : Child :=
  {| name := "Sam"; gender := "male"; tasks := [brush_teeth; inverted_task] |}.

Definition bubble_of (task : Task) (start stop : time) : Bubble :=
  {| bubble_task := task; start_time_obj := start; end_time_obj := stop |}.

(** A task saved in the same second as [brush_teeth], with the same id. *)
Definition wash_hands : Task :=
  {| task_id := "task_1700000000"; text := "Wash hands";
     start_time := "12:00"; end_time := "12:15";
     days := ["all"]; completed_on := Some ∅ |}.

Definition sam_with_one_id : Child :=
  {| name := "Sam"; gender := "male"; tasks := [brush_teeth; wash_hands] |}.

(** The dashboard of [sam_with_one_id] on a Monday: two bubbles and one
    entry in the widget table. *)
Definition one_id_dashboard : Dashboard :=
  {| todo_frame := [bubble_of brush_teeth (Time 9 0 0 0) (Time 9 30 0 0);
                    bubble_of wash_hands (Time 12 0 0 0) (Time 12 15 0 0)];
     completed_frame := [];
     task_widgets :=
       {[ "task_1700000000" := bubble_of wash_hands (Time 12 0 0 0) (Time 12 15 0 0) ]};
     blinking_tasks := ["task_1700000000"; "task_1700000000"] |}.

(** A task with a start time that [strptime] refuses, and a document in
    which it belongs to the user who logged in last. *)
Definition malformed_task : Task :=
  {| task_id := "task_1700000002"; text := "Tidy up";
     start_time := "7a:00"; end_time := "08:00";
     days := ["all"]; completed_on := Some ∅ |}.

Definition malformed_document : Data :=
  {| users := {[ "a@b.com" :=
                   {| pin := hash_pin "123456";
                      children := [{| name := "Sam"; gender := "male";
                                      tasks := [malformed_task] |}] |} ]};
     settings := {| theme := "light"; last_logged_in_user := Some "a@b.com" |} |}.

(** The dashboard of [sam_with_two_tasks] on a Monday. *)
Definition two_pending_dashboard : Dashboard :=
  {| todo_frame := [bubble_of brush_teeth (Time 9 0 0 0) (Time 9 30 0 0);
                    bubble_of inverted_task (Time 10 0 0 0) (Time 9 0 0 0)];
     completed_frame := [];
     task_widgets :=
       <[task_id inverted_task := bubble_of inverted_task (Time 10 0 0 0) (Time 9 0 0 0)]>
         (<[task_id brush_teeth := bubble_of brush_teeth (Time 9 0 0 0) (Time 9 30 0 0)]> ∅);
     blinking_tasks := [task_id brush_teeth; task_id inverted_task] |}.

(** ** Times of day *)

Lemma cmp_antisym (a b : time) : PyTime.cmp b a = CompOpp (PyTime.cmp a b).
Proof.
  unfold PyTime.cmp.
  rewrite (Z.compare_antisym (t_hour a) (t_hour b)).
  rewrite (Z.compare_antisym (t_minute a) (t_minute b)).
  rewrite (Z.compare_antisym (t_second a) (t_second b)).
  rewrite (Z.compare_antisym (t_microsecond a) (t_microsecond b)).
  destruct (t_hour a ?= t_hour b)%Z; simpl; try reflexivity.
  destruct (t_minute a ?= t_minute b)%Z; simpl; try reflexivity.
  destruct (t_second a ?= t_second b)%Z; simpl; reflexivity.
Qed.

Lemma leb_negb_ltb (a b : time) : PyTime.leb a b = negb (PyTime.ltb b a).
Proof.
  unfold PyTime.leb, PyTime.ltb. rewrite (cmp_antisym a b).
  destruct (PyTime.cmp a b); reflexivity.
Qed.

Lemma ltb_negb_geb (a b : time) : PyTime.ltb a b = negb (PyTime.geb a b).
Proof. unfold PyTime.geb, PyTime.ltb. destruct (PyTime.cmp a b); reflexivity. Qed.

Lemma geb_leb (a b : time) : PyTime.geb a b = PyTime.leb b a.
Proof. rewrite leb_negb_ltb, ltb_negb_geb. now rewrite negb_involutive. Qed.

Lemma cmp_Lt_iff (a b : time) :
  PyTime.cmp a b = Lt <->
  (t_hour a < t_hour b
   \/ (t_hour a = t_hour b /\
       (t_minute a < t_minute b
        \/ (t_minute a = t_minute b /\
            (t_second a < t_second b
             \/ (t_second a = t_second b /\ t_microsecond a < t_microsecond b))))))%Z.
Proof.
  unfold PyTime.cmp.
  destruct (Z.compare_spec (t_hour a) (t_hour b));
    [ | split; [lia | reflexivity] | split; [discriminate | lia] ].
  destruct (Z.compare_spec (t_minute a) (t_minute b));
    [ | split; [lia | reflexivity] | split; [discriminate | lia] ].
  destruct (Z.compare_spec (t_second a) (t_second b));
    [ | split; [lia | reflexivity] | split; [discriminate | lia] ].
  destruct (Z.compare_spec (t_microsecond a) (t_microsecond b));
    split; try discriminate; try reflexivity; lia.
Qed.

Lemma ltb_leb_trans (a b c : time) :
  PyTime.ltb a b = true -> PyTime.leb b c = true -> PyTime.ltb a c = true.
Proof.
  rewrite leb_negb_ltb, negb_true_iff. unfold PyTime.ltb.
  destruct (PyTime.cmp a b) eqn:Hab; try discriminate. intros _.
  destruct (PyTime.cmp c b) eqn:Hcb; try discriminate; intros _.
  - destruct (PyTime.cmp a c) eqn:Hac; try reflexivity; exfalso.
    + apply cmp_Lt_iff in Hab.
      assert (Hbc : PyTime.cmp b c = Eq)
        by (rewrite (cmp_antisym c b), Hcb; reflexivity).
      revert Hac Hbc Hab. unfold PyTime.cmp.
      destruct (Z.compare_spec (t_hour a) (t_hour c)); try discriminate.
      destruct (Z.compare_spec (t_minute a) (t_minute c)); try discriminate.
      destruct (Z.compare_spec (t_second a) (t_second c)); try discriminate.
      intros Hu%Z.compare_eq.
      destruct (Z.compare_spec (t_hour b) (t_hour c)); try discriminate.
      destruct (Z.compare_spec (t_minute b) (t_minute c)); try discriminate.
      destruct (Z.compare_spec (t_second b) (t_second c)); try discriminate.
      intros Hv%Z.compare_eq. lia.
    + apply cmp_Lt_iff in Hab.
      assert (Hca : PyTime.cmp c a = Lt)
        by (rewrite (cmp_antisym a c), Hac; reflexivity).
      apply cmp_Lt_iff in Hca.
      assert (Hbc : PyTime.cmp b c = Eq)
        by (rewrite (cmp_antisym c b), Hcb; reflexivity).
      revert Hbc. unfold PyTime.cmp.
      destruct (Z.compare_spec (t_hour b) (t_hour c)); try discriminate.
      destruct (Z.compare_spec (t_minute b) (t_minute c)); try discriminate.
      destruct (Z.compare_spec (t_second b) (t_second c)); try discriminate.
      intros Hv%Z.compare_eq. lia.
  - destruct (PyTime.cmp a c) eqn:Hac; try reflexivity; exfalso.
    + apply cmp_Lt_iff in Hab.
      assert (Hbc : PyTime.cmp b c = Lt)
        by (rewrite (cmp_antisym c b), Hcb; reflexivity).
      apply cmp_Lt_iff in Hbc.
      revert Hac. unfold PyTime.cmp.
      destruct (Z.compare_spec (t_hour a) (t_hour c)); try discriminate.
      destruct (Z.compare_spec (t_minute a) (t_minute c)); try discriminate.
      destruct (Z.compare_spec (t_second a) (t_second c)); try discriminate.
      intros Hu%Z.compare_eq. lia.
    + apply cmp_Lt_iff in Hab.
      assert (Hca : PyTime.cmp c a = Lt)
        by (rewrite (cmp_antisym a c), Hac; reflexivity).
      apply cmp_Lt_iff in Hca.
      assert (Hbc : PyTime.cmp b c = Lt)
        by (rewrite (cmp_antisym c b), Hcb; reflexivity).
      apply cmp_Lt_iff in Hbc. lia.
Qed.

(** ** The completion record of a task *)

Lemma is_completed_toggle_same (d : string) (task : Task) :
  is_completed d (toggle_task_completion d task) = negb (is_completed d task).
Proof.
  unfold is_completed at 1. unfold toggle_task_completion. simpl.
  now rewrite lookup_insert_eq.
Qed.

Lemma ledger_toggle_other (d d' : string) (task : Task) :
  d ≠ d' ->
  default ∅ (completed_on (toggle_task_completion d task)) !! d'
  = default ∅ (completed_on task) !! d'.
Proof.
  intros Hne. unfold toggle_task_completion. simpl.
  now rewrite lookup_insert_ne.
Qed.

(** C2: toggling flips the value read for that date (an absent entry
    reads as false, so the first toggle records true), and a second
    toggle for the same date gives back the value read at first. *)
Theorem toggle_flips_and_round_trips (d : string) (task : Task) :
  default ∅ (completed_on (toggle_task_completion d task)) !! d
    = Some (negb (is_completed d task))
  /\ is_completed d (toggle_task_completion d task) = negb (is_completed d task)
  /\ (default ∅ (completed_on task) !! d = None ->
      is_completed d task = false
      /\ is_completed d (toggle_task_completion d task) = true)
  /\ is_completed d (toggle_task_completion d (toggle_task_completion d task))
     = is_completed d task.
Proof.
  split; [| split; [| split]].
  - unfold toggle_task_completion. simpl. apply lookup_insert_eq.
  - apply is_completed_toggle_same.
  - intros Habs.
    assert (Hfalse : is_completed d task = false)
      by (unfold is_completed; now rewrite Habs).
    split; [exact Hfalse |].
    rewrite is_completed_toggle_same, Hfalse. reflexivity.
  - rewrite !is_completed_toggle_same. apply negb_involutive.
Qed.

Lemma lifecycle_state_ext (now : datetime) (t1 t2 : Task) :
  days t1 = days t2 ->
  start_time t1 = start_time t2 ->
  end_time t1 = end_time t2 ->
  is_completed (PyTime.strftime_Ymd now) t1 = is_completed (PyTime.strftime_Ymd now) t2 ->
  lifecycle_state now t1 = lifecycle_state now t2.
Proof.
  intros Hd Hs He Hc.
  unfold lifecycle_state, is_for_today, create_task_bubble, task_colour.
  rewrite Hd, Hs, He, Hc.
  destruct (PyTime.strptime_HM (start_time t2)), (PyTime.strptime_HM (end_time t2));
    reflexivity.
Qed.

(** C9: a toggle for date [D] leaves the entry of every other date [D']
    as it was, hence the state shown on such a date, and it leaves the
    id, text, times and days of the task as they were. *)
Theorem toggle_is_date_scoped (D D' : string) (task : Task) :
  D ≠ D' ->
  default ∅ (completed_on (toggle_task_completion D task)) !! D'
    = default ∅ (completed_on task) !! D'
  /\ is_completed D' (toggle_task_completion D task) = is_completed D' task
  /\ (forall now : datetime,
        PyTime.strftime_Ymd now = D' ->
        lifecycle_state now (toggle_task_completion D task) = lifecycle_state now task)
  /\ task_id (toggle_task_completion D task) = task_id task
  /\ text (toggle_task_completion D task) = text task
  /\ start_time (toggle_task_completion D task) = start_time task
  /\ end_time (toggle_task_completion D task) = end_time task
  /\ days (toggle_task_completion D task) = days task.
Proof.
  intros Hne.
  assert (Hc : is_completed D' (toggle_task_completion D task) = is_completed D' task)
    by (unfold is_completed; now rewrite ledger_toggle_other).
  split; [now apply ledger_toggle_other |].
  split; [exact Hc |].
  split; [| repeat split].
  intros now Hnow. apply lifecycle_state_ext; try reflexivity.
  rewrite Hnow. exact Hc.
Qed.

Lemma toggle_is_date_scoped_witness :
  "2026-11-02" ≠ "2026-11-03"
  /\ is_completed "2026-11-03" (toggle_task_completion "2026-11-02" brush_teeth)
     = is_completed "2026-11-03" brush_teeth.
Proof.
  assert (Hne : "2026-11-02" ≠ "2026-11-03") by discriminate.
  split; [exact Hne |].
  exact (proj1 (proj2 (toggle_is_date_scoped "2026-11-02" "2026-11-03" brush_teeth Hne))).
Defined.

(** ** The state of a task at an instant *)

Lemma task_colour_parsed (now : time) (task : Task) (start stop : time) :
  PyTime.strptime_HM (start_time task) = Some start ->
  PyTime.strptime_HM (end_time task) = Some stop ->
  task_colour now task
  = inr (if PyTime.leb start now && PyTime.ltb now stop then task_active
         else if PyTime.geb now stop then task_overdue
         else task_todo).
Proof. intros Hs He. unfold task_colour. now rewrite Hs, He. Qed.

Lemma ltb_leb (a b : time) : PyTime.ltb a b = true -> PyTime.leb a b = true.
Proof. unfold PyTime.ltb, PyTime.leb. now destruct (PyTime.cmp a b). Qed.

Lemma leb_refl (a : time) : PyTime.leb a a = true.
Proof.
  unfold PyTime.leb.
  assert (Heq : PyTime.cmp a a = Eq) by (unfold PyTime.cmp; now rewrite !Z.compare_refl).
  now rewrite Heq.
Qed.

(** C1: a task for today whose two times are well formed and satisfy the
    invariant of the data model, [start_time < end_time], is [DONE] when
    the record of today holds true, whatever the time; otherwise it is
    [TODO] when [now < start_time], [ACTIVE] when
    [start_time <= now < end_time] and [OVERDUE] when [now >= end_time],
    and one of the three applies at every time.  The window is half
    open: at exactly [start_time] the state is [ACTIVE], at exactly
    [end_time] it is [OVERDUE]. *)
Theorem lifecycle_state_by_window (now : datetime) (task : Task) (start stop : time) :
  is_for_today (PyTime.strftime_A now) task = true ->
  PyTime.strptime_HM (start_time task) = Some start ->
  PyTime.strptime_HM (end_time task) = Some stop ->
  PyTime.ltb start stop = true ->
  (is_completed (PyTime.strftime_Ymd now) task = true ->
     lifecycle_state now task = inr (Some DONE))
  /\ (is_completed (PyTime.strftime_Ymd now) task = false ->
      (PyTime.ltb (PyTime.time_of now) start = true ->
       lifecycle_state now task = inr (Some TODO))
      /\ (PyTime.leb start (PyTime.time_of now) = true ->
          PyTime.ltb (PyTime.time_of now) stop = true ->
          lifecycle_state now task = inr (Some ACTIVE))
      /\ (PyTime.geb (PyTime.time_of now) stop = true ->
          lifecycle_state now task = inr (Some OVERDUE))
      /\ (PyTime.time_of now = start ->
          lifecycle_state now task = inr (Some ACTIVE))
      /\ (PyTime.time_of now = stop ->
          lifecycle_state now task = inr (Some OVERDUE)))
  /\ (PyTime.ltb (PyTime.time_of now) start = true
      \/ (PyTime.leb start (PyTime.time_of now) = true
          /\ PyTime.ltb (PyTime.time_of now) stop = true)
      \/ PyTime.geb (PyTime.time_of now) stop = true).
Proof.
  intros Hday Hs He Hinv.
  assert (Hstate : lifecycle_state now task
                   = if is_completed (PyTime.strftime_Ymd now) task then inr (Some DONE)
                     else inr (Some (state_of_colour
                            (if PyTime.leb start (PyTime.time_of now)
                                && PyTime.ltb (PyTime.time_of now) stop then task_active
                             else if PyTime.geb (PyTime.time_of now) stop then task_overdue
                             else task_todo)))).
  { unfold lifecycle_state, create_task_bubble. rewrite Hday. simpl.
    rewrite (task_colour_parsed _ _ _ _ Hs He). rewrite Hs, He.
    destruct (is_completed _ task); reflexivity. }
  assert (Hover : is_completed (PyTime.strftime_Ymd now) task = false ->
                  PyTime.geb (PyTime.time_of now) stop = true ->
                  lifecycle_state now task = inr (Some OVERDUE)).
  { intros Hc H1. rewrite Hstate, Hc.
    rewrite (ltb_negb_geb (PyTime.time_of now) stop), H1.
    rewrite andb_false_r. reflexivity. }
  assert (Hact : is_completed (PyTime.strftime_Ymd now) task = false ->
                 PyTime.leb start (PyTime.time_of now) = true ->
                 PyTime.ltb (PyTime.time_of now) stop = true ->
                 lifecycle_state now task = inr (Some ACTIVE)).
  { intros Hc H1 H2. rewrite Hstate, Hc, H1, H2. reflexivity. }
  split; [| split].
  - intros Hc. rewrite Hstate, Hc. reflexivity.
  - intros Hc. split; [| split; [| split; [| split]]].
    + intros H1.
      pose proof (ltb_leb_trans _ _ _ H1 (ltb_leb _ _ Hinv)) as H2.
      rewrite Hstate, Hc.
      rewrite (leb_negb_ltb start), H1. simpl.
      rewrite geb_leb, (leb_negb_ltb stop), H2. reflexivity.
    + now apply Hact.
    + now apply Hover.
    + intros Hnow. apply Hact; try assumption.
      * rewrite Hnow. apply leb_refl.
      * now rewrite Hnow.
    + intros Hnow. apply Hover; try assumption.
      rewrite geb_leb, Hnow. apply leb_refl.
  - rewrite (leb_negb_ltb start), (ltb_negb_geb (PyTime.time_of now) stop).
    destruct (PyTime.ltb (PyTime.time_of now) start); [now left | right].
    destruct (PyTime.geb (PyTime.time_of now) stop); [now right | now left].
Qed.

Lemma lifecycle_state_by_window_witness :
  lifecycle_state (at_minute 2026 11 2 8 59) brush_teeth = inr (Some TODO)
  /\ lifecycle_state (at_minute 2026 11 2 9 0) brush_teeth = inr (Some ACTIVE)
  /\ lifecycle_state (at_minute 2026 11 2 9 15) brush_teeth = inr (Some ACTIVE)
  /\ lifecycle_state (at_minute 2026 11 2 9 30) brush_teeth = inr (Some OVERDUE).
Proof.
  assert (Hs : PyTime.strptime_HM (start_time brush_teeth) = Some (Time 9 0 0 0))
    by (vm_compute; reflexivity).
  assert (He : PyTime.strptime_HM (end_time brush_teeth) = Some (Time 9 30 0 0))
    by (vm_compute; reflexivity).
  assert (Hinv : PyTime.ltb (Time 9 0 0 0) (Time 9 30 0 0) = true) by reflexivity.
  split; [| split; [| split]].
  - refine (proj1 (proj1 (proj2 (lifecycle_state_by_window (at_minute 2026 11 2 8 59)
                                   brush_teeth _ _ _ Hs He Hinv)) _) _);
      vm_compute; reflexivity.
  - refine (proj1 (proj2 (proj2 (proj2 (proj1 (proj2
              (lifecycle_state_by_window (at_minute 2026 11 2 9 0)
                 brush_teeth _ _ _ Hs He Hinv)) _)))) _);
      vm_compute; reflexivity.
  - refine (proj1 (proj2 (proj1 (proj2 (lifecycle_state_by_window (at_minute 2026 11 2 9 15)
                                          brush_teeth _ _ _ Hs He Hinv)) _)) _ _);
      vm_compute; reflexivity.
  - refine (proj2 (proj2 (proj2 (proj2 (proj1 (proj2
              (lifecycle_state_by_window (at_minute 2026 11 2 9 30)
                 brush_teeth _ _ _ Hs He Hinv)) _)))) _);
      vm_compute; reflexivity.
Defined.

(** ** Recurrence and the two frames of a child *)

Lemma strftime_A_is_day_name (now : datetime) :
  PyTime.strftime_A now ∈ PyTime.day_names.
Proof.
  unfold PyTime.strftime_A, PyTime.weekday.
  pose proof (Z.mod_pos_bound (PyTime.toordinal now + 6) 7 eq_refl) as Hb.
  set (w := ((PyTime.toordinal now + 6) mod 7)%Z) in *.
  assert (Hw : (Z.to_nat w < 7)%nat) by lia.
  apply list_elem_of_In.
  destruct (Z.to_nat w) as [|[|[|[|[|[|[|n]]]]]]]; simpl; try tauto; lia.
Qed.

Lemma is_for_today_iff (weekday_name : string) (task : Task) :
  is_for_today weekday_name task = true
  <-> "all" ∈ days task \/ weekday_name ∈ days task.
Proof.
  unfold is_for_today.
  rewrite negb_true_iff, andb_false_iff, !negb_false_iff, !bool_decide_eq_true.
  reflexivity.
Qed.

Lemma create_task_bubble_task (task : Task) (b : Bubble) :
  create_task_bubble task = inr b -> bubble_task b = task.
Proof.
  unfold create_task_bubble.
  destruct (PyTime.strptime_HM (start_time task)); try discriminate.
  destruct (PyTime.strptime_HM (end_time task)); try discriminate.
  intros [= <-]. reflexivity.
Qed.

Lemma populate_failed (today_str weekday_name : string) (ts : list Task) (e : Exception) :
  fold_left (populate_task today_str weekday_name) ts (inl e) = inl e.
Proof. induction ts as [| t ts IH]; simpl; [reflexivity | exact IH]. Qed.

(** Every bubble that the loop adds to a frame shows a task of the list
    that is for today, in the frame that its record for today selects. *)
Lemma populate_frames (today_str weekday_name : string) (ts : list Task) :
  forall d d' : Dashboard,
    fold_left (populate_task today_str weekday_name) ts (inr d) = inr d' ->
    (forall b, b ∈ todo_frame d' ->
       b ∈ todo_frame d
       \/ (bubble_task b ∈ ts /\ is_for_today weekday_name (bubble_task b) = true
           /\ is_completed today_str (bubble_task b) = false))
    /\ (forall b, b ∈ completed_frame d' ->
          b ∈ completed_frame d
          \/ (bubble_task b ∈ ts /\ is_for_today weekday_name (bubble_task b) = true
              /\ is_completed today_str (bubble_task b) = true)).
Proof.
  induction ts as [| t ts IH]; intros d d' Hrun.
  - simpl in Hrun. injection Hrun as <-. split; intros b Hb; now left.
  - cbn [fold_left] in Hrun.
    destruct (populate_task today_str weekday_name (inr d) t) as [e | d1] eqn:Hstep.
    { rewrite populate_failed in Hrun. discriminate. }
    destruct (IH _ _ Hrun) as [Htodo Hdone].
    unfold populate_task in Hstep.
    destruct (is_for_today weekday_name t) eqn:Hday; simpl in Hstep.
    + destruct (create_task_bubble t) as [e | tb] eqn:Hbub; [discriminate |].
      apply create_task_bubble_task in Hbub.
      injection Hstep as <-. simpl in Htodo, Hdone.
      split; intros b Hb.
      * destruct (Htodo b Hb) as [Hold | (Hin & Hf & Hc)].
        -- destruct (is_completed today_str t) eqn:Hct; [now left |].
           apply elem_of_app in Hold as [Hold | Hnew]; [now left |].
           apply list_elem_of_singleton in Hnew. subst b. right.
           rewrite Hbub. split; [apply list_elem_of_here | now split].
        -- right. split; [now apply list_elem_of_further | now split].
      * destruct (Hdone b Hb) as [Hold | (Hin & Hf & Hc)].
        -- destruct (is_completed today_str t) eqn:Hct; [| now left].
           apply elem_of_app in Hold as [Hold | Hnew]; [now left |].
           apply list_elem_of_singleton in Hnew. subst b. right.
           rewrite Hbub. split; [apply list_elem_of_here | now split].
        -- right. split; [now apply list_elem_of_further | now split].
    + injection Hstep as <-.
      split; intros b Hb.
      * destruct (Htodo b Hb) as [Hold | (Hin & Hf & Hc)]; [now left |].
        right. split; [now apply list_elem_of_further | now split].
      * destruct (Hdone b Hb) as [Hold | (Hin & Hf & Hc)]; [now left |].
        right. split; [now apply list_elem_of_further | now split].
Qed.

(** The loop ends without an exception when the times of the tasks for
    today are well formed. *)
Lemma populate_returns (today_str weekday_name : string) (ts : list Task) :
  (forall t, t ∈ ts -> is_for_today weekday_name t = true ->
             exists b, create_task_bubble t = inr b) ->
  forall d, exists d', fold_left (populate_task today_str weekday_name) ts (inr d) = inr d'.
Proof.
  induction ts as [| t ts IH]; intros Hok d.
  - now exists d.
  - cbn [fold_left].
    assert (Hstep : exists d1, populate_task today_str weekday_name (inr d) t = inr d1).
    { unfold populate_task.
      destruct (is_for_today weekday_name t) eqn:Hday; simpl; [| now exists d].
      destruct (Hok t (list_elem_of_here _ _) Hday) as [b ->]. eauto. }
    destruct Hstep as [d1 ->].
    apply IH. intros t' Hin. apply Hok. now apply list_elem_of_further.
Qed.

(** C3: a task is for today when its days hold the sentinel ["all"];
    without the sentinel it is for today exactly when the weekday name
    of the date (one of Monday to Sunday) is among its days; and a task
    that is not for today has a bubble neither in the To-Do frame nor
    in the Completed frame of its child. *)
Theorem recurrence_and_views (now : datetime) (task : Task) (child : Child) :
  PyTime.strftime_A now ∈ PyTime.day_names
  /\ (days task = ["all"] -> is_for_today (PyTime.strftime_A now) task = true)
  /\ ("all" ∈ days task -> is_for_today (PyTime.strftime_A now) task = true)
  /\ ("all" ∉ days task ->
      (is_for_today (PyTime.strftime_A now) task = true
       <-> PyTime.strftime_A now ∈ days task))
  /\ (is_for_today (PyTime.strftime_A now) task = false ->
      forall d', populate_tasks_for_child now child empty_dashboard = inr d' ->
      forall b, b ∈ todo_frame d' \/ b ∈ completed_frame d' -> bubble_task b ≠ task)
  /\ ((forall t, t ∈ tasks child -> is_for_today (PyTime.strftime_A now) t = true ->
                 exists b, create_task_bubble t = inr b) ->
      exists d', populate_tasks_for_child now child empty_dashboard = inr d').
Proof.
  split; [apply strftime_A_is_day_name |].
  split; [intros Hd; apply is_for_today_iff; left; rewrite Hd; apply list_elem_of_here |].
  split; [intros Hall; apply is_for_today_iff; now left |].
  split; [intros Hno; rewrite is_for_today_iff; tauto |].
  split.
  - intros Hskip d' Hrun b Hb Htask.
    destruct (populate_frames _ _ _ _ _ Hrun) as [Htodo Hdone].
    destruct Hb as [Hb | Hb].
    + destruct (Htodo b Hb) as [Hold | (_ & Hf & _)].
      * simpl in Hold. now apply not_elem_of_nil in Hold.
      * rewrite Htask, Hskip in Hf. discriminate.
    + destruct (Hdone b Hb) as [Hold | (_ & Hf & _)].
      * simpl in Hold. now apply not_elem_of_nil in Hold.
      * rewrite Htask, Hskip in Hf. discriminate.
  - intros Hok. unfold populate_tasks_for_child. now apply populate_returns.
Qed.

(** ** Loading the data file *)

(** C4, as the program behaves: with no file, with a file that
    disappears before it is opened, and with contents that are not JSON,
    [load_data] returns the fresh document.  Contents that are JSON are
    returned as they are, whatever their structure.  Every other failure
    of [open] or of [json.load] is raised to the caller, and nothing
    else is. *)
Theorem load_data_recovers (f : DataFile) :
  (os_path_exists f = false -> load_data f = inr fresh_document)
  /\ (forall e, e = JSONDecodeError \/ e = FileNotFoundError ->
        open_r f = inl e \/ (open_r f = inr tt /\ json_load f = inl e) ->
        load_data f = inr fresh_document)
  /\ (forall document, os_path_exists f = true -> open_r f = inr tt ->
        json_load f = inr document -> load_data f = inr document)
  /\ (forall e, e ≠ JSONDecodeError -> e ≠ FileNotFoundError ->
        os_path_exists f = true ->
        open_r f = inl e \/ (open_r f = inr tt /\ json_load f = inl e) ->
        load_data f = inl e)
  /\ (forall e, load_data f = inl e ->
        e ≠ JSONDecodeError /\ e ≠ FileNotFoundError /\ os_path_exists f = true
        /\ (open_r f = inl e \/ (open_r f = inr tt /\ json_load f = inl e))).
Proof.
  unfold load_data.
  split; [intros ->; reflexivity |].
  split.
  { intros e He [Ho | [Ho Hj]]; rewrite Ho; try rewrite Hj;
      destruct (os_path_exists f); try reflexivity;
      destruct He as [-> | ->]; reflexivity. }
  split; [intros document -> -> ->; reflexivity |].
  split.
  { intros e H1 H2 -> [Ho | [Ho Hj]]; rewrite Ho; try rewrite Hj;
      destruct e; try contradiction; reflexivity. }
  intros e Hraise.
  destruct (os_path_exists f); [| discriminate]. simpl in Hraise.
  destruct (open_r f) as [e1 | []].
  - destruct (load_data_handles e1) eqn:Hh; [discriminate |].
    injection Hraise as <-.
    repeat split; try (intros ->; discriminate). now left.
  - destruct (json_load f) as [e2 | document]; [| discriminate].
    destruct (load_data_handles e2) eqn:Hh; [discriminate |].
    injection Hraise as <-.
    repeat split; try (intros ->; discriminate). now right.
Qed.

(** C4 as stated fails twice: a file that holds the JSON text of an
    empty list is returned as that list, not as the fresh document, and
    a file that may not be read makes [load_data] raise. *)
Lemma load_data_does_not_always_recover :
  load_data {| os_path_exists := true; open_r := inr tt; json_load := inr (JList []) |}
    = inr (JList [])
  /\ load_data {| os_path_exists := true; open_r := inl PermissionError;
                  json_load := inl PermissionError |}
     = inl PermissionError
  /\ load_data {| os_path_exists := true; open_r := inr tt;
                  json_load := inl UnicodeDecodeError |}
     = inl UnicodeDecodeError.
Proof. repeat split. Qed.

(** ** Registration and login *)

Lemma truthy_false_iff (s : string) : PyStr.truthy s = false <-> s = "".
Proof. destruct s; simpl; split; congruence. Qed.

Lemma truthy_true_iff (s : string) : PyStr.truthy s = true <-> s ≠ "".
Proof. destruct s; simpl; split; congruence. Qed.

Lemma lower_empty_iff (s : string) : PyStr.lower s = "" <-> s = "".
Proof. destruct s; simpl; split; congruence. Qed.

Lemma hash_pin_length (p : string) : String.length (hash_pin p) = 64%nat.
Proof. reflexivity. Qed.

Lemma hash_pin_is_not_the_pin (p : string) : PyStr.len p = 6%nat -> hash_pin p ≠ p.
Proof.
  intros Hlen Heq. pose proof (hash_pin_length p) as H64.
  rewrite Heq in H64. unfold PyStr.len in Hlen. lia.
Qed.

Lemma ascii_digits_are_digits (s : string) :
  s ≠ "" -> PyStr.is_ascii_digits s = true -> PyStr.isdigit s = true.
Proof.
  intros Hne Hall. unfold PyStr.isdigit.
  destruct s as [| c s']; [congruence |].
  unfold PyStr.is_ascii_digits in Hall.
  rewrite forallb_forall in *. intros x Hx. specialize (Hall x Hx).
  unfold PyStr.char_isdigit, PyStr.char_is_ascii_digit in *.
  now rewrite Hall.
Qed.

Lemma register_cases (email_entry pin_entry : string) (c : Controller) :
  (is_error (snd (register email_entry pin_entry c)) = true
   /\ fst (register email_entry pin_entry c) = c
   /\ (email_entry = "" \/ pin_entry = ""
       \/ ~ (PyStr.len pin_entry = 6%nat /\ PyStr.isdigit pin_entry = true)
       \/ is_Some (users (data c) !! PyStr.lower email_entry)))
  \/ (register email_entry pin_entry c
      = (set_users (<[PyStr.lower email_entry :=
                        {| pin := hash_pin pin_entry; children := [] |}]>
                      (users (data c))) c,
         [save_data;
          showinfo "Success" "Registration successful! Please log in.";
          show_frame "LoginPage"])
      /\ email_entry ≠ "" /\ pin_entry ≠ ""
      /\ PyStr.len pin_entry = 6%nat /\ PyStr.isdigit pin_entry = true
      /\ users (data c) !! PyStr.lower email_entry = None).
Proof.
  unfold register.
  destruct (PyStr.truthy (PyStr.lower email_entry)) eqn:He; simpl.
  2:{ left. apply (proj1 (truthy_false_iff _)) in He.
      apply (proj1 (lower_empty_iff _)) in He. repeat split. now left. }
  destruct (PyStr.truthy pin_entry) eqn:Hp; simpl.
  2:{ left. apply (proj1 (truthy_false_iff _)) in Hp. repeat split. right. now left. }
  apply (proj1 (truthy_true_iff _)) in He. apply (proj1 (truthy_true_iff _)) in Hp.
  assert (He' : email_entry ≠ "") by (intros ->; now apply He).
  destruct (PyStr.len pin_entry =? 6)%nat eqn:Hlen; simpl.
  2:{ left. apply Nat.eqb_neq in Hlen. repeat split. right. right. left. tauto. }
  apply Nat.eqb_eq in Hlen.
  destruct (PyStr.isdigit pin_entry) eqn:Hdig; simpl.
  2:{ left. repeat split. right. right. left. intros [_ ?]. congruence. }
  destruct (users (data c) !! PyStr.lower email_entry) as [u |] eqn:Hu.
  - left. repeat split. right. right. right. eauto.
  - right. repeat split; assumption.
Qed.

(** C5, as the program behaves: [register] fails exactly when the email
    is empty, the pin is empty, the pin is not made of exactly six
    characters that [str.isdigit] accepts, or the lower-cased email is
    already a user; a failure leaves the controller as it was.  On
    success the users map gets, at the lower-cased email, the SHA-256
    hex digest of the pin (64 characters, so never the pin itself) and an
    empty list of children; every other user, the settings and the
    current user stay as they were.  Six ASCII digits are always
    accepted as a pin. *)
Theorem register_validates_and_stores (email_entry pin_entry : string) (c : Controller) :
  (is_error (snd (register email_entry pin_entry c)) = true
   <-> email_entry = "" \/ pin_entry = ""
       \/ ~ (PyStr.len pin_entry = 6%nat /\ PyStr.isdigit pin_entry = true)
       \/ is_Some (users (data c) !! PyStr.lower email_entry))
  /\ (is_error (snd (register email_entry pin_entry c)) = true ->
      fst (register email_entry pin_entry c) = c)
  /\ (is_error (snd (register email_entry pin_entry c)) = false ->
      users (data (fst (register email_entry pin_entry c))) !! PyStr.lower email_entry
        = Some {| pin := hash_pin pin_entry; children := [] |}
      /\ hash_pin pin_entry ≠ pin_entry
      /\ String.length (hash_pin pin_entry) = 64%nat
      /\ (forall other, other ≠ PyStr.lower email_entry ->
            users (data (fst (register email_entry pin_entry c))) !! other
            = users (data c) !! other)
      /\ settings (data (fst (register email_entry pin_entry c))) = settings (data c)
      /\ current_user (fst (register email_entry pin_entry c)) = current_user c)
  /\ (PyStr.len pin_entry = 6%nat -> PyStr.is_ascii_digits pin_entry = true ->
      PyStr.len pin_entry = 6%nat /\ PyStr.isdigit pin_entry = true).
Proof.
  destruct (register_cases email_entry pin_entry c)
    as [(Herr & Hsame & Hwhy) | (Hok & He & Hp & Hlen & Hdig & Hfree)].
  - rewrite Herr. split; [| split; [| split]].
    + split; [intros _; exact Hwhy | reflexivity].
    + intros _. exact Hsame.
    + discriminate.
    + intros Hl Ha. split; [exact Hl |].
      apply ascii_digits_are_digits; [| exact Ha]. intros ->. discriminate.
  - rewrite Hok. cbn [fst snd is_error data users settings current_user set_users].
    split; [| split; [| split]].
    + split; [discriminate |].
      intros [? | [? | [Hn | Hs]]]; try contradiction.
      * exfalso. apply Hn. now split.
      * rewrite Hfree in Hs. now destruct Hs.
    + discriminate.
    + intros _. split; [apply lookup_insert_eq |].
      split; [now apply hash_pin_is_not_the_pin |].
      split; [exact (hash_pin_length pin_entry) |].
      split; [| split; reflexivity].
      intros other Hne. now apply lookup_insert_ne.
    + intros Hl Ha. split; [exact Hl |].
      apply ascii_digits_are_digits; [| exact Ha]. intros ->. discriminate.
Qed.

(** C5 as stated fails on a pin of six digits that are not ASCII: six
    times the superscript two is accepted, and its digest is stored. *)
Lemma register_accepts_superscript_digits :
  PyStr.len superscript_pin = 6%nat
  /\ PyStr.is_ascii_digits superscript_pin = false
  /\ PyStr.isdigit superscript_pin = true
  /\ is_error (snd (register "a@b.com" superscript_pin fresh_controller)) = false
  /\ users (data (fst (register "a@b.com" superscript_pin fresh_controller))) !! "a@b.com"
     = Some {| pin := "173ba026a12e7402ae77bfe20c5cfd03577acbbed8d56778726053e5be91b27e";
               children := [] |}.
Proof. vm_compute. repeat split; reflexivity. Qed.

Lemma login_cases (email_entry pin_entry : string) (c : Controller) :
  (login email_entry pin_entry c
     = (c, [showerror "Error" "Email and PIN cannot be empty."])
   /\ (email_entry = "" \/ pin_entry = ""))
  \/ (login email_entry pin_entry c = (c, [showerror "Error" "Invalid email or PIN."])
      /\ email_entry ≠ "" /\ pin_entry ≠ ""
      /\ forall u, users (data c) !! PyStr.lower email_entry = Some u ->
                   pin u ≠ hash_pin pin_entry)
  \/ (snd (login email_entry pin_entry c) = [save_data; show_frame "DashboardPage"]
      /\ current_user (fst (login email_entry pin_entry c)) = Some (PyStr.lower email_entry)
      /\ users (data (fst (login email_entry pin_entry c))) = users (data c)
      /\ email_entry ≠ "" /\ pin_entry ≠ ""
      /\ exists u, users (data c) !! PyStr.lower email_entry = Some u
                   /\ pin u = hash_pin pin_entry).
Proof.
  unfold login.
  destruct (PyStr.truthy (PyStr.lower email_entry)) eqn:He; simpl.
  2:{ left. apply (proj1 (truthy_false_iff _)) in He.
      apply (proj1 (lower_empty_iff _)) in He. split; [reflexivity | now left]. }
  destruct (PyStr.truthy pin_entry) eqn:Hp; simpl.
  2:{ left. apply (proj1 (truthy_false_iff _)) in Hp. split; [reflexivity | now right]. }
  apply (proj1 (truthy_true_iff _)) in He. apply (proj1 (truthy_true_iff _)) in Hp.
  assert (He' : email_entry ≠ "") by (intros ->; now apply He).
  right.
  destruct (users (data c) !! PyStr.lower email_entry) as [u |] eqn:Hu.
  - destruct (String.eqb (pin u) (hash_pin pin_entry)) eqn:Heq.
    + right. apply String.eqb_eq in Heq. simpl. repeat split; try assumption. eauto.
    + left. apply String.eqb_neq in Heq. repeat split; try assumption.
      intros u' [= <-]. exact Heq.
  - left. repeat split; try assumption. discriminate.
Qed.

Lemma register_keeps_the_empty_key_out (email_entry pin_entry : string) (c : Controller) :
  users (data c) !! "" = None ->
  users (data (fst (register email_entry pin_entry c))) !! "" = None.
Proof.
  intros Hnone.
  destruct (register_cases email_entry pin_entry c)
    as [(_ & -> & _) | (-> & He & _)]; [exact Hnone |].
  cbn [fst data users set_users]. rewrite lookup_insert_ne; [exact Hnone |].
  intros Heq. apply He. now apply lower_empty_iff.
Qed.

(** C6: for every email and every pin that is not empty, as every valid
    pin is, on a store that has no user under the empty email, as every
    store that [register] has filled: logging in with the email and pin
    of a registration that has just succeeded succeeds; a pin whose
    digest differs from the stored one fails; login succeeds exactly
    when the lower-cased email is a user and the digest of the pin
    equals the stored one; and an unknown email and a wrong pin give one
    and the same message.  [register] keeps the empty email out of the
    store. *)
Theorem login_succeeds_iff (email_entry pin_entry : string) (c : Controller) :
  pin_entry ≠ "" ->
  users (data c) !! "" = None ->
  (logged_in (snd (login email_entry pin_entry c)) = true
   <-> exists u, users (data c) !! PyStr.lower email_entry = Some u
                 /\ pin u = hash_pin pin_entry)
  /\ (logged_in (snd (login email_entry pin_entry c)) = true ->
      current_user (fst (login email_entry pin_entry c)) = Some (PyStr.lower email_entry)
      /\ users (data (fst (login email_entry pin_entry c))) = users (data c))
  /\ (is_error (snd (register email_entry pin_entry c)) = false ->
      logged_in (snd (login email_entry pin_entry
                        (fst (register email_entry pin_entry c)))) = true)
  /\ (forall u wrong_pin,
        users (data c) !! PyStr.lower email_entry = Some u ->
        hash_pin wrong_pin ≠ pin u ->
        logged_in (snd (login email_entry wrong_pin c)) = false
        /\ is_error (snd (login email_entry wrong_pin c)) = true
        /\ fst (login email_entry wrong_pin c) = c)
  /\ (email_entry ≠ "" ->
      logged_in (snd (login email_entry pin_entry c)) = false ->
      login email_entry pin_entry c = (c, [showerror "Error" "Invalid email or PIN."]))
  /\ (forall email' pin',
        users (data (fst (register email' pin' c))) !! "" = None).
Proof.
  intros Hpin Hkey.
  split; [| split; [| split; [| split; [| split]]]].
  - destruct (login_cases email_entry pin_entry c)
      as [(Hl & Hwhy) | [(Hl & He & Hp & Hno) | (Hl & _ & _ & He & Hp & Hu)]].
    + rewrite Hl. simpl. split; [discriminate |].
      intros (u & Hu & _). destruct Hwhy as [-> | ->]; [| contradiction].
      simpl in Hu. rewrite Hkey in Hu. discriminate.
    + rewrite Hl. simpl. split; [discriminate |].
      intros (u & Hu & Heq). now destruct (Hno u Hu).
    + rewrite Hl. simpl. split; [now intros _ | reflexivity].
  - intros Hin.
    destruct (login_cases email_entry pin_entry c)
      as [(Hl & _) | [(Hl & _) | (_ & Hcu & Hus & _)]].
    + rewrite Hl in Hin. discriminate.
    + rewrite Hl in Hin. discriminate.
    + now split.
  - intros Hreg.
    destruct (register_cases email_entry pin_entry c)
      as [(Herr & _) | (Hok & He & Hp & _)]; [congruence |].
    destruct (login_cases email_entry pin_entry (fst (register email_entry pin_entry c)))
      as [(_ & [? | ?]) | [(_ & _ & _ & Hno) | (Hl & _)]]; try contradiction.
    + exfalso. rewrite Hok in Hno. cbn [fst data users set_users] in Hno.
      apply (Hno _ (lookup_insert_eq _ _ _)). reflexivity.
    + now rewrite Hl.
  - intros u wrong_pin Hu Hne.
    destruct (login_cases email_entry wrong_pin c)
      as [(Hl & _) | [(Hl & _) | (_ & _ & _ & _ & _ & u' & Hu' & Heq)]].
    + rewrite Hl. repeat split.
    + rewrite Hl. repeat split.
    + rewrite Hu in Hu'. injection Hu' as <-. now destruct Hne.
  - intros He Hout.
    destruct (login_cases email_entry pin_entry c)
      as [(_ & [? | ?]) | [(Hl & _) | (Hl & _)]]; try contradiction.
    + exact Hl.
    + rewrite Hl in Hout. discriminate.
  - intros email' pin'. now apply register_keeps_the_empty_key_out.
Qed.

Lemma login_succeeds_iff_witness :
  "123456" ≠ ""
  /\ users (data (fst (register "a@b.com" "123456" fresh_controller))) !! "" = None
  /\ logged_in (snd (login "A@b.com" "123456"
                       (fst (register "a@b.com" "123456" fresh_controller)))) = true
  /\ logged_in (snd (login "A@b.com" "654321"
                       (fst (register "a@b.com" "123456" fresh_controller)))) = false.
Proof.
  assert (Hpin : "123456" ≠ "") by discriminate.
  assert (Hkey : users (data (fst (register "a@b.com" "123456" fresh_controller))) !! ""
                 = None) by (vm_compute; reflexivity).
  split; [exact Hpin |]. split; [exact Hkey |]. split.
  - refine (proj2 (proj1 (login_succeeds_iff "A@b.com" "123456" _ Hpin Hkey)) _).
    eexists. split; vm_compute; reflexivity.
  - refine (proj1 (proj1 (proj2 (proj2 (proj2
              (login_succeeds_iff "A@b.com" "123456" _ Hpin Hkey))))
              {| pin := hash_pin "123456"; children := [] |} "654321" _ _)).
    + vm_compute. reflexivity.
    + vm_compute. discriminate.
Defined.

(** ** Adding and removing tasks *)

Lemma filter_nil_iff {A} (f : A -> bool) (l : list A) :
  List.filter f l = [] <-> forall x, In x l -> f x = false.
Proof.
  induction l as [| a l IH]; simpl.
  - split; [intros _ x [] | reflexivity].
  - destruct (f a) eqn:Ha.
    + split; [discriminate |]. intros H. specialize (H a (or_introl eq_refl)). congruence.
    + rewrite IH. split.
      * intros H x [<- | Hx]; [exact Ha | now apply H].
      * intros H x Hx. apply H. now right.
Qed.

Lemma filter_length_le {A} (f : A -> bool) (l : list A) :
  (length (List.filter f l) <= length l)%nat.
Proof.
  induction l as [| a l IH]; simpl; [lia |].
  destruct (f a); simpl; lia.
Qed.

Lemma filter_full_iff {A} (f : A -> bool) (l : list A) :
  length (List.filter f l) = length l <-> forall x, In x l -> f x = true.
Proof.
  induction l as [| a l IH]; simpl.
  - split; [intros _ x [] | reflexivity].
  - pose proof (filter_length_le f l) as Hle.
    destruct (f a) eqn:Ha; simpl.
    + split.
      * intros Hlen x [<- | Hx]; [exact Ha |]. apply IH; [lia | exact Hx].
      * intros H. f_equal. apply IH. intros x Hx. apply H. now right.
    + split; [lia |]. intros H. specialize (H a (or_introl eq_refl)). congruence.
Qed.

Lemma selected_days_elem (p : AddTaskPopup) (day : string) :
  day ∈ selected_days p <-> day ∈ PyTime.day_names /\ day_vars p day = true.
Proof.
  unfold selected_days. rewrite !list_elem_of_In, filter_In. reflexivity.
Qed.

Lemma new_task_days_all (p : AddTaskPopup) (clock_us : Z) :
  days (new_task p clock_us) = ["all"]
  <-> forall day, day ∈ PyTime.day_names -> day_vars p day = true.
Proof.
  unfold new_task. cbn [days].
  destruct (length (selected_days p) =? 7)%nat eqn:Hlen.
  - apply Nat.eqb_eq in Hlen. split; [intros _ | reflexivity].
    intros day Hday. apply list_elem_of_In in Hday.
    now apply (proj1 (filter_full_iff (day_vars p) PyTime.day_names) Hlen).
  - apply Nat.eqb_neq in Hlen. split.
    + intros Hall.
      assert (Hin : "all" ∈ selected_days p) by (rewrite Hall; apply list_elem_of_here).
      apply selected_days_elem in Hin as [Hin _].
      apply list_elem_of_In in Hin. simpl in Hin.
      repeat (destruct Hin as [Hin | Hin]; [discriminate |]). destruct Hin.
    + intros Hall. exfalso. apply Hlen.
      apply (proj2 (filter_full_iff (day_vars p) PyTime.day_names)).
      intros day Hday. apply Hall. now apply list_elem_of_In.
Qed.

Lemma save_stores (p : AddTaskPopup) (clock_us : Z) (c : Controller)
    (email : string) (u : User) :
  task_text_entry p ≠ "" -> start_hour p ≠ "" -> start_min p ≠ "" ->
  end_hour p ≠ "" -> end_min p ≠ "" ->
  (exists day, day ∈ PyTime.day_names /\ day_vars p day = true) ->
  current_user c = Some email ->
  users (data c) !! email = Some u ->
  save p clock_us c
  = inr (set_children email u
           match find_child (child_name p) (children u) with
           | Some (i, child_data) =>
               <[i := set_tasks (tasks child_data ++ [new_task p clock_us]) child_data]>
                 (children u)
           | None => children u
           end c,
         [save_data]).
Proof.
  intros H1 H2 H3 H4 H5 (day & Hday & Hsel) Hcu Hu.
  unfold save, current_user_data.
  rewrite (proj2 (truthy_true_iff _) H1), (proj2 (truthy_true_iff _) H2),
    (proj2 (truthy_true_iff _) H3), (proj2 (truthy_true_iff _) H4),
    (proj2 (truthy_true_iff _) H5). simpl.
  destruct (selected_days p) as [| d ds] eqn:Hsd.
  - assert (Hin : day ∈ selected_days p) by (apply selected_days_elem; now split).
    rewrite Hsd in Hin. now apply not_elem_of_nil in Hin.
  - rewrite Hcu, Hu. reflexivity.
Qed.

Lemma controller_eta (c : Controller) (email : string) (u : User) :
  users (data c) !! email = Some u ->
  set_children email u (children u) c = c.
Proof.
  intros Hu. unfold set_children, set_users.
  destruct c as [[us st] cu]. destruct u as [p cs]. cbn in *.
  now rewrite insert_id.
Qed.

(** C8, as the program behaves: [save] reports an error, and changes
    nothing, when the text or one of the four time fields is empty and
    when no day is selected; the task it builds has the days [["all"]]
    exactly when all seven days are selected and the selected days, in
    the order Monday to Sunday, otherwise.  When the entries pass and
    the current user has a child with the name of the popup, that task
    is appended to the tasks of the first such child; when no child has
    that name, [save] still reports no error, and stores nothing. *)
Theorem save_validates_and_normalises (p : AddTaskPopup) (clock_us : Z) (c : Controller) :
  (task_text_entry p = "" \/ start_hour p = "" \/ start_min p = ""
   \/ end_hour p = "" \/ end_min p = "" ->
   save p clock_us c = inr (c, [showerror "Error" "All fields must be filled."]))
  /\ ((forall day, day ∈ PyTime.day_names -> day_vars p day = false) ->
      exists message, save p clock_us c = inr (c, [showerror "Error" message]))
  /\ (days (new_task p clock_us) = ["all"]
      <-> forall day, day ∈ PyTime.day_names -> day_vars p day = true)
  /\ ((exists day, day ∈ PyTime.day_names /\ day_vars p day = false) ->
      days (new_task p clock_us) = selected_days p)
  /\ (forall day, day ∈ selected_days p
                  <-> day ∈ PyTime.day_names /\ day_vars p day = true)
  /\ (forall email u,
        task_text_entry p ≠ "" -> start_hour p ≠ "" -> start_min p ≠ "" ->
        end_hour p ≠ "" -> end_min p ≠ "" ->
        (exists day, day ∈ PyTime.day_names /\ day_vars p day = true) ->
        current_user c = Some email ->
        users (data c) !! email = Some u ->
        ((exists child, child ∈ children u /\ name child = child_name p) ->
         exists i child c',
           children u !! i = Some child
           /\ name child = child_name p
           /\ (forall k ck, k < i -> children u !! k = Some ck -> name ck ≠ child_name p)
           /\ save p clock_us c = inr (c', [save_data])
           /\ users (data c') !! email
              = Some {| pin := pin u;
                        children :=
                          <[i := set_tasks (tasks child ++ [new_task p clock_us]) child]>
                            (children u) |})
        /\ ((forall child, child ∈ children u -> name child ≠ child_name p) ->
            save p clock_us c = inr (c, [save_data]))).
Proof.
  split; [| split; [| split; [| split; [| split]]]].
  - intros Hempty. unfold save.
    assert (Hcond : negb (PyStr.truthy (task_text_entry p))
                    || negb (PyStr.truthy (start_hour p))
                    || negb (PyStr.truthy (start_min p))
                    || negb (PyStr.truthy (end_hour p))
                    || negb (PyStr.truthy (end_min p)) = true).
    { destruct Hempty as [H | [H | [H | [H | H]]]]; rewrite H; simpl;
        rewrite ?orb_true_r; reflexivity. }
    now rewrite Hcond.
  - intros Hnone. unfold save.
    destruct (negb (PyStr.truthy (task_text_entry p))
              || negb (PyStr.truthy (start_hour p))
              || negb (PyStr.truthy (start_min p))
              || negb (PyStr.truthy (end_hour p))
              || negb (PyStr.truthy (end_min p))); [eauto |].
    assert (Hsd : selected_days p = []).
    { apply filter_nil_iff. intros x Hx. apply Hnone. now apply list_elem_of_In. }
    rewrite Hsd. eauto.
  - apply new_task_days_all.
  - intros (day & Hday & Hoff). unfold new_task. cbn [days].
    destruct (length (selected_days p) =? 7)%nat eqn:Hlen; [| reflexivity].
    apply Nat.eqb_eq in Hlen. apply list_elem_of_In in Hday.
    rewrite (proj1 (filter_full_iff (day_vars p) PyTime.day_names) Hlen day Hday) in Hoff.
    discriminate.
  - apply selected_days_elem.
  - intros email u H1 H2 H3 H4 H5 Hsel Hcu Hu.
    rewrite (save_stores p clock_us c email u H1 H2 H3 H4 H5 Hsel Hcu Hu).
    split.
    + intros (child0 & Hin & Hname).
      destruct (list_find_elem_of (fun child => name child = child_name p)
                  (children u) child0 Hin Hname) as [[i child] Hfind].
      unfold find_child. rewrite Hfind.
      apply list_find_Some in Hfind as (Hi & Hn & Hfirst).
      exists i, child. eexists.
      split; [exact Hi |]. split; [exact Hn |].
      split; [intros k ck Hk Hck; now apply (Hfirst k ck) |].
      split; [reflexivity |].
      unfold set_children, set_users. cbn [data users]. apply lookup_insert_eq.
    + intros Hno.
      assert (Hfind : find_child (child_name p) (children u) = None).
      { unfold find_child. apply list_find_None, Forall_forall. exact Hno. }
      rewrite Hfind. now rewrite controller_eta.
Qed.

(** C8 as stated fails when no child has the name of the popup.  After
    the only child has been removed the selector of the settings page
    still shows the name; a task saved for that name passes the checks,
    no error is reported, and no task is stored. *)
Lemma save_for_a_removed_child_stores_nothing :
  remove_child true sam (controller_with [sam]) = inr (controller_with [], [save_data])
  /\ populate_child_selector "Sam" (controller_with []) = ([], "Sam")
  /\ child_name brush_popup = "Sam"
  /\ save brush_popup 1700000000250000 (controller_with [])
     = inr (controller_with [], [save_data])
  /\ is_error [save_data] = false
  /\ children_after "a@b.com" (save brush_popup 1700000000250000 (controller_with [])) = [].
Proof. vm_compute. repeat split; reflexivity. Qed.

(** C7 on the program: two tasks saved for the same child within one
    second of the clock get the same id. *)
Theorem save_twice_in_one_second_repeats_the_id :
  PyTime.timestamp_seconds 1700000000250000 = 1700000000%Z
  /\ PyTime.timestamp_seconds 1700000000750000 = 1700000000%Z
  /\ map (fun child => map task_id (tasks child))
         (children_after "a@b.com"
            (and_then (save brush_popup 1700000000250000 (controller_with [sam]))
                      (save wash_popup 1700000000750000)))
     = [["task_1700000000"; "task_1700000000"]].
Proof. vm_compute. repeat split; reflexivity. Qed.

(** ** The child that a command reaches *)

Lemma list_remove_not_in {A} `{EqDecision A} (x : A) (l : list A) :
  x ∉ l -> list_remove x l = l.
Proof.
  induction l as [| y l IH]; intros Hx; simpl; [reflexivity |].
  destruct (decide (y = x)) as [-> | Hne].
  - exfalso. apply Hx. apply list_elem_of_here.
  - f_equal. apply IH. intros Hin. apply Hx. now apply list_elem_of_further.
Qed.

Lemma set_tasks_same (child : Child) : set_tasks (tasks child) child = child.
Proof. now destruct child. Qed.

Lemma find_child_first (child_name : string) (cs : list Child) (i : nat) (first : Child) :
  cs !! i = Some first ->
  name first = child_name ->
  (forall k ck, k < i -> cs !! k = Some ck -> name ck ≠ child_name) ->
  find_child child_name cs = Some (i, first).
Proof.
  intros Hi Hname Hfirst. unfold find_child. apply list_find_Some.
  split; [exact Hi |]. split; [exact Hname |].
  intros k ck Hk Hlt. now apply (Hfirst k ck).
Qed.

Lemma lookup_set_children (email : string) (u : User) (cs : list Child) (c : Controller) :
  users (data (set_children email u cs c)) !! email
  = Some {| pin := pin u; children := cs |}.
Proof. unfold set_children, set_users. cbn [data users]. apply lookup_insert_eq. Qed.

(** C10: [save] and [remove_task] look the child up by name.  When two
    children of the user have the same name, the command changes the
    tasks of the first of them in the list and leaves the later one,
    and every other child, as it was. *)
Theorem commands_reach_first_child_of_that_name
    (c : Controller) (email : string) (u : User) (i j : nat) (first later : Child) :
  current_user c = Some email ->
  users (data c) !! email = Some u ->
  children u !! i = Some first ->
  children u !! j = Some later ->
  i < j ->
  name later = name first ->
  (forall k ck, k < i -> children u !! k = Some ck -> name ck ≠ name first) ->
  (forall p clock_us,
     child_name p = name first ->
     task_text_entry p ≠ "" -> start_hour p ≠ "" -> start_min p ≠ "" ->
     end_hour p ≠ "" -> end_min p ≠ "" ->
     (exists day, day ∈ PyTime.day_names /\ day_vars p day = true) ->
     exists c' u',
       save p clock_us c = inr (c', [save_data])
       /\ users (data c') !! email = Some u'
       /\ children u' !! i = Some (set_tasks (tasks first ++ [new_task p clock_us]) first)
       /\ children u' !! j = Some later
       /\ forall k, k ≠ i -> children u' !! k = children u !! k)
  /\ (forall task,
        exists c' out u',
          remove_task (name first) task c = inr (c', out)
          /\ users (data c') !! email = Some u'
          /\ children u' !! i = Some (set_tasks (list_remove task (tasks first)) first)
          /\ children u' !! j = Some later
          /\ forall k, k ≠ i -> children u' !! k = children u !! k).
Proof.
  intros Hcu Hu Hi Hj Hlt Hsame Hfirst.
  assert (Hfind : find_child (name first) (children u) = Some (i, first))
    by now apply find_child_first.
  assert (Hlen : i < length (children u)) by now apply lookup_lt_Some in Hi.
  split.
  - intros p clock_us Hname H1 H2 H3 H4 H5 Hsel.
    rewrite (save_stores p clock_us c email u H1 H2 H3 H4 H5 Hsel Hcu Hu).
    rewrite Hname, Hfind.
    eexists. eexists. split; [reflexivity |].
    split; [apply lookup_set_children |]. cbn [children].
    split; [now apply list_lookup_insert_eq |].
    split; [rewrite list_lookup_insert_ne; [exact Hj | lia] |].
    intros k Hk. now apply list_lookup_insert_ne.
  - intros task. unfold remove_task, current_user_data.
    rewrite Hcu, Hu, Hfind.
    destruct (bool_decide (task ∈ tasks first)) eqn:Hin.
    + eexists. eexists. eexists. split; [reflexivity |].
      split; [apply lookup_set_children |]. cbn [children].
      split; [now apply list_lookup_insert_eq |].
      split; [rewrite list_lookup_insert_ne; [exact Hj | lia] |].
      intros k Hk. now apply list_lookup_insert_ne.
    + apply bool_decide_eq_false in Hin.
      exists c, [], u. split; [reflexivity |].
      split; [exact Hu |].
      split; [now rewrite (list_remove_not_in _ _ Hin), set_tasks_same |].
      split; [exact Hj | reflexivity].
Qed.

Lemma commands_reach_first_child_of_that_name_witness :
  children {| pin := hash_pin "123456"; children := [sam; other_sam] |} !! 0%nat = Some sam
  /\ children {| pin := hash_pin "123456"; children := [sam; other_sam] |} !! 1%nat
     = Some other_sam
  /\ name other_sam = name sam
  /\ exists c' u',
       save brush_popup 1700000000250000%Z (controller_with [sam; other_sam])
         = inr (c', [save_data])
       /\ users (data c') !! "a@b.com" = Some u'
       /\ children u' !! 0%nat
          = Some (set_tasks (tasks sam ++ [new_task brush_popup 1700000000250000%Z]) sam)
       /\ children u' !! 1%nat = Some other_sam
       /\ forall k, k ≠ 0%nat ->
            children u' !! k
            = children {| pin := hash_pin "123456"; children := [sam; other_sam] |} !! k.
Proof.
  split; [reflexivity |]. split; [reflexivity |]. split; [reflexivity |].
  refine (proj1 (commands_reach_first_child_of_that_name
                   (controller_with [sam; other_sam]) "a@b.com"
                   {| pin := hash_pin "123456"; children := [sam; other_sam] |}
                   0%nat 1%nat sam other_sam _ _ _ _ _ _ _)
                brush_popup 1700000000250000%Z _ _ _ _ _ _ _);
    try reflexivity; try discriminate; try lia.
  exists "Monday". split; [apply list_elem_of_here | reflexivity].
Defined.

(** ** Checks of the model against the library and the specification *)

Example hash_pin_empty :
  hash_pin "" = "e3b0c44298fc1c149afbf4c8996fb92427ae41e4649b934ca495991b7852b855".
Proof. vm_compute. reflexivity. Qed.

Example hash_pin_abc :
  hash_pin "abc" = "ba7816bf8f01cfea414140de5dae2223b00361a396177a9cb410ff61f20015ad".
Proof. vm_compute. reflexivity. Qed.

Example hash_pin_123456 :
  hash_pin "123456" = "8d969eef6ecad3c29a3a629280e686cf0c3f5d5a86aff3ca12020c923adc6c92".
Proof. vm_compute. reflexivity. Qed.

(** A message of seventy bytes, which takes two blocks. *)
Example sha256_two_blocks :
  SHA256.hexdigest (repeat 97%N 70)
  = "6bd5e5034855a11241f0dee8fc72850ffd9955b28347a86428b5fa19119f6ad0".
Proof. vm_compute. reflexivity. Qed.

Example weekday_names :
  PyTime.strftime_A (at_minute 2026 11 2 9 15) = "Monday"
  /\ PyTime.strftime_A (at_minute 2026 11 3 9 15) = "Tuesday"
  /\ PyTime.strftime_A (at_minute 2024 2 29 0 0) = "Thursday"
  /\ PyTime.strftime_A (at_minute 2000 1 1 0 0) = "Saturday"
  /\ PyTime.strftime_Ymd (at_minute 2026 11 3 9 15) = "2026-11-03".
Proof. vm_compute. repeat split; reflexivity. Qed.

Example strptime_cases :
  PyTime.strptime_HM "09:30" = Some (Time 9 30 0 0)
  /\ PyTime.strptime_HM "9:5" = Some (Time 9 5 0 0)
  /\ PyTime.strptime_HM "24:00" = None
  /\ PyTime.strptime_HM "23:60" = None
  /\ PyTime.strptime_HM "1:2:3" = None
  /\ PyTime.strptime_HM "ab:cd" = None.
Proof. vm_compute. repeat split; reflexivity. Qed.

(** The scenario of the specification: on a Monday the task from 09:00
    to 09:30 is not yet due at 08:59, active at 09:15 and overdue at
    09:31; once toggled it is done; on Tuesday it has no instance. *)
Example brush_teeth_scenario :
  lifecycle_state (at_minute 2026 11 2 8 59) brush_teeth = inr (Some TODO)
  /\ lifecycle_state (at_minute 2026 11 2 9 15) brush_teeth = inr (Some ACTIVE)
  /\ lifecycle_state (at_minute 2026 11 2 9 31) brush_teeth = inr (Some OVERDUE)
  /\ lifecycle_state (at_minute 2026 11 2 9 31)
       (toggle_task_completion "2026-11-02" brush_teeth) = inr (Some DONE)
  /\ lifecycle_state (at_minute 2026 11 2 9 31)
       (toggle_task_completion "2026-11-02"
          (toggle_task_completion "2026-11-02" brush_teeth)) = inr (Some OVERDUE)
  /\ lifecycle_state (at_minute 2026 11 3 9 15) brush_teeth = inr None.
Proof. vm_compute. repeat split; reflexivity. Qed.

(** Registering, logging in, adding a child and a task, then clicking the
    bubble of the task. *)
Example end_to_end :
  map (fun child => map (is_completed "2026-11-02") (tasks child))
      (children_after "a@b.com"
         (and_then
            (and_then
               (and_then
                  (inr (login "a@b.com" "123456"
                          (fst (register "a@b.com" "123456" fresh_controller))))
                  (add_child "Sam" "male"))
               (save brush_popup 1700000000250000%Z))
            (click_task_bubble (at_minute 2026 11 2 9 15) 0 0)))
  = [[true]].
Proof. vm_compute. reflexivity. Qed.

(** * Further properties of the program *)

(** ** The state of a task as the day goes on *)

Lemma leb_trans (a b c : time) :
  PyTime.leb a b = true -> PyTime.leb b c = true -> PyTime.leb a c = true.
Proof.
  intros Hab Hbc. rewrite leb_negb_ltb. apply negb_true_iff.
  destruct (PyTime.ltb c a) eqn:Hca; [| reflexivity].
  pose proof (ltb_leb_trans c a b Hca Hab) as Hcb.
  rewrite leb_negb_ltb, Hcb in Hbc. discriminate.
Qed.

Lemma lifecycle_state_parsed (now : datetime) (task : Task) (start stop : time) :
  PyTime.strptime_HM (start_time task) = Some start ->
  PyTime.strptime_HM (end_time task) = Some stop ->
  lifecycle_state now task
  = if negb (is_for_today (PyTime.strftime_A now) task) then inr None
    else if is_completed (PyTime.strftime_Ymd now) task then inr (Some DONE)
    else inr (Some (state_of_colour
           (if PyTime.leb start (PyTime.time_of now)
               && PyTime.ltb (PyTime.time_of now) stop then task_active
            else if PyTime.geb (PyTime.time_of now) stop then task_overdue
            else task_todo))).
Proof.
  intros Hs He. unfold lifecycle_state, create_task_bubble.
  rewrite (task_colour_parsed _ _ _ _ Hs He), Hs, He.
  destruct (negb _); [reflexivity |].
  destruct (is_completed _ task); reflexivity.
Qed.

Lemma lifecycle_state_unparsed (now : datetime) (task : Task) (s : State) :
  lifecycle_state now task = inr (Some s) ->
  exists start stop,
    PyTime.strptime_HM (start_time task) = Some start
    /\ PyTime.strptime_HM (end_time task) = Some stop.
Proof.
  unfold lifecycle_state, create_task_bubble.
  destruct (negb _); [discriminate |].
  destruct (PyTime.strptime_HM (start_time task)) as [start |]; [| discriminate].
  destruct (PyTime.strptime_HM (end_time task)) as [stop |]; [| discriminate].
  eauto.
Qed.

(** X1: A task whose end time is not after its start time is never shown
    active: while pending it is TODO before the end time and OVERDUE
    from the end time on. *)
Theorem empty_window_is_never_active (now : datetime) (task : Task) (start stop : time) :
  PyTime.strptime_HM (start_time task) = Some start ->
  PyTime.strptime_HM (end_time task) = Some stop ->
  PyTime.leb stop start = true ->
  lifecycle_state now task ≠ inr (Some ACTIVE)
  /\ (is_for_today (PyTime.strftime_A now) task = true ->
      is_completed (PyTime.strftime_Ymd now) task = false ->
      lifecycle_state now task
      = inr (Some (if PyTime.ltb (PyTime.time_of now) stop then TODO else OVERDUE))).
Proof.
  intros Hs He Hinv.
  assert (Hwin : PyTime.leb start (PyTime.time_of now)
                 && PyTime.ltb (PyTime.time_of now) stop = false).
  { destruct (PyTime.ltb (PyTime.time_of now) stop) eqn:Hlt;
      [| apply andb_false_r].
    rewrite leb_negb_ltb, (ltb_leb_trans _ _ _ Hlt Hinv). reflexivity. }
  rewrite (lifecycle_state_parsed now task start stop Hs He), Hwin.
  split.
  - destruct (negb _); [discriminate |].
    destruct (is_completed _ task); [discriminate |].
    destruct (PyTime.geb _ stop); discriminate.
  - intros -> ->. simpl. rewrite ltb_negb_geb.
    destruct (PyTime.geb _ stop); reflexivity.
Qed.

Lemma empty_window_is_never_active_witness :
  PyTime.leb (Time 9 0 0 0) (Time 10 0 0 0) = true
  /\ lifecycle_state (at_minute 2026 11 2 9 30) inverted_task ≠ inr (Some ACTIVE).
Proof.
  split; [reflexivity |].
  refine (proj1 (empty_window_is_never_active (at_minute 2026 11 2 9 30) inverted_task
                   (Time 10 0 0 0) (Time 9 0 0 0) _ _ _)); reflexivity.
Defined.

(** X2: Within one day and without a toggle, the state of a task only moves
    forward as the time of day grows: OVERDUE and DONE stay, ACTIVE stays
    or becomes OVERDUE, so a task that is TODO was TODO at every earlier
    time of that day. *)
Theorem lifecycle_state_moves_forward (now later : datetime) (task : Task) :
  PyTime.strftime_A later = PyTime.strftime_A now ->
  PyTime.strftime_Ymd later = PyTime.strftime_Ymd now ->
  PyTime.leb (PyTime.time_of now) (PyTime.time_of later) = true ->
  (lifecycle_state now task = inr (Some DONE) ->
   lifecycle_state later task = inr (Some DONE))
  /\ (lifecycle_state now task = inr (Some OVERDUE) ->
      lifecycle_state later task = inr (Some OVERDUE))
  /\ (lifecycle_state now task = inr (Some ACTIVE) ->
      lifecycle_state later task = inr (Some ACTIVE)
      \/ lifecycle_state later task = inr (Some OVERDUE))
  /\ (lifecycle_state later task = inr (Some TODO) ->
      lifecycle_state now task = inr (Some TODO)).
Proof.
  intros Hwd Hymd Hle.
  assert (Hcases :
    forall s, lifecycle_state now task = inr (Some s) \/ lifecycle_state later task = inr (Some s) ->
    exists start stop,
      lifecycle_state now task
      = (if negb (is_for_today (PyTime.strftime_A now) task) then inr None
         else if is_completed (PyTime.strftime_Ymd now) task then inr (Some DONE)
         else inr (Some (state_of_colour
                (if PyTime.leb start (PyTime.time_of now)
                    && PyTime.ltb (PyTime.time_of now) stop then task_active
                 else if PyTime.geb (PyTime.time_of now) stop then task_overdue
                 else task_todo))))
      /\ lifecycle_state later task
         = (if negb (is_for_today (PyTime.strftime_A now) task) then inr None
            else if is_completed (PyTime.strftime_Ymd now) task then inr (Some DONE)
            else inr (Some (state_of_colour
                   (if PyTime.leb start (PyTime.time_of later)
                       && PyTime.ltb (PyTime.time_of later) stop then task_active
                    else if PyTime.geb (PyTime.time_of later) stop then task_overdue
                    else task_todo))))).
  { intros s [H | H]; destruct (lifecycle_state_unparsed _ _ _ H) as (start & stop & Hs & He);
      exists start, stop;
      rewrite (lifecycle_state_parsed now task start stop Hs He),
        (lifecycle_state_parsed later task start stop Hs He), Hwd, Hymd; now split. }
  assert (Hstep : forall start stop,
    (PyTime.geb (PyTime.time_of now) stop = true ->
     PyTime.geb (PyTime.time_of later) stop = true)
    /\ (PyTime.leb start (PyTime.time_of now) = true ->
        PyTime.leb start (PyTime.time_of later) = true)).
  { intros start stop. split.
    - rewrite !geb_leb. intros H. now apply (leb_trans _ (PyTime.time_of now)).
    - intros H. now apply (leb_trans _ (PyTime.time_of now)). }
  repeat split.
  - intros H. destruct (Hcases DONE (or_introl H)) as (start & stop & Hn & Hl).
    rewrite Hl. rewrite Hn in H.
    destruct (negb _); [discriminate |].
    destruct (is_completed _ task); [reflexivity |].
    destruct (_ && _) in H; [discriminate |]. destruct (PyTime.geb _ _) in H; discriminate.
  - intros H. destruct (Hcases OVERDUE (or_introl H)) as (start & stop & Hn & Hl).
    rewrite Hl. rewrite Hn in H.
    destruct (Hstep start stop) as [Hge _].
    destruct (negb _); [discriminate |].
    destruct (is_completed _ task); [discriminate |].
    destruct (PyTime.geb (PyTime.time_of now) stop) eqn:Hg.
    + rewrite (Hge eq_refl), (ltb_negb_geb (PyTime.time_of later)), (Hge eq_refl).
      rewrite andb_false_r. reflexivity.
    + destruct (_ && _) in H; discriminate.
  - intros H. destruct (Hcases ACTIVE (or_introl H)) as (start & stop & Hn & Hl).
    rewrite Hl. rewrite Hn in H.
    destruct (Hstep start stop) as [_ Hst].
    destruct (negb _); [discriminate |].
    destruct (is_completed _ task); [discriminate |].
    destruct (PyTime.leb start (PyTime.time_of now)) eqn:Hl1.
    2:{ simpl in H. destruct (PyTime.geb _ _) in H; discriminate. }
    rewrite (Hst eq_refl). simpl.
    rewrite (ltb_negb_geb (PyTime.time_of later)).
    destruct (PyTime.geb (PyTime.time_of later) stop); simpl; [now right | now left].
  - intros H. destruct (Hcases TODO (or_intror H)) as (start & stop & Hn & Hl).
    rewrite Hn. rewrite Hl in H.
    destruct (Hstep start stop) as [Hge Hst].
    destruct (negb _); [discriminate |].
    destruct (is_completed _ task); [discriminate |].
    destruct (PyTime.leb start (PyTime.time_of now)) eqn:Hl1.
    + rewrite (Hst eq_refl) in H. simpl in H.
      destruct (PyTime.geb (PyTime.time_of now) stop) eqn:Hg.
      * rewrite (ltb_negb_geb (PyTime.time_of later)), (Hge eq_refl) in H. discriminate.
      * rewrite (ltb_negb_geb (PyTime.time_of later)) in H.
        destruct (PyTime.geb (PyTime.time_of later) stop); discriminate.
    + simpl.
      destruct (PyTime.geb (PyTime.time_of now) stop) eqn:Hg; [| reflexivity].
      rewrite (ltb_negb_geb (PyTime.time_of later)), (Hge eq_refl) in H.
      rewrite andb_false_r in H. discriminate.
Qed.

Lemma lifecycle_state_moves_forward_witness :
  PyTime.leb (PyTime.time_of (at_minute 2026 11 2 9 15))
             (PyTime.time_of (at_minute 2026 11 2 9 31)) = true
  /\ lifecycle_state (at_minute 2026 11 2 9 15) brush_teeth = inr (Some ACTIVE)
  /\ (lifecycle_state (at_minute 2026 11 2 9 31) brush_teeth = inr (Some ACTIVE)
      \/ lifecycle_state (at_minute 2026 11 2 9 31) brush_teeth = inr (Some OVERDUE)).
Proof.
  assert (Hle : PyTime.leb (PyTime.time_of (at_minute 2026 11 2 9 15))
                           (PyTime.time_of (at_minute 2026 11 2 9 31)) = true)
    by reflexivity.
  assert (Hact : lifecycle_state (at_minute 2026 11 2 9 15) brush_teeth
                 = inr (Some ACTIVE)) by (vm_compute; reflexivity).
  split; [exact Hle |]. split; [exact Hact |].
  refine (proj1 (proj2 (proj2 (lifecycle_state_moves_forward
            (at_minute 2026 11 2 9 15) (at_minute 2026 11 2 9 31) brush_teeth _ _ Hle)))
          Hact); reflexivity.
Defined.

(** ** What the dashboard shows *)

Lemma populate_step_inr (today_str weekday_name : string) (ts : list Task)
    (acc : Exception + Dashboard) (d' : Dashboard) :
  fold_left (populate_task today_str weekday_name) ts acc = inr d' ->
  exists d, acc = inr d.
Proof.
  destruct acc as [e | d]; [| eauto].
  rewrite populate_failed. discriminate.
Qed.

Lemma populate_task_cases (today_str weekday_name : string) (d d1 : Dashboard) (t : Task) :
  populate_task today_str weekday_name (inr d) t = inr d1 ->
  (is_for_today weekday_name t = false /\ d1 = d)
  \/ (is_for_today weekday_name t = true
      /\ exists b, create_task_bubble t = inr b
         /\ d1 = {| todo_frame :=
                      if is_completed today_str t then todo_frame d
                      else todo_frame d ++ [b];
                    completed_frame :=
                      if is_completed today_str t then completed_frame d ++ [b]
                      else completed_frame d;
                    task_widgets := <[task_id t := b]> (task_widgets d);
                    blinking_tasks :=
                      if is_completed today_str t then blinking_tasks d
                      else blinking_tasks d ++ [task_id t] |}).
Proof.
  unfold populate_task.
  destruct (is_for_today weekday_name t); simpl.
  - destruct (create_task_bubble t) as [e | b]; [discriminate |].
    intros [= <-]. right. split; [reflexivity |]. now exists b.
  - intros [= <-]. now left.
Qed.

(** The frames after the loop: the bubbles added to the To-Do frame show
    the pending tasks for today and those added to the Completed frame
    the completed ones, each in the order of the task list, and the
    blinking list gets the ids of the pending ones. *)
Lemma populate_exact (today_str weekday_name : string) (ts : list Task) :
  forall d d' : Dashboard,
    fold_left (populate_task today_str weekday_name) ts (inr d) = inr d' ->
    map bubble_task (todo_frame d')
    = map bubble_task (todo_frame d)
      ++ List.filter (fun t => is_for_today weekday_name t
                               && negb (is_completed today_str t)) ts
    /\ map bubble_task (completed_frame d')
       = map bubble_task (completed_frame d)
         ++ List.filter (fun t => is_for_today weekday_name t
                                  && is_completed today_str t) ts
    /\ blinking_tasks d'
       = blinking_tasks d
         ++ map task_id (List.filter (fun t => is_for_today weekday_name t
                                               && negb (is_completed today_str t)) ts).
Proof.
  induction ts as [| t ts IH]; intros d d' Hrun.
  - simpl in Hrun. injection Hrun as <-. simpl. now rewrite !app_nil_r.
  - cbn [fold_left] in Hrun.
    destruct (populate_step_inr _ _ _ _ _ Hrun) as [d1 Hstep].
    rewrite Hstep in Hrun. destruct (IH _ _ Hrun) as (Htodo & Hdone & Hblink).
    rewrite Htodo, Hdone, Hblink. cbn [List.filter].
    destruct (populate_task_cases _ _ _ _ _ Hstep)
      as [[Hday ->] | (Hday & b & Hb & ->)]; rewrite Hday; cbn [andb].
    + now split.
    + apply create_task_bubble_task in Hb. cbn [todo_frame completed_frame blinking_tasks].
      destruct (is_completed today_str t); cbn [negb map];
        rewrite ?map_app, <- ?app_assoc; cbn [map app]; rewrite ?Hb; now split.
Qed.

(** X3: Each task of a child that is for today is shown once, in the To-Do
    frame when its record of today is not true and in the Completed
    frame otherwise, and the two frames keep the order of the task list;
    the tasks that are not for today are shown nowhere. *)
Theorem populate_partitions_todays_tasks (now : datetime) (child : Child) (d' : Dashboard) :
  populate_tasks_for_child now child empty_dashboard = inr d' ->
  map bubble_task (todo_frame d')
  = List.filter (fun t => is_for_today (PyTime.strftime_A now) t
                          && negb (is_completed (PyTime.strftime_Ymd now) t))
                (tasks child)
  /\ map bubble_task (completed_frame d')
     = List.filter (fun t => is_for_today (PyTime.strftime_A now) t
                             && is_completed (PyTime.strftime_Ymd now) t)
                   (tasks child)
  /\ blinking_tasks d' = map task_id (map bubble_task (todo_frame d'))
  /\ length (todo_frame d') + length (completed_frame d')
     = length (List.filter (is_for_today (PyTime.strftime_A now)) (tasks child)).
Proof.
  intros Hrun. unfold populate_tasks_for_child in Hrun.
  destruct (populate_exact _ _ _ _ _ Hrun) as (Htodo & Hdone & Hblink).
  simpl in Htodo, Hdone, Hblink.
  split; [exact Htodo |]. split; [exact Hdone |].
  split; [now rewrite Htodo |].
  rewrite <- (length_map bubble_task (todo_frame d')),
    <- (length_map bubble_task (completed_frame d')), Htodo, Hdone.
  clear. induction (tasks child) as [| t ts IH]; [reflexivity |].
  cbn [List.filter].
  destruct (is_for_today _ t); cbn [andb]; [| exact IH].
  destruct (is_completed _ t); cbn [negb length]; lia.
Qed.

Lemma populate_partitions_todays_tasks_witness :
  populate_tasks_for_child (at_minute 2026 11 2 9 15) sam_with_two_tasks empty_dashboard
  = inr two_pending_dashboard
  /\ map bubble_task (todo_frame two_pending_dashboard) = [brush_teeth; inverted_task].
Proof.
  assert (Hrun : populate_tasks_for_child (at_minute 2026 11 2 9 15) sam_with_two_tasks
                   empty_dashboard = inr two_pending_dashboard)
    by (vm_compute; reflexivity).
  split; [exact Hrun |].
  exact (proj1 (populate_partitions_todays_tasks _ _ _ Hrun)).
Defined.

(** X4: [populate_tasks_for_child] raises exactly when a task of the child
    that is for today has a start or end time that is not of the form
    [%H:%M], and what it raises is [ValueError]. *)
Theorem populate_raises_iff_malformed_time (now : datetime) (child : Child) (d : Dashboard) :
  ((exists e, populate_tasks_for_child now child d = inl e)
   <-> exists t, t ∈ tasks child
                 /\ is_for_today (PyTime.strftime_A now) t = true
                 /\ (PyTime.strptime_HM (start_time t) = None
                     \/ PyTime.strptime_HM (end_time t) = None))
  /\ (forall e, populate_tasks_for_child now child d = inl e -> e = ValueError).
Proof.
  unfold populate_tasks_for_child.
  set (today_str := PyTime.strftime_Ymd now). set (wd := PyTime.strftime_A now).
  assert (Hbubble : forall t, (PyTime.strptime_HM (start_time t) = None
                               \/ PyTime.strptime_HM (end_time t) = None)
                              <-> create_task_bubble t = inl ValueError).
  { intros t. unfold create_task_bubble.
    destruct (PyTime.strptime_HM (start_time t)), (PyTime.strptime_HM (end_time t));
      split; try reflexivity; try discriminate; try (intros [? | ?]; discriminate); auto. }
  assert (Hmain : forall ts d0,
    (forall e, fold_left (populate_task today_str wd) ts (inr d0) = inl e ->
       e = ValueError
       /\ exists t, t ∈ ts /\ is_for_today wd t = true
                    /\ create_task_bubble t = inl ValueError)
    /\ ((exists t, t ∈ ts /\ is_for_today wd t = true
                   /\ create_task_bubble t = inl ValueError) ->
        exists e, fold_left (populate_task today_str wd) ts (inr d0) = inl e)).
  { induction ts as [| t ts IH]; intros d0.
    - split; [intros e [=] |]. intros (t & Hin & _). now apply not_elem_of_nil in Hin.
    - cbn [fold_left].
      destruct (populate_task today_str wd (inr d0) t) as [e1 | d1] eqn:Hstep.
      + assert (Hbad : is_for_today wd t = true /\ create_task_bubble t = inl ValueError
                       /\ e1 = ValueError).
        { revert Hstep. unfold populate_task, create_task_bubble.
          destruct (is_for_today wd t); simpl; [| discriminate].
          destruct (PyTime.strptime_HM (start_time t)), (PyTime.strptime_HM (end_time t));
            try discriminate; intros [= <-]; auto. }
        destruct Hbad as (Hday & Hb & ->). rewrite populate_failed. split.
        * intros e [= <-]. split; [reflexivity |].
          exists t. split; [apply list_elem_of_here | now split].
        * intros _. eauto.
      + destruct (IH d1) as [IH1 IH2]. split.
        * intros e He. destruct (IH1 e He) as (-> & t' & Hin & Hday & Hb).
          split; [reflexivity |]. exists t'. split; [now apply list_elem_of_further | now split].
        * intros (t' & Hin & Hday & Hb). apply IH2.
          apply elem_of_cons in Hin as [-> | Hin]; [| now exists t'].
          exfalso. revert Hstep. unfold populate_task. rewrite Hday, Hb. discriminate. }
  destruct (Hmain (tasks child) d) as [H1 H2]. split; [split |].
  - intros [e He]. destruct (H1 e He) as (_ & t & Hin & Hday & Hb).
    exists t. split; [exact Hin |]. split; [exact Hday | now apply Hbubble].
  - intros (t & Hin & Hday & Hb). apply H2. exists t.
    split; [exact Hin |]. split; [exact Hday | now apply Hbubble].
  - intros e He. now destruct (H1 e He).
Qed.

(** ** The widget table and the colours of the loop *)

Lemma create_task_bubble_inv (task : Task) (b : Bubble) :
  create_task_bubble task = inr b ->
  bubble_task b = task
  /\ PyTime.strptime_HM (start_time task) = Some (start_time_obj b)
  /\ PyTime.strptime_HM (end_time task) = Some (end_time_obj b).
Proof.
  unfold create_task_bubble.
  destruct (PyTime.strptime_HM (start_time task)); try discriminate.
  destruct (PyTime.strptime_HM (end_time task)); try discriminate.
  intros [= <-]. now repeat split.
Qed.

Lemma populate_widgets_kept (today_str weekday_name : string) (ts : list Task) :
  forall (d d' : Dashboard) (k : string),
    fold_left (populate_task today_str weekday_name) ts (inr d) = inr d' ->
    (forall t, t ∈ ts -> is_for_today weekday_name t = true -> task_id t ≠ k) ->
    task_widgets d' !! k = task_widgets d !! k.
Proof.
  induction ts as [| t ts IH]; intros d d' k Hrun Hother.
  - simpl in Hrun. now injection Hrun as <-.
  - cbn [fold_left] in Hrun.
    destruct (populate_step_inr _ _ _ _ _ Hrun) as [d1 Hstep].
    rewrite Hstep in Hrun.
    rewrite (IH d1 d' k Hrun)
      by (intros t' Hin; apply Hother; now apply list_elem_of_further).
    destruct (populate_task_cases _ _ _ _ _ Hstep)
      as [[Hday ->] | (Hday & b & Hb & ->)]; [reflexivity |].
    cbn [task_widgets]. apply lookup_insert_ne.
    apply Hother; [apply list_elem_of_here | exact Hday].
Qed.

(** X5: The widget table is keyed by task id alone: after the loop, the
    entry of an id is the bubble of the last task for today that has
    this id.  An earlier task for today with the same id has its bubble
    in one of the two frames, and no entry of the table leads to it. *)
Theorem widget_of_an_id_is_its_last_task
    (now : datetime) (child : Child) (d d' : Dashboard)
    (before after : list Task) (t : Task) :
  tasks child = before ++ t :: after ->
  is_for_today (PyTime.strftime_A now) t = true ->
  (forall t', t' ∈ after -> is_for_today (PyTime.strftime_A now) t' = true ->
              task_id t' ≠ task_id t) ->
  populate_tasks_for_child now child d = inr d' ->
  exists b,
    create_task_bubble t = inr b
    /\ bubble_task b = t
    /\ task_widgets d' !! task_id t = Some b
    /\ forall earlier,
         earlier ∈ before ->
         is_for_today (PyTime.strftime_A now) earlier = true ->
         task_id earlier = task_id t ->
         earlier ≠ t ->
         (exists b0, bubble_task b0 = earlier
                     /\ (b0 ∈ todo_frame d' \/ b0 ∈ completed_frame d'))
         /\ forall b', task_widgets d' !! task_id earlier = Some b' ->
                       bubble_task b' ≠ earlier.
Proof.
  intros Hts Hday Hlast Hrun. unfold populate_tasks_for_child in Hrun.
  pose proof (populate_exact _ _ _ _ _ Hrun) as (Htodo & Hdone & _).
  rewrite Hts, fold_left_app in Hrun. cbn [fold_left] in Hrun.
  destruct (populate_step_inr _ _ _ _ _ Hrun) as [d2 Hstep2].
  rewrite Hstep2 in Hrun.
  destruct (populate_step_inr _ _ (cons t nil) _ _ Hstep2) as [d1 Hd1].
  rewrite Hd1 in Hstep2.
  destruct (populate_task_cases _ _ _ _ _ Hstep2)
    as [[Hno _] | (_ & b & Hb & ->)]; [congruence |].
  exists b. split; [exact Hb |].
  destruct (create_task_bubble_inv _ _ Hb) as (Htask & _).
  split; [exact Htask |].
  assert (Hw : task_widgets d' !! task_id t = Some b).
  { rewrite (populate_widgets_kept _ _ _ _ _ _ Hrun Hlast).
    cbn [task_widgets]. apply lookup_insert_eq. }
  split; [exact Hw |].
  intros earlier Hin Hearly Hid Hne. split.
  - assert (Hshown : earlier ∈ map bubble_task (todo_frame d')
                     \/ earlier ∈ map bubble_task (completed_frame d')).
    { assert (Hall : earlier ∈ tasks child)
        by (rewrite Hts; apply elem_of_app; now left).
      rewrite Htodo, Hdone.
      destruct (is_completed (PyTime.strftime_Ymd now) earlier) eqn:Hc.
      - right. apply elem_of_app. right. apply list_elem_of_In, filter_In.
        split; [now apply list_elem_of_In | now rewrite Hearly, Hc].
      - left. apply elem_of_app. right. apply list_elem_of_In, filter_In.
        split; [now apply list_elem_of_In | now rewrite Hearly, Hc]. }
    destruct Hshown as [Hs | Hs];
      apply list_elem_of_fmap in Hs as (b0 & Hb0 & Hin0); exists b0; auto.
  - intros b' Hb'. rewrite Hid, Hw in Hb'. injection Hb' as <-.
    rewrite Htask. congruence.
Qed.

Lemma widget_of_an_id_is_its_last_task_witness :
  task_id brush_teeth = task_id wash_hands
  /\ exists b,
       create_task_bubble wash_hands = inr b
       /\ bubble_task b = wash_hands
       /\ task_widgets one_id_dashboard !! task_id wash_hands = Some b
       /\ forall earlier,
            earlier ∈ [brush_teeth] ->
            is_for_today (PyTime.strftime_A (at_minute 2026 11 2 9 15)) earlier = true ->
            task_id earlier = task_id wash_hands ->
            earlier ≠ wash_hands ->
            (exists b0, bubble_task b0 = earlier
                        /\ (b0 ∈ todo_frame one_id_dashboard
                            \/ b0 ∈ completed_frame one_id_dashboard))
            /\ forall b', task_widgets one_id_dashboard !! task_id earlier = Some b' ->
                          bubble_task b' ≠ earlier.
Proof.
  split; [reflexivity |].
  refine (widget_of_an_id_is_its_last_task (at_minute 2026 11 2 9 15) sam_with_one_id
            empty_dashboard one_id_dashboard [brush_teeth] [] wash_hands _ _ _ _).
  - reflexivity.
  - reflexivity.
  - intros t' Hin. now apply not_elem_of_nil in Hin.
  - vm_compute. reflexivity.
Defined.

Lemma populate_widgets_nodup (today_str weekday_name : string) (ts : list Task) :
  forall d d' : Dashboard,
    fold_left (populate_task today_str weekday_name) ts (inr d) = inr d' ->
    NoDup (map task_id (List.filter (is_for_today weekday_name) ts)) ->
    (forall k, k ∉ map task_id (List.filter (is_for_today weekday_name) ts) ->
               task_widgets d' !! k = task_widgets d !! k)
    /\ (forall b, b ∈ todo_frame d' ->
          b ∈ todo_frame d
          \/ (task_id (bubble_task b)
                ∈ map task_id (List.filter (is_for_today weekday_name) ts)
              /\ task_widgets d' !! task_id (bubble_task b) = Some b
              /\ create_task_bubble (bubble_task b) = inr b)).
Proof.
  induction ts as [| t ts IH]; intros d d' Hrun Hnodup.
  - simpl in Hrun. injection Hrun as <-. split; [reflexivity | now left].
  - cbn [fold_left] in Hrun.
    destruct (populate_step_inr _ _ _ _ _ Hrun) as [d1 Hstep].
    rewrite Hstep in Hrun. cbn [List.filter] in *.
    destruct (populate_task_cases _ _ _ _ _ Hstep)
      as [[Hday ->] | (Hday & b0 & Hb0 & Hd1)]; rewrite Hday in *.
    + now apply IH.
    + cbn [map] in *. apply NoDup_cons in Hnodup as [Hfresh Hnodup].
      destruct (IH d1 d' Hrun Hnodup) as [Hkept Hshown].
      assert (Hw0 : task_widgets d' !! task_id t = Some b0).
      { rewrite (Hkept _ Hfresh), Hd1. cbn [task_widgets]. apply lookup_insert_eq. }
      split.
      * intros k Hk. apply not_elem_of_cons in Hk as [Hne Hk].
        rewrite (Hkept k Hk), Hd1. cbn [task_widgets]. now apply lookup_insert_ne.
      * intros b Hb. destruct (Hshown b Hb) as [Hold | (Hin & Hw & Hc)].
        -- rewrite Hd1 in Hold. cbn [todo_frame] in Hold.
           assert (Hcase : b ∈ todo_frame d \/ b = b0).
           { destruct (is_completed today_str t); [now left |].
             apply elem_of_app in Hold as [? | Hnew]; [now left |].
             apply list_elem_of_singleton in Hnew. now right. }
           destruct Hcase as [? | ->]; [now left |]. right.
           destruct (create_task_bubble_inv _ _ Hb0) as (Htask & _).
           rewrite Htask. split; [apply list_elem_of_here | now split].
        -- right. split; [now apply list_elem_of_further | now split].
Qed.

Lemma update_loop_fold (now : time) (widgets : gmap string Bubble) (bs : list Bubble) :
  (forall b, b ∈ bs ->
     widgets !! task_id (bubble_task b) = Some b
     /\ create_task_bubble (bubble_task b) = inr b) ->
  forall colours : list (string * ColourKey),
    fold_left
      (fun acc id =>
         match acc with
         | inl e => inl e
         | inr colours =>
             match widgets !! id with
             | None => inr colours
             | Some widget_info =>
                 match task_colour now (bubble_task widget_info) with
                 | inl e => inl e
                 | inr colour => inr (colours ++ [(id, colour)])
                 end
             end
         end)
      (map task_id (map bubble_task bs)) (inr colours)
    = inr (colours
           ++ map (fun b =>
                     (task_id (bubble_task b),
                      if PyTime.leb (start_time_obj b) now
                         && PyTime.ltb now (end_time_obj b) then task_active
                      else if PyTime.geb now (end_time_obj b) then task_overdue
                      else task_todo)) bs).
Proof.
  induction bs as [| b bs IH]; intros Hbs colours.
  - simpl. now rewrite app_nil_r.
  - cbn [map fold_left].
    destruct (Hbs b (list_elem_of_here _ _)) as [Hw Hc].
    destruct (create_task_bubble_inv _ _ Hc) as (_ & Hs & He).
    rewrite Hw, (task_colour_parsed _ _ _ _ Hs He).
    rewrite IH by (intros b' Hin; apply Hbs; now apply list_elem_of_further).
    now rewrite <- app_assoc.
Qed.

(** X6: When the tasks of a child that are for today have distinct ids, the
    loop of [update_tasks_loop] gives one colour to every bubble of the
    To-Do frame, in the order of the frame: active inside the window of
    the task, overdue from its end time, and the TODO colour otherwise;
    it never raises on a dashboard that has been built. *)
Theorem update_tasks_loop_colours_each_pending_task
    (now later : datetime) (child : Child) (d' : Dashboard) :
  populate_tasks_for_child now child empty_dashboard = inr d' ->
  NoDup (map task_id (List.filter (is_for_today (PyTime.strftime_A now)) (tasks child))) ->
  update_tasks_loop later d'
  = inr (map (fun b =>
                (task_id (bubble_task b),
                 if PyTime.leb (start_time_obj b) (PyTime.time_of later)
                    && PyTime.ltb (PyTime.time_of later) (end_time_obj b) then task_active
                 else if PyTime.geb (PyTime.time_of later) (end_time_obj b) then task_overdue
                 else task_todo)) (todo_frame d')).
Proof.
  intros Hrun Hnodup.
  unfold populate_tasks_for_child in Hrun.
  destruct (populate_exact _ _ _ _ _ Hrun) as (Htodo & _ & Hblink).
  simpl in Htodo, Hblink. rewrite <- Htodo in Hblink.
  destruct (populate_widgets_nodup _ _ _ _ _ Hrun Hnodup) as [_ Hshown].
  unfold update_tasks_loop. rewrite Hblink.
  rewrite (update_loop_fold (PyTime.time_of later) (task_widgets d') (todo_frame d'));
    [reflexivity |].
  intros b Hb. destruct (Hshown b Hb) as [Hold | (_ & Hw & Hc)]; [| now split].
  simpl in Hold. now apply not_elem_of_nil in Hold.
Qed.

Lemma update_tasks_loop_colours_each_pending_task_witness :
  update_tasks_loop (at_minute 2026 11 2 9 20) two_pending_dashboard
  = inr [(task_id brush_teeth, task_active); (task_id inverted_task, task_overdue)].
Proof.
  refine (update_tasks_loop_colours_each_pending_task
            (at_minute 2026 11 2 9 15) (at_minute 2026 11 2 9 20)
            sam_with_two_tasks two_pending_dashboard _ _).
  - vm_compute. reflexivity.
  - cbn. apply NoDup_cons. split; [| apply NoDup_singleton].
    intros Hin. apply list_elem_of_singleton in Hin. discriminate.
Defined.

(** ** Accounts *)

Lemma hex_digit_is_lower_hex (x : N) :
  is_lower_hex (SHA256.hex_digit (N.land x 15)) = true.
Proof.
  assert (Hlt : (N.land x 15 < 16)%N).
  { change 15%N with (N.ones 4). rewrite N.land_ones. now apply N.mod_lt. }
  destruct (N.land x 15) as [| p]; [reflexivity |].
  do 4 (destruct p as [p | p |]; try reflexivity; try (exfalso; lia)).
Qed.

(** X7: The digest that [hash_pin] returns is made of 64 characters, each a
    digit or a letter from [a] to [f], whatever the pin. *)
Theorem hash_pin_is_64_hex_digits (p : string) :
  String.length (hash_pin p) = 64%nat
  /\ forallb is_lower_hex (PyStr.chars (hash_pin p)) = true.
Proof.
  split; [reflexivity |].
  unfold hash_pin, SHA256.hexdigest, SHA256.hex_word, PyStr.chars.
  cbn [list_ascii_of_string forallb].
  rewrite !hex_digit_is_lower_hex. reflexivity.
Qed.

Lemma char_lower_idempotent (c : ascii) :
  PyStr.char_lower (PyStr.char_lower c) = PyStr.char_lower c.
Proof. destruct c as [[] [] [] [] [] [] [] []]; reflexivity. Qed.

Lemma lower_idempotent (s : string) : PyStr.lower (PyStr.lower s) = PyStr.lower s.
Proof.
  induction s as [| c s IH]; simpl; [reflexivity |].
  now rewrite char_lower_idempotent, IH.
Qed.

(** X8: [register] only ever adds keys that are their own lower-casing: when
    every user key of the document is in lower case, this still holds
    after [register], whatever is entered. *)
Theorem register_keeps_keys_in_lower_case (email_entry pin_entry : string) (c : Controller) :
  (forall k, is_Some (users (data c) !! k) -> PyStr.lower k = k) ->
  forall k, is_Some (users (data (fst (register email_entry pin_entry c))) !! k) ->
            PyStr.lower k = k.
Proof.
  intros Hinv k.
  destruct (register_cases email_entry pin_entry c) as [(_ & -> & _) | (-> & _)].
  - apply Hinv.
  - cbn [fst data users set_users].
    destruct (decide (k = PyStr.lower email_entry)) as [-> | Hne].
    + intros _. apply lower_idempotent.
    + rewrite lookup_insert_ne by congruence. apply Hinv.
Qed.

Lemma register_keeps_keys_in_lower_case_witness :
  is_Some (users (data (fst (register "Ann@B.com" "123456" fresh_controller))) !! "ann@b.com")
  /\ PyStr.lower "ann@b.com" = "ann@b.com".
Proof.
  assert (Hin : is_Some (users (data (fst (register "Ann@B.com" "123456" fresh_controller)))
                           !! "ann@b.com")) by (vm_compute; eauto).
  split; [exact Hin |].
  refine (register_keeps_keys_in_lower_case "Ann@B.com" "123456" fresh_controller _ _ Hin).
  intros k [u Hu]. cbn in Hu. rewrite lookup_empty in Hu. discriminate.
Defined.

(** X9: The email is compared without regard to case: after a registration
    that succeeded, logging in with the same pin and any spelling of the
    email that has the same lower-casing succeeds. *)
Theorem login_ignores_the_case_of_the_email
    (registered_as entered pin_entry : string) (c : Controller) :
  PyStr.lower entered = PyStr.lower registered_as ->
  is_error (snd (register registered_as pin_entry c)) = false ->
  logged_in (snd (login entered pin_entry (fst (register registered_as pin_entry c)))) = true
  /\ current_user (fst (login entered pin_entry (fst (register registered_as pin_entry c))))
     = Some (PyStr.lower registered_as).
Proof.
  intros Hsame Hreg.
  destruct (register_cases registered_as pin_entry c)
    as [(Herr & _) | (Hok & He & Hp & _)]; [congruence |].
  assert (Hentered : entered ≠ "").
  { intros ->. simpl in Hsame. symmetry in Hsame.
    apply (proj1 (lower_empty_iff _)) in Hsame. contradiction. }
  assert (Hu : users (data (fst (register registered_as pin_entry c))) !! PyStr.lower entered
               = Some {| pin := hash_pin pin_entry; children := [] |}).
  { rewrite Hok, Hsame. cbn [fst data users set_users]. apply lookup_insert_eq. }
  destruct (login_cases entered pin_entry (fst (register registered_as pin_entry c)))
    as [(_ & [? | ?]) | [(_ & _ & _ & Hno) | (Hout & Hcu & _)]]; try contradiction.
  - now destruct (Hno _ Hu).
  - rewrite Hout, Hcu, Hsame. now split.
Qed.

Lemma login_ignores_the_case_of_the_email_witness :
  PyStr.lower "ANN@b.COM" = PyStr.lower "Ann@B.com"
  /\ logged_in (snd (login "ANN@b.COM" "123456"
                      (fst (register "Ann@B.com" "123456" fresh_controller)))) = true.
Proof.
  assert (Hsame : PyStr.lower "ANN@b.COM" = PyStr.lower "Ann@B.com") by reflexivity.
  split; [exact Hsame |].
  refine (proj1 (login_ignores_the_case_of_the_email "Ann@B.com" "ANN@b.COM" "123456"
                   fresh_controller Hsame _)).
  vm_compute. reflexivity.
Defined.

(** X10: A user stored under a key that is not in lower case cannot be logged
    in: [login] never makes such a key the current user. *)
Theorem login_never_reaches_a_key_with_capitals
    (k email_entry pin_entry : string) (c : Controller) :
  PyStr.lower k ≠ k ->
  current_user (fst (login email_entry pin_entry c)) = Some k ->
  current_user c = Some k
  /\ logged_in (snd (login email_entry pin_entry c)) = false.
Proof.
  intros Hk Hcu.
  destruct (login_cases email_entry pin_entry c)
    as [(Hl & _) | [(Hl & _) | (_ & Hnew & _)]].
  - rewrite Hl in *. now split.
  - rewrite Hl in *. now split.
  - rewrite Hnew in Hcu. injection Hcu as <-.
    now rewrite lower_idempotent in Hk.
Qed.

Lemma login_never_reaches_a_key_with_capitals_witness :
  PyStr.lower "Ann@b.com" ≠ "Ann@b.com"
  /\ current_user
       (fst (login "Ann@b.com" "123456"
               {| data := fresh_data; current_user := Some "Ann@b.com" |}))
     = Some "Ann@b.com"
  /\ logged_in (snd (login "Ann@b.com" "123456"
                      {| data := fresh_data; current_user := Some "Ann@b.com" |})) = false.
Proof.
  assert (Hk : PyStr.lower "Ann@b.com" ≠ "Ann@b.com") by discriminate.
  assert (Hcu : current_user
                  (fst (login "Ann@b.com" "123456"
                          {| data := fresh_data; current_user := Some "Ann@b.com" |}))
                = Some "Ann@b.com") by reflexivity.
  split; [exact Hk |]. split; [exact Hcu |].
  exact (proj2 (login_never_reaches_a_key_with_capitals "Ann@b.com" "Ann@b.com" "123456"
                  {| data := fresh_data; current_user := Some "Ann@b.com" |} Hk Hcu)).
Defined.

(** X11: [change_pin] checks the pin as [register] does and before it looks
    at the user: a pin that is not six digits changes nothing.  With a
    valid pin and a logged-in user it replaces the digest of that user
    only: the children of the user, the other users, the settings and
    the session stay, and a login with the new pin succeeds while one
    with a pin of another digest fails. *)
Theorem change_pin_replaces_the_digest (new_pin : string) (c : Controller) :
  (~ (PyStr.len new_pin = 6%nat /\ PyStr.isdigit new_pin = true) ->
   change_pin new_pin c = inr (c, [showerror "Error" "PIN must be exactly 6 digits."]))
  /\ (PyStr.len new_pin = 6%nat -> PyStr.isdigit new_pin = true ->
      (forall email, current_user c = Some email -> users (data c) !! email = None ->
         change_pin new_pin c = inl KeyError)
      /\ (current_user c = None -> change_pin new_pin c = inl KeyError)
      /\ forall email u,
           current_user c = Some email -> users (data c) !! email = Some u ->
           exists c',
             change_pin new_pin c
               = inr (c', [save_data; showinfo "Success" "PIN has been updated."])
             /\ users (data c') !! email
                = Some {| pin := hash_pin new_pin; children := children u |}
             /\ (forall other, other ≠ email ->
                   users (data c') !! other = users (data c) !! other)
             /\ settings (data c') = settings (data c)
             /\ current_user c' = current_user c
             /\ (email ≠ "" -> PyStr.lower email = email ->
                 logged_in (snd (login email new_pin c')) = true
                 /\ forall old_pin, hash_pin old_pin ≠ hash_pin new_pin ->
                      logged_in (snd (login email old_pin c')) = false)).
Proof.
  unfold change_pin. split.
  - intros Hbad.
    destruct (PyStr.len new_pin =? 6)%nat eqn:Hlen; [| reflexivity].
    destruct (PyStr.isdigit new_pin) eqn:Hdig; [| reflexivity].
    exfalso. apply Hbad. split; [now apply Nat.eqb_eq | reflexivity].
  - intros Hlen Hdig. apply Nat.eqb_eq in Hlen. rewrite Hlen, Hdig. cbn [negb orb].
    unfold current_user_data. split; [| split].
    + intros email -> ->. reflexivity.
    + intros ->. reflexivity.
    + intros email u Hcu Hu. rewrite Hcu, Hu.
      eexists. split; [reflexivity |]. cbn [data users settings current_user set_users].
      split; [apply lookup_insert_eq |].
      split; [intros other Hne; apply lookup_insert_ne; congruence |].
      split; [reflexivity |]. split; [first [reflexivity | exact Hcu] |].
      intros Hemail Hlow.
      match goal with
      | |- logged_in (snd (login _ _ ?c1)) = true /\ _ => set (c' := c1)
      end.
      assert (Hu' : users (data c') !! PyStr.lower email
                    = Some {| pin := hash_pin new_pin; children := children u |}).
      { rewrite Hlow. subst c'. cbn [data users]. apply lookup_insert_eq. }
      assert (Hnew : new_pin ≠ "").
      { intros ->. apply Nat.eqb_eq in Hlen. discriminate. }
      split.
      * destruct (login_cases email new_pin c')
          as [(_ & [? | ?]) | [(_ & _ & _ & Hno) | (Hout & _)]]; try contradiction.
        -- now destruct (Hno _ Hu').
        -- now rewrite Hout.
      * intros old_pin Hdiff.
        destruct (login_cases email old_pin c')
          as [(Hl & _) | [(Hl & _) | (_ & _ & _ & _ & _ & u' & Hu'' & Heq)]].
        -- now rewrite Hl.
        -- now rewrite Hl.
        -- rewrite Hu' in Hu''. injection Hu'' as <-. simpl in Heq. congruence.
Qed.

(** X13: [toggle_theme] always ends on a key of [THEMES], stores it in the
    settings and leaves the rest of the controller as it is; from a
    theme that is a key of [THEMES], two toggles give it back. *)
Theorem toggle_theme_alternates (current_theme : string) (c : Controller) :
  fst (fst (toggle_theme current_theme c)) ∈ THEMES
  /\ theme (settings (data (snd (fst (toggle_theme current_theme c)))))
     = fst (fst (toggle_theme current_theme c))
  /\ users (data (snd (fst (toggle_theme current_theme c)))) = users (data c)
  /\ last_logged_in_user (settings (data (snd (fst (toggle_theme current_theme c)))))
     = last_logged_in_user (settings (data c))
  /\ current_user (snd (fst (toggle_theme current_theme c))) = current_user c
  /\ (current_theme ∈ THEMES ->
      fst (fst (toggle_theme (fst (fst (toggle_theme current_theme c)))
                             (snd (fst (toggle_theme current_theme c)))))
      = current_theme)
  /\ (current_theme ∉ THEMES ->
      fst (fst (toggle_theme current_theme c)) = "dark").
Proof.
  unfold toggle_theme, THEMES. cbn [fst snd data settings theme users
                                    last_logged_in_user current_user].
  destruct (String.eqb current_theme "dark") eqn:Hd.
  - apply String.eqb_eq in Hd. subst.
    split; [apply list_elem_of_further, list_elem_of_here |].
    do 4 (split; [reflexivity |]).
    split; [intros _; reflexivity |].
    intros Hno. destruct Hno. apply list_elem_of_here.
  - apply String.eqb_neq in Hd.
    split; [apply list_elem_of_here |].
    do 4 (split; [reflexivity |]).
    split; [| intros _; reflexivity].
    intros Hin. cbn.
    apply elem_of_cons in Hin as [-> | Hin]; [contradiction |].
    apply list_elem_of_singleton in Hin. now subst.
Qed.

(** ** Children *)

Lemma list_remove_app_new {A} `{EqDecision A} (x : A) (l : list A) :
  x ∉ l -> list_remove x (l ++ [x]) = l.
Proof.
  induction l as [| y l IH]; intros Hx; simpl.
  - now rewrite decide_True.
  - apply not_elem_of_cons in Hx as [Hne Hx].
    rewrite decide_False by congruence. now rewrite IH.
Qed.

Lemma list_remove_perm {A} `{EqDecision A} (x : A) (l : list A) :
  x ∈ l -> l ≡ₚ x :: list_remove x l.
Proof.
  induction l as [| y l IH]; intros Hx.
  - now apply not_elem_of_nil in Hx.
  - simpl. destruct (decide (y = x)) as [-> | Hne]; [reflexivity |].
    apply elem_of_cons in Hx as [-> | Hx]; [congruence |].
    rewrite (IH Hx) at 1. apply Permutation_swap.
Qed.

Lemma list_remove_length {A} `{EqDecision A} (x : A) (l : list A) :
  x ∈ l -> S (length (list_remove x l)) = length l.
Proof.
  intros Hx. apply list_remove_perm in Hx.
  now rewrite Hx at 2.
Qed.

Lemma set_children_twice (email : string) (u : User) (cs1 cs2 : list Child) (c : Controller) :
  set_children email {| pin := pin u; children := cs1 |} cs2 (set_children email u cs1 c)
  = set_children email u cs2 c.
Proof.
  unfold set_children, set_users. cbn [data users settings current_user pin].
  now rewrite insert_insert_eq.
Qed.

Lemma current_user_data_set_children (email : string) (u : User) (cs : list Child)
    (c : Controller) :
  current_user c = Some email ->
  current_user_data (set_children email u cs c)
  = inr (email, {| pin := pin u; children := cs |}).
Proof.
  intros Hcu. unfold current_user_data.
  cbn [set_children set_users current_user]. rewrite Hcu.
  now rewrite lookup_set_children.
Qed.

(** X14: [add_child] rejects an empty name only.  Otherwise it puts a child
    without tasks at the end of the children of the current user and
    changes nothing else; it does not look at the names in use, and a
    child added under a name that is in use is not the one that the name
    finds. *)
Theorem add_child_appends (name_entry gender_var : string) (c : Controller) :
  (name_entry = "" ->
   add_child name_entry gender_var c = inr (c, [showerror "Error" "Name cannot be empty."]))
  /\ (name_entry ≠ "" ->
      (current_user_data c = inl KeyError -> add_child name_entry gender_var c = inl KeyError)
      /\ forall email u,
           current_user c = Some email -> users (data c) !! email = Some u ->
           exists c',
             add_child name_entry gender_var c = inr (c', [save_data])
             /\ users (data c') !! email
                = Some {| pin := pin u;
                          children := children u
                                      ++ [{| name := name_entry; gender := gender_var;
                                             tasks := [] |}] |}
             /\ (forall other, other ≠ email ->
                   users (data c') !! other = users (data c) !! other)
             /\ settings (data c') = settings (data c)
             /\ current_user c' = current_user c
             /\ (is_Some (find_child name_entry (children u)) ->
                 find_child name_entry (children_of_current_user c')
                 = find_child name_entry (children u))).
Proof.
  unfold add_child. split.
  - intros ->. reflexivity.
  - intros Hne. rewrite (proj2 (truthy_true_iff _) Hne). cbn [negb]. split.
    + intros ->. reflexivity.
    + intros email u Hcu Hu. unfold current_user_data. rewrite Hcu, Hu.
      eexists. split; [reflexivity |].
      split; [apply lookup_set_children |].
      split; [intros other Ho; unfold set_children, set_users; cbn [data users];
              apply lookup_insert_ne; congruence |].
      split; [reflexivity |]. split; [first [reflexivity | exact Hcu] |].
      intros [[i child] Hfind].
      unfold children_of_current_user. cbn [set_children set_users current_user].
      rewrite Hcu, lookup_set_children. cbn [children].
      rewrite Hfind. unfold find_child in *.
      apply list_find_app_Some. now left.
Qed.

(** X15: [remove_child] does nothing when the question is answered with no.
    Otherwise it takes the first child equal to the one given out of the
    children of the current user: the rest stays in its order, there is
    one child less, and the tasks of that child go with it.  A child
    that is not in the list raises [ValueError]. *)
Theorem remove_child_takes_one_child_out (child : Child) (c : Controller) :
  remove_child false child c = inr (c, [])
  /\ forall email u,
       current_user c = Some email -> users (data c) !! email = Some u ->
       (child ∉ children u -> remove_child true child c = inl ValueError)
       /\ (child ∈ children u ->
           exists c',
             remove_child true child c = inr (c', [save_data])
             /\ users (data c') !! email
                = Some {| pin := pin u; children := list_remove child (children u) |}
             /\ S (length (list_remove child (children u))) = length (children u)
             /\ children u ≡ₚ child :: list_remove child (children u)
             /\ (forall other, other ≠ email ->
                   users (data c') !! other = users (data c) !! other)).
Proof.
  split; [reflexivity |].
  intros email u Hcu Hu. unfold remove_child, current_user_data. cbn [negb].
  rewrite Hcu, Hu. split.
  - intros Hno. now rewrite bool_decide_eq_false_2.
  - intros Hin. rewrite bool_decide_eq_true_2 by exact Hin.
    eexists. split; [reflexivity |].
    split; [apply lookup_set_children |].
    split; [now apply list_remove_length |].
    split; [now apply list_remove_perm |].
    intros other Ho. unfold set_children, set_users. cbn [data users].
    apply lookup_insert_ne. congruence.
Qed.

(** X16: Adding a child and removing it again gives back the controller as
    it was, when the user had no child equal to the new one (same name
    and gender, no tasks). *)
Theorem add_child_then_remove_child (name_entry gender_var : string) (c : Controller)
    (email : string) (u : User) :
  name_entry ≠ "" ->
  current_user c = Some email ->
  users (data c) !! email = Some u ->
  ({| name := name_entry; gender := gender_var; tasks := [] |} ∉ children u) ->
  and_then (add_child name_entry gender_var c)
           (remove_child true {| name := name_entry; gender := gender_var; tasks := [] |})
  = inr (c, [save_data]).
Proof.
  intros Hne Hcu Hu Hfresh. unfold add_child, and_then.
  rewrite (proj2 (truthy_true_iff _) Hne). cbn [negb].
  unfold current_user_data at 1. rewrite Hcu, Hu.
  unfold remove_child. cbn [negb].
  rewrite (current_user_data_set_children _ _ _ _ Hcu). cbn [children].
  rewrite bool_decide_eq_true_2
    by (apply elem_of_app; right; apply list_elem_of_here).
  rewrite list_remove_app_new by exact Hfresh.
  rewrite set_children_twice, (controller_eta c email u Hu). reflexivity.
Qed.

Lemma add_child_then_remove_child_witness :
  ({| name := "Kim"; gender := "female"; tasks := [] |}
     ∉ children {| pin := hash_pin "123456"; children := [sam] |})
  /\ and_then (add_child "Kim" "female" (controller_with [sam]))
              (remove_child true {| name := "Kim"; gender := "female"; tasks := [] |})
     = inr (controller_with [sam], [save_data]).
Proof.
  assert (Hfresh : {| name := "Kim"; gender := "female"; tasks := [] |}
                     ∉ children {| pin := hash_pin "123456"; children := [sam] |}).
  { cbn. intros Hin. apply list_elem_of_singleton in Hin. discriminate. }
  split; [exact Hfresh |].
  refine (add_child_then_remove_child "Kim" "female" (controller_with [sam]) "a@b.com"
            {| pin := hash_pin "123456"; children := [sam] |} _ _ _ Hfresh).
  - discriminate.
  - reflexivity.
  - reflexivity.
Defined.

(** ** Tasks *)

Lemma find_child_insert (child_name : string) (cs : list Child) (i : nat)
    (child child' : Child) :
  find_child child_name cs = Some (i, child) ->
  name child' = child_name ->
  find_child child_name (<[i := child']> cs) = Some (i, child').
Proof.
  unfold find_child. intros Hfind Hname.
  apply list_find_Some in Hfind as (Hi & _ & Hfirst).
  apply list_find_Some. split; [| split; [exact Hname |]].
  - apply list_lookup_insert_eq. now apply lookup_lt_Some in Hi.
  - intros j y Hj Hlt. rewrite list_lookup_insert_ne in Hj by lia.
    now apply (Hfirst j y).
Qed.

Lemma set_tasks_set_tasks (ts ts' : list Task) (child : Child) :
  set_tasks ts (set_tasks ts' child) = set_tasks ts child.
Proof. reflexivity. Qed.

(** X17: Saving a task and removing it again gives back the controller as it
    was, when the child had no task equal to the new one. *)
Theorem save_then_remove_task (p : AddTaskPopup) (clock_us : Z) (c : Controller)
    (email : string) (u : User) (i : nat) (child : Child) :
  task_text_entry p ≠ "" -> start_hour p ≠ "" -> start_min p ≠ "" ->
  end_hour p ≠ "" -> end_min p ≠ "" ->
  (exists day, day ∈ PyTime.day_names /\ day_vars p day = true) ->
  current_user c = Some email ->
  users (data c) !! email = Some u ->
  find_child (child_name p) (children u) = Some (i, child) ->
  (new_task p clock_us ∉ tasks child) ->
  and_then (save p clock_us c) (remove_task (child_name p) (new_task p clock_us))
  = inr (c, [save_data]).
Proof.
  intros H1 H2 H3 H4 H5 Hsel Hcu Hu Hfind Hfresh. unfold and_then.
  rewrite (save_stores p clock_us c email u H1 H2 H3 H4 H5 Hsel Hcu Hu), Hfind.
  unfold remove_task. rewrite (current_user_data_set_children _ _ _ _ Hcu).
  cbn [children].
  assert (Hname : name (set_tasks (tasks child ++ [new_task p clock_us]) child)
                  = child_name p).
  { unfold find_child in Hfind. apply list_find_Some in Hfind as (_ & Hn & _). exact Hn. }
  rewrite (find_child_insert _ _ _ _ _ Hfind Hname). cbn [tasks set_tasks].
  rewrite bool_decide_eq_true_2
    by (apply elem_of_app; right; apply list_elem_of_here).
  rewrite list_remove_app_new by exact Hfresh.
  rewrite list_insert_insert_eq.
  rewrite set_tasks_set_tasks, set_tasks_same.
  assert (Hback : <[i := child]> (children u) = children u).
  { apply list_insert_id. unfold find_child in Hfind.
    now apply list_find_Some in Hfind as (Hi & _). }
  rewrite Hback, set_children_twice, (controller_eta c email u Hu). reflexivity.
Qed.

Lemma save_then_remove_task_witness :
  (new_task brush_popup 1700000000250000%Z ∉ tasks sam)
  /\ and_then (save brush_popup 1700000000250000%Z (controller_with [sam; other_sam]))
              (remove_task (child_name brush_popup)
                           (new_task brush_popup 1700000000250000%Z))
     = inr (controller_with [sam; other_sam], [save_data]).
Proof.
  assert (Hfresh : new_task brush_popup 1700000000250000%Z ∉ tasks sam)
    by apply not_elem_of_nil.
  split; [exact Hfresh |].
  refine (save_then_remove_task brush_popup 1700000000250000%Z
            (controller_with [sam; other_sam]) "a@b.com"
            {| pin := hash_pin "123456"; children := [sam; other_sam] |} 0%nat sam
            _ _ _ _ _ _ _ _ _ Hfresh);
    try discriminate; try reflexivity.
  exists "Monday". split; [apply list_elem_of_here | reflexivity].
Defined.

(** X18: Every task that the settings page lists for the selected child can
    be removed with its button: [remove_task] succeeds, saves, and the
    list of that child is shorter by one.  For a task that is not
    listed, [remove_task] changes nothing and does not save. *)
Theorem remove_task_removes_a_listed_task
    (selected_child_name : string) (task : Task) (c : Controller) :
  (task ∈ populate_tasks_for_selected_child selected_child_name c ->
   exists c',
     remove_task selected_child_name task c = inr (c', [save_data])
     /\ populate_tasks_for_selected_child selected_child_name c'
        = list_remove task (populate_tasks_for_selected_child selected_child_name c)
     /\ S (length (populate_tasks_for_selected_child selected_child_name c'))
        = length (populate_tasks_for_selected_child selected_child_name c))
  /\ (selected_child_name ≠ "" ->
      task ∉ populate_tasks_for_selected_child selected_child_name c ->
      remove_task selected_child_name task c = inr (c, [])
      \/ remove_task selected_child_name task c = inl KeyError).
Proof.
  split.
  - intros Hin.
    assert (Hlisted : exists email u i child,
              current_user c = Some email /\ users (data c) !! email = Some u
              /\ find_child selected_child_name (children u) = Some (i, child)
              /\ PyStr.truthy selected_child_name = true
              /\ populate_tasks_for_selected_child selected_child_name c = tasks child).
    { revert Hin. unfold populate_tasks_for_selected_child, children_of_current_user.
      destruct (PyStr.truthy selected_child_name); cbn [negb];
        [| intros Hin; now apply not_elem_of_nil in Hin].
      destruct (current_user c) as [email |] eqn:Hcu;
        [| intros Hin; now apply not_elem_of_nil in Hin].
      destruct (users (data c) !! email) as [u |] eqn:Hu;
        [| intros Hin; now apply not_elem_of_nil in Hin].
      destruct (find_child selected_child_name (children u)) as [[i child] |] eqn:Hfind;
        [| intros Hin; now apply not_elem_of_nil in Hin].
      intros _. exists email, u, i, child. now repeat split. }
    destruct Hlisted as (email & u & i & child & Hcu & Hu & Hfind & Hsel & Hpop).
    rewrite Hpop in *.
    assert (Hlist : populate_tasks_for_selected_child selected_child_name
                      (set_children email u
                         (<[i := set_tasks (list_remove task (tasks child)) child]>
                            (children u)) c)
                    = list_remove task (tasks child)).
    { unfold populate_tasks_for_selected_child, children_of_current_user.
      rewrite Hsel. cbn [negb set_children set_users current_user].
      rewrite Hcu, lookup_set_children. cbn [children].
      rewrite (find_child_insert _ _ _ child
                 (set_tasks (list_remove task (tasks child)) child) Hfind);
        [reflexivity |].
      unfold find_child in Hfind. now apply list_find_Some in Hfind as (_ & Hn & _). }
    exists (set_children email u
              (<[i := set_tasks (list_remove task (tasks child)) child]> (children u)) c).
    rewrite Hlist. split; [| split; [reflexivity | now apply list_remove_length]].
    unfold remove_task, current_user_data. rewrite Hcu, Hu, Hfind.
    now rewrite bool_decide_eq_true_2.
  - intros Hne Hno. unfold populate_tasks_for_selected_child, children_of_current_user in Hno.
    unfold remove_task, current_user_data.
    rewrite (proj2 (truthy_true_iff _) Hne) in Hno. cbn [negb] in Hno.
    destruct (current_user c) as [email |]; [| now right].
    destruct (users (data c) !! email) as [u |]; [| now right].
    destruct (find_child selected_child_name (children u)) as [[i child] |];
      [| now left].
    rewrite bool_decide_eq_false_2 by exact Hno. now left.
Qed.

(** X19: A task built by [save] is for today on exactly the days that are
    checked in the popup, also when the seven days have been replaced by
    ["all"], and it is completed on no date. *)
Theorem new_task_is_for_the_checked_days (p : AddTaskPopup) (clock_us : Z) :
  (forall weekday_name, weekday_name ∈ PyTime.day_names ->
     is_for_today weekday_name (new_task p clock_us) = day_vars p weekday_name)
  /\ (forall now : datetime,
        is_for_today (PyTime.strftime_A now) (new_task p clock_us)
        = day_vars p (PyTime.strftime_A now))
  /\ forall date, is_completed date (new_task p clock_us) = false.
Proof.
  assert (Hdays : forall weekday_name, weekday_name ∈ PyTime.day_names ->
            is_for_today weekday_name (new_task p clock_us) = day_vars p weekday_name).
  { intros wd Hwd.
    destruct (day_vars p wd) eqn:Hv.
    - apply is_for_today_iff.
      destruct (decide (days (new_task p clock_us) = ["all"])) as [Hall | Hsome].
      + left. rewrite Hall. apply list_elem_of_here.
      + right. unfold new_task in *. cbn [days] in *.
        destruct (length (selected_days p) =? 7)%nat; [congruence |].
        apply selected_days_elem. now split.
    - apply not_true_iff_false. intros Hfor.
      apply is_for_today_iff in Hfor.
      assert (Hnot_all : days (new_task p clock_us) = selected_days p).
      { unfold new_task. cbn [days].
        destruct (length (selected_days p) =? 7)%nat eqn:Hlen; [| reflexivity].
        apply Nat.eqb_eq in Hlen. apply list_elem_of_In in Hwd.
        rewrite (proj1 (filter_full_iff (day_vars p) PyTime.day_names) Hlen wd Hwd) in Hv.
        discriminate. }
      rewrite Hnot_all in Hfor. destruct Hfor as [Hin | Hin];
        apply selected_days_elem in Hin as [Hin Hon].
      + apply list_elem_of_In in Hin. simpl in Hin.
        repeat (destruct Hin as [Hin | Hin]; [discriminate |]). destruct Hin.
      + congruence. }
  split; [exact Hdays |].
  split; [intros now; apply Hdays, strftime_A_is_day_name |].
  intros date. reflexivity.
Qed.

(** X20: The All Days box: once it has set every day, [save] stores the days
    as ["all"]; once it has cleared every day, [save] refuses to store
    the task. *)
Theorem all_days_box_sets_or_clears_the_days
    (p : AddTaskPopup) (clock_us : Z) (c : Controller) :
  days (new_task (toggle_all_days true p) clock_us) = ["all"]
  /\ selected_days (toggle_all_days true p) = PyTime.day_names
  /\ selected_days (toggle_all_days false p) = []
  /\ exists message,
       save (toggle_all_days false p) clock_us c = inr (c, [showerror "Error" message]).
Proof.
  assert (Hoff : selected_days (toggle_all_days false p) = []) by reflexivity.
  split; [reflexivity |]. split; [reflexivity |]. split; [exact Hoff |].
  unfold save. rewrite Hoff.
  destruct (negb _ || negb _ || negb _ || negb _ || negb _); eauto.
Qed.

(** X21: The values that the four spinboxes show when they are set with
    their arrows (hours 0 to 23, minutes 0 to 59, two digits) always make
    a task whose bubble can be built, with those hours and minutes. *)
Theorem spinbox_times_make_a_bubble (p : AddTaskPopup) (clock_us h1 m1 h2 m2 : Z) :
  (0 <= h1 <= 23)%Z -> (0 <= m1 <= 59)%Z -> (0 <= h2 <= 23)%Z -> (0 <= m2 <= 59)%Z ->
  start_hour p = spinbox_value h1 -> start_min p = spinbox_value m1 ->
  end_hour p = spinbox_value h2 -> end_min p = spinbox_value m2 ->
  create_task_bubble (new_task p clock_us)
  = inr {| bubble_task := new_task p clock_us;
           start_time_obj := Time h1 m1 0 0;
           end_time_obj := Time h2 m2 0 0 |}.
Proof.
  assert (Hall : forallb (fun h => forallb (fun m =>
            bool_decide (PyTime.strptime_HM
                           (spinbox_value (Z.of_nat h) +:+ ":" +:+ spinbox_value (Z.of_nat m))
                         = Some (Time (Z.of_nat h) (Z.of_nat m) 0 0)))
            (seq 0 60)) (seq 0 24) = true) by (vm_compute; reflexivity).
  assert (Hparse : forall h m, (0 <= h <= 23)%Z -> (0 <= m <= 59)%Z ->
            PyTime.strptime_HM (spinbox_value h +:+ ":" +:+ spinbox_value m)
            = Some (Time h m 0 0)).
  { intros h m Hh Hm. rewrite forallb_forall in Hall.
    specialize (Hall (Z.to_nat h)). rewrite forallb_forall in Hall.
    assert (Hin : In (Z.to_nat h) (seq 0 24)) by (apply in_seq; lia).
    specialize (Hall Hin (Z.to_nat m)).
    assert (Hin' : In (Z.to_nat m) (seq 0 60)) by (apply in_seq; lia).
    apply Hall in Hin'. apply bool_decide_eq_true in Hin'.
    now rewrite !Z2Nat.id in Hin' by lia. }
  intros Hh1 Hm1 Hh2 Hm2 E1 E2 E3 E4.
  unfold create_task_bubble, new_task. cbn [start_time end_time].
  rewrite E1, E2, E3, E4, (Hparse h1 m1 Hh1 Hm1), (Hparse h2 m2 Hh2 Hm2).
  reflexivity.
Qed.

Lemma spinbox_times_make_a_bubble_witness :
  start_hour brush_popup = spinbox_value 9
  /\ end_min brush_popup = spinbox_value 30
  /\ create_task_bubble (new_task brush_popup 1700000000250000%Z)
     = inr {| bubble_task := new_task brush_popup 1700000000250000%Z;
              start_time_obj := Time 9 0 0 0;
              end_time_obj := Time 9 30 0 0 |}.
Proof.
  split; [reflexivity |]. split; [reflexivity |].
  refine (spinbox_times_make_a_bubble brush_popup 1700000000250000%Z 9 0 9 30
            _ _ _ _ _ _ _ _); try lia; reflexivity.
Defined.

Lemma of_int_inj (z1 z2 : Z) : PyStr.of_int z1 = PyStr.of_int z2 -> z1 = z2.
Proof.
  unfold PyStr.of_int. intros Heq.
  assert (Hnorm : forall z, NilZero.int_of_string (NilZero.string_of_int (Z.to_int z))
                            = Some (Z.to_int z)).
  { intros z. apply NilZero.isi; destruct z; simpl; try discriminate;
      intros [= H]; now apply DecimalPos.Unsigned.to_uint_nonnil in H. }
  apply DecimalZ.to_int_inj.
  pose proof (Hnorm z1) as H1. rewrite Heq, Hnorm in H1. congruence.
Qed.

(** *** The whole second of a clock reading

    Between the epoch and 2^33 seconds after it (the year 2242) the
    float that [timestamp] returns lies in the second of the clock
    reading, so that [int] gives that second.  The proof follows the
    operations of the library's specification: the conversion of the
    two integers, the division by [1e6] and the addition, each with its
    rounding to 53 bits. *)

Section Binary64.
Import SpecFloat.
Local Open Scope Z_scope.

Lemma digits2_pos_bounds (p : positive) :
  2 ^ (Z.pos (SpecFloat.digits2_pos p) - 1) <= Z.pos p < 2 ^ Z.pos (SpecFloat.digits2_pos p).
Proof.
  induction p as [p IH | p IH |]; cbn [SpecFloat.digits2_pos].
  - rewrite Pos2Z.inj_succ. replace (Z.succ (Z.pos (SpecFloat.digits2_pos p)) - 1)
      with (Z.succ (Z.pos (SpecFloat.digits2_pos p) - 1)) by lia.
    rewrite !Z.pow_succ_r by lia. lia.
  - rewrite Pos2Z.inj_succ. replace (Z.succ (Z.pos (SpecFloat.digits2_pos p)) - 1)
      with (Z.succ (Z.pos (SpecFloat.digits2_pos p) - 1)) by lia.
    rewrite !Z.pow_succ_r by lia. lia.
  - simpl. lia.
Qed.

Lemma digits2_pos_unique (p : positive) (d : Z) :
  2 ^ (d - 1) <= Z.pos p < 2 ^ d -> Z.pos (SpecFloat.digits2_pos p) = d.
Proof.
  intros [Hlo Hhi]. pose proof (digits2_pos_bounds p) as [Hlo' Hhi'].
  set (d' := Z.pos (SpecFloat.digits2_pos p)) in *.
  assert (0 < d) by (destruct (Z_lt_le_dec 0 d); [assumption |];
                     rewrite (Z.pow_neg_r 2 (d-1)) in Hlo by lia;
                     destruct (Z.eq_dec d 0) as [-> |];
                     [simpl in Hhi; lia | rewrite Z.pow_neg_r in Hhi by lia; lia]).
  assert (0 < d') by (unfold d'; lia).
  destruct (Z_lt_le_dec d d').
  - assert (2 ^ d <= 2 ^ (d' - 1)) by (apply Z.pow_le_mono_r; lia). lia.
  - destruct (Z_lt_le_dec d' d); [| lia].
    assert (2 ^ d' <= 2 ^ (d - 1)) by (apply Z.pow_le_mono_r; lia). lia.
Qed.

Lemma iter_xO (m d : positive) : Z.pos (Pos.iter xO m d) = Z.pos m * 2 ^ Z.pos d.
Proof.
  revert m. induction d using Pos.peano_ind; intros m.
  - simpl. lia.
  - rewrite Pos.iter_succ, Pos2Z.inj_succ, Z.pow_succ_r by lia.
    rewrite Pos2Z.inj_xO, IHd. lia.
Qed.

Lemma fexp_normal (e : Z) : -1021 <= e -> (fexp PyFloat.prec PyFloat.emax) e = e - 53.
Proof. intros H. unfold fexp, emin, PyFloat.prec, PyFloat.emax. lia. Qed.

Lemma shr_1_m (r : shr_record) : 0 <= shr_m r -> shr_m (shr_1 r) = shr_m r / 2.
Proof.
  destruct r as [m rb sb]. cbn [shr_m]. intros Hm.
  destruct m as [| p | p]; [reflexivity | | lia].
  destruct p as [p | p |]; cbn [shr_1 shr_m].
  - rewrite Pos2Z.inj_xI. apply (Z.div_unique _ 2 _ 1); lia.
  - rewrite Pos2Z.inj_xO. apply (Z.div_unique _ 2 _ 0); lia.
  - reflexivity.
Qed.

Lemma shr_1_exact (r : shr_record) :
  0 <= shr_m r -> shr_r r = false -> shr_s r = false -> shr_m r mod 2 = 0 ->
  shr_r (shr_1 r) = false /\ shr_s (shr_1 r) = false.
Proof.
  destruct r as [m rb sb]. cbn [shr_m shr_r shr_s]. intros Hm -> -> Heven.
  destruct m as [| p | p]; [now split | | lia].
  destruct p as [p | p |]; cbn [shr_1 shr_r shr_s orb].
  - rewrite Pos2Z.inj_xI in Heven. exfalso.
    rewrite Z.add_comm, Z.mul_comm, Z.mod_add in Heven by lia. discriminate.
  - now split.
  - discriminate.
Qed.

Lemma shifted_step (M k : Z) (r : shr_record) :
  0 <= M -> 0 <= k -> (shr_m r = M / 2 ^ k
   /\ (M mod 2 ^ k = 0 -> shr_r r = false /\ shr_s r = false)) ->
  (shr_m (shr_1 r) = M / 2 ^ (k + 1)
   /\ (M mod 2 ^ (k + 1) = 0 -> shr_r (shr_1 r) = false /\ shr_s (shr_1 r) = false)).
Proof.
  intros HM Hk [Hm Hex].
  assert (Hpos : 0 < 2 ^ k) by (apply Z.pow_pos_nonneg; lia).
  assert (Hm0 : 0 <= shr_m r) by (rewrite Hm; apply Z.div_pos; lia).
  assert (Hpow : 2 ^ (k + 1) = 2 ^ k * 2) by (rewrite Z.pow_add_r by lia; reflexivity).
  split.
  - rewrite shr_1_m by exact Hm0. rewrite Hm, Hpow, Z.div_div by lia. reflexivity.
  - intros Hmod. rewrite Hpow, Z.rem_mul_r in Hmod by lia.
    assert (H1 : 0 <= M mod 2 ^ k < 2 ^ k) by (apply Z.mod_pos_bound; lia).
    assert (H2 : 0 <= (M / 2 ^ k) mod 2 < 2) by (apply Z.mod_pos_bound; lia).
    assert (Ha : M mod 2 ^ k = 0) by nia.
    assert (Hb : (M / 2 ^ k) mod 2 = 0) by nia.
    destruct (Hex Ha) as [Hr Hs].
    apply shr_1_exact; try assumption. now rewrite Hm.
Qed.

Lemma shifted_iter (M : Z) (p : positive) :
  0 <= M ->
  forall k r, 0 <= k ->
  (shr_m r = M / 2 ^ k
   /\ (M mod 2 ^ k = 0 -> shr_r r = false /\ shr_s r = false)) ->
  (shr_m (iter_pos shr_1 p r) = M / 2 ^ (k + Z.pos p)
   /\ (M mod 2 ^ (k + Z.pos p) = 0 -> shr_r (iter_pos shr_1 p r) = false /\ shr_s (iter_pos shr_1 p r) = false)).
Proof.
  intros HM. induction p as [p IH | p IH |]; intros k r Hk Hr; cbn [iter_pos].
  - replace (k + Z.pos p~1) with (((k + 1) + Z.pos p) + Z.pos p) by lia.
    apply IH; [lia |]. apply IH; [lia |]. now apply shifted_step.
  - replace (k + Z.pos p~0) with ((k + Z.pos p) + Z.pos p) by lia.
    apply IH; [lia |]. now apply IH.
  - now apply shifted_step.
Qed.

Lemma shifted_start (M : Z) :
  (shr_m (shr_record_of_loc M loc_Exact) = M / 2 ^ 0
   /\ (M mod 2 ^ 0 = 0 -> shr_r (shr_record_of_loc M loc_Exact) = false /\ shr_s (shr_record_of_loc M loc_Exact) = false)).
Proof.
  split; cbn [shr_record_of_loc shr_m shr_r shr_s].
  - now rewrite Z.pow_0_r, Z.div_1_r.
  - now split.
Qed.


Lemma shr_fexp_normal (m : positive) (e : Z) (l : location) :
  Z.pos (digits2_pos m) = 53 -> -1074 <= e ->
  shr_fexp PyFloat.prec PyFloat.emax (Z.pos m) e l = (shr_record_of_loc (Z.pos m) l, e).
Proof.
  intros Hd He. unfold shr_fexp. cbn [Zdigits2]. rewrite Hd.
  assert (Hn : (fexp PyFloat.prec PyFloat.emax) (53 + e) - e = 0)
    by (unfold fexp, emin, PyFloat.prec, PyFloat.emax; lia).
  rewrite Hn. reflexivity.
Qed.

Lemma round_normal (sx : bool) (m : positive) (e : Z) :
  Z.pos (digits2_pos m) = 53 -> -1074 <= e <= 971 ->
  binary_round_aux PyFloat.prec PyFloat.emax sx (Z.pos m) e loc_Exact
  = S754_finite sx m e.
Proof.
  intros Hd He. unfold binary_round_aux.
  rewrite shr_fexp_normal by (try assumption; lia).
  cbn [shr_record_of_loc shr_m loc_of_shr_record round_nearest_even].
  rewrite shr_fexp_normal by (try assumption; lia).
  cbn [shr_record_of_loc shr_m].
  assert (Hle : (e <=? PyFloat.emax - PyFloat.prec) = true)
    by (apply Z.leb_le; unfold PyFloat.emax, PyFloat.prec; lia).
  now rewrite Hle.
Qed.

Lemma of_int_finite (p : positive) :
  Z.pos p < 2 ^ 53 ->
  PyFloat.of_int (Z.pos p)
  = S754_finite false
      (Z.to_pos (Z.pos p * 2 ^ (53 - Z.pos (digits2_pos p))))
      (Z.pos (digits2_pos p) - 53).
Proof.
  intros Hp. pose proof (digits2_pos_bounds p) as [Hlo Hhi].
  set (d := Z.pos (digits2_pos p)) in *.
  assert (Hd : 1 <= d <= 53).
  { split; [unfold d; lia |].
    destruct (Z_lt_le_dec 53 d); [| assumption].
    assert (2 ^ 53 <= 2 ^ (d - 1)) by (apply Z.pow_le_mono_r; lia). lia. }
  unfold PyFloat.of_int, binary_normalize, binary_round.
  fold d. rewrite Z.add_0_r, fexp_normal by lia.
  unfold shl_align.
  destruct (d - 53 - 0) as [| k | k] eqn:Hk; try lia.
  - assert (d = 53) by lia.
    replace (53 - d) with 0 by lia. rewrite Z.pow_0_r, Z.mul_1_r. cbn [Z.to_pos].
    replace (d - 53) with 0 by lia.
    apply round_normal; [fold d; lia | lia].
  - assert (Hm : Z.pos (Pos.iter xO p k) = Z.pos p * 2 ^ (53 - d)).
    { rewrite iter_xO. f_equal. f_equal. lia. }
    rewrite <- Hm. cbn [Z.to_pos].
    apply round_normal; [| lia].
    apply digits2_pos_unique. rewrite Hm.
    assert (H1 : 2 ^ (53 - 1) = 2 ^ (d - 1) * 2 ^ (53 - d))
      by (rewrite <- Z.pow_add_r by lia; f_equal; lia).
    assert (H2 : 2 ^ 53 = 2 ^ d * 2 ^ (53 - d))
      by (rewrite <- Z.pow_add_r by lia; f_equal; lia).
    assert (H3 : 0 < 2 ^ (53 - d)) by (apply Z.pow_pos_nonneg; lia).
    rewrite H1, H2. nia.
Qed.

Lemma round_nearest_even_bounds (r : shr_record) :
  shr_m r <= round_nearest_even (shr_m r) (loc_of_shr_record r) <= shr_m r + 1
  /\ (shr_r r = false -> shr_s r = false ->
      round_nearest_even (shr_m r) (loc_of_shr_record r) = shr_m r).
Proof.
  destruct r as [m [|] [|]]; cbn [shr_m shr_r shr_s loc_of_shr_record round_nearest_even];
    try (split; [lia | intros; congruence]).
  destruct (Z.even m); split; try lia; intros; congruence.
Qed.

Lemma add_seconds (s mq : positive) (eq : Z) :
  Z.pos s < 2 ^ 33 ->
  eq <= -53 ->
  Z.pos mq * 2 ^ 20 <= (2 ^ 20 - 1) * 2 ^ (- eq) ->
  PyFloat.to_int (PyFloat.add (PyFloat.of_int (Z.pos s)) (S754_finite false mq eq))
  = Z.pos s.
Proof.
  intros Hs Heq Hq.
  assert (Hs53 : Z.pos s < 2 ^ 53).
  { assert (2 ^ 33 <= 2 ^ 53) by (apply Z.pow_le_mono_r; lia). lia. }
  rewrite (of_int_finite s Hs53).
  pose proof (digits2_pos_bounds s) as [Hlo Hhi].
  set (ds := Z.pos (digits2_pos s)) in *.
  assert (Hds : 1 <= ds <= 33).
  { split; [unfold ds; lia |].
    destruct (Z_lt_le_dec 33 ds); [| assumption].
    assert (2 ^ 33 <= 2 ^ (ds - 1)) by (apply Z.pow_le_mono_r; lia). lia. }
  set (B := 2 ^ (33 - ds)).
  set (A := 2 ^ (53 - ds)).
  assert (HB : 1 <= B) by (unfold B; pose proof (Z.pow_pos_nonneg 2 (33 - ds)); lia).
  assert (HA : A = 2 ^ 20 * B)
    by (unfold A, B; rewrite <- Z.pow_add_r by lia; f_equal; lia).
  destruct (ds - 53 - eq) as [| k | k] eqn:Hk; try lia.
  set (K := 2 ^ Z.pos k).
  assert (HK : 1 <= K) by (unfold K; pose proof (Z.pow_pos_nonneg 2 (Z.pos k)); lia).
  assert (HAK : 2 ^ (- eq) = A * K)
    by (unfold A, K; rewrite <- Z.pow_add_r by lia; f_equal; lia).
  assert (Hpow : 2 ^ ds = 2 * 2 ^ (ds - 1)).
  { replace ds with (1 + (ds - 1)) at 1 by lia. rewrite Z.pow_add_r by lia. reflexivity. }
  assert (Hmq : Z.pos mq <= (2 ^ 20 - 1) * B * K).
  { rewrite HAK, HA in Hq. change (2 ^ 20) with 1048576 in *. nia. }
  assert (Hms : Z.pos (Z.to_pos (Z.pos s * A)) = Z.pos s * A)
    by (apply Z2Pos.id; unfold A; pose proof (Z.pow_pos_nonneg 2 (53 - ds)); nia).
  (* the sum of the aligned mantissas *)
  set (M := (Pos.iter xO (Z.to_pos (Z.pos s * A)) k + mq)%positive).
  assert (HM : Z.pos M = Z.pos s * A * K + Z.pos mq).
  { unfold M. rewrite Pos2Z.inj_add, iter_xO, Hms. reflexivity. }
  assert (HdM : Z.pos (digits2_pos M) = ds - eq).
  { apply digits2_pos_unique. rewrite HM.
    replace (ds - eq - 1) with ((ds - 1) + - eq) by lia.
    replace (ds - eq) with (ds + - eq) by lia.
    rewrite !Z.pow_add_r, HAK by lia.
    change (2 ^ 20) with 1048576 in *. nia. }
  unfold PyFloat.add, SFadd.
  assert (Hmin : Z.min (ds - 53) eq = eq) by lia.
  rewrite Hmin. unfold shl_align at 1 2.
  replace (eq - (ds - 53)) with (Z.neg k) by lia.
  rewrite Z.sub_diag. cbn [fst cond_Zopp].
  change (Z.pos (Pos.iter xO (Z.to_pos (Z.pos s * A)) k) + Z.pos mq) with (Z.pos M).
  unfold binary_normalize, binary_round, shl_align.
  rewrite HdM.
  replace (ds - eq + eq) with ds by lia.
  rewrite fexp_normal by lia.
  rewrite Hk.
  unfold binary_round_aux, shr_fexp at 1. cbn [Zdigits2]. rewrite HdM.
  replace (ds - eq + eq) with ds by lia.
  rewrite fexp_normal by lia. rewrite Hk. unfold shr. cbv beta iota.
  pose proof (shifted_iter (Z.pos M) k ltac:(lia) 0 _ ltac:(lia) (shifted_start (Z.pos M)))
    as [Hm1 Hexact].
  rewrite Z.add_0_l in Hm1, Hexact. fold K in Hm1, Hexact.
  set (r1 := iter_pos shr_1 k (shr_record_of_loc (Z.pos M) loc_Exact)) in *.
  pose proof (round_nearest_even_bounds r1) as [Hrne Hrne0].
  set (m2 := round_nearest_even (shr_m r1) (loc_of_shr_record r1)) in *.
  assert (Hdiv : Z.pos M / K = Z.pos s * A + Z.pos mq / K).
  { rewrite HM. rewrite Z.add_comm, Z.div_add by lia. lia. }
  assert (Hm2 : Z.pos s * A <= m2 <= Z.pos s * A + (2 ^ 20 - 1) * B).
  { rewrite Hm1, Hdiv in Hrne.
    assert (H0 : 0 <= Z.pos mq / K) by (apply Z.div_pos; lia).
    split; [lia |].
    assert (Hle : Z.pos mq / K <= (2 ^ 20 - 1) * B).
    { apply Z.div_le_upper_bound; [lia |]. change (2 ^ 20) with 1048576 in *. nia. }
    destruct (Z.eq_dec (Z.pos mq / K) ((2 ^ 20 - 1) * B)) as [Heq' | Hne]; [| lia].
    assert (Hmod : Z.pos M mod K = 0).
    { pose proof (Z.div_mod (Z.pos mq) K ltac:(lia)) as Hdm.
      pose proof (Z.mod_pos_bound (Z.pos mq) K ltac:(lia)) as Hb.
      rewrite Heq' in Hdm.
      assert (Z.pos mq mod K = 0) by (change (2 ^ 20) with 1048576 in *; nia).
      rewrite HM, Z.add_comm, Z.mod_add by lia. assumption. }
    destruct (Hexact Hmod) as [Hr Hs'].
    rewrite (Hrne0 Hr Hs'), Hm1, Hdiv, Heq'. lia. }
  assert (HsA : 2 ^ 52 <= Z.pos s * A).
  { replace (2 ^ 52) with (2 ^ (ds - 1) * A)
      by (unfold A; rewrite <- Z.pow_add_r by lia; f_equal; lia).
    apply Z.mul_le_mono_nonneg_r; lia. }
  assert (HsA' : (Z.pos s + 1) * A <= 2 ^ 53).
  { replace (2 ^ 53) with (2 ^ ds * A)
      by (unfold A; rewrite <- Z.pow_add_r by lia; f_equal; lia).
    apply Z.mul_le_mono_nonneg_r; lia. }
  clearbody m2.
  destruct m2 as [| p2 | p2]; try (change (2 ^ 52) with 4503599627370496 in *; lia).
  assert (Hd2 : Z.pos (digits2_pos p2) = 53).
  { apply digits2_pos_unique. change (2 ^ 20) with 1048576 in *.
    change (53 - 1) with 52. nia. }
  rewrite shr_fexp_normal by (try assumption; lia).
  cbn [shr_record_of_loc shr_m].
  assert (Hle : (eq + Z.pos k <=? PyFloat.emax - PyFloat.prec) = true)
    by (apply Z.leb_le; unfold PyFloat.emax, PyFloat.prec; lia).
  rewrite Hle. cbn [PyFloat.to_int cond_Zopp].
  rewrite Z.shiftl_div_pow2 by lia.
  replace (- (eq + Z.pos k)) with (53 - ds) by lia. fold A.
  symmetry. apply (Z.div_unique _ _ _ (Z.pos p2 - Z.pos s * A)).
  - change (2 ^ 20) with 1048576 in *. lia.
  - lia.
Qed.

Lemma of_int_million :
  PyFloat.of_int 1000000 = S754_finite false 8589934592000000 (-33).
Proof. vm_compute. reflexivity. Qed.

(** The second rounding step, which absorbs a carry. *)
Lemma round_carry (sx : bool) (m2 e1 : Z) :
  2 ^ 52 <= m2 <= 2 ^ 53 -> -1074 <= e1 <= 900 ->
  exists mq eq,
    (let '(mrs, e) := shr_fexp PyFloat.prec PyFloat.emax m2 e1 loc_Exact in
     match shr_m mrs with
     | Z0 => S754_zero sx
     | Z.pos m => if e <=? PyFloat.emax - PyFloat.prec then S754_finite sx m e
                  else S754_infinity sx
     | Z.neg _ => S754_nan
     end) = S754_finite sx mq eq
    /\ 2 ^ 52 <= Z.pos mq
    /\ e1 <= eq <= e1 + 1
    /\ Z.pos mq * 2 ^ (eq - e1) = m2.
Proof.
  intros Hm He.
  destruct m2 as [| p2 | p2]; try (change (2 ^ 52) with 4503599627370496 in *; lia).
  destruct (Z.eq_dec (Z.pos p2) (2 ^ 53)) as [Hc | Hn].
  - assert (Hp : p2 = 9007199254740992%positive) by (change (2 ^ 53) with 9007199254740992 in Hc; congruence).
    subst p2. exists 4503599627370496%positive, (e1 + 1).
    unfold shr_fexp. cbn [Zdigits2].
    change (Z.pos (digits2_pos 9007199254740992)) with 54.
    rewrite fexp_normal by lia.
    replace (54 + e1 - 53 - e1) with 1 by lia.
    cbn [shr iter_pos shr_record_of_loc shr_1 shr_m].
    assert (Hle : (e1 + 1 <=? PyFloat.emax - PyFloat.prec) = true)
      by (apply Z.leb_le; unfold PyFloat.emax, PyFloat.prec; lia).
    rewrite Hle. split; [reflexivity |]. split; [reflexivity |]. split; [lia |].
    replace (e1 + 1 - e1) with 1 by lia. reflexivity.
  - assert (Hd : Z.pos (digits2_pos p2) = 53)
      by (apply digits2_pos_unique; change (53 - 1) with 52; lia).
    exists p2, e1. rewrite shr_fexp_normal by (try assumption; lia).
    cbn [shr_record_of_loc shr_m].
    assert (Hle : (e1 <=? PyFloat.emax - PyFloat.prec) = true)
      by (apply Z.leb_le; unfold PyFloat.emax, PyFloat.prec; lia).
    rewrite Hle. split; [reflexivity |]. split; [lia |]. split; [lia |].
    rewrite Z.sub_diag. simpl. lia.
Qed.

Lemma div_micro (u : positive) :
  Z.pos u < 1000000 ->
  exists mq eq,
    PyFloat.truediv (PyFloat.of_int (Z.pos u)) (PyFloat.of_int 1000000)
    = S754_finite false mq eq
    /\ eq <= -53
    /\ Z.pos mq * 2 ^ 20 <= (2 ^ 20 - 1) * 2 ^ (- eq).
Proof.
  intros Hu.
  assert (Hu53 : Z.pos u < 2 ^ 53) by (change (2 ^ 53) with 9007199254740992; lia).
  rewrite (of_int_finite u Hu53), of_int_million.
  pose proof (digits2_pos_bounds u) as [Hlo Hhi].
  set (du := Z.pos (digits2_pos u)) in *.
  assert (Hdu : 1 <= du <= 20).
  { split; [unfold du; lia |].
    destruct (Z_lt_le_dec 20 du); [| assumption].
    assert (2 ^ 20 <= 2 ^ (du - 1)) by (apply Z.pow_le_mono_r; lia).
    change (2 ^ 20) with 1048576 in *. lia. }
  set (A := 2 ^ (53 - du)).
  assert (HA : 0 < A) by (apply Z.pow_pos_nonneg; lia).
  assert (Hmu : Z.pos (Z.to_pos (Z.pos u * A)) = Z.pos u * A) by (apply Z2Pos.id; nia).
  set (mu := Z.to_pos (Z.pos u * A)) in *.
  assert (H52 : 2 ^ 52 = 2 ^ (du - 1) * A)
    by (unfold A; rewrite <- Z.pow_add_r by lia; f_equal; lia).
  assert (H53 : 2 ^ 53 = 2 ^ du * A)
    by (unfold A; rewrite <- Z.pow_add_r by lia; f_equal; lia).
  assert (Hmu_lo : 2 ^ 52 <= Z.pos mu) by (rewrite Hmu, H52; nia).
  assert (Hmu_hi : Z.pos mu < 2 ^ 53) by (rewrite Hmu, H53; nia).
  assert (Hdmu : Z.pos (digits2_pos mu) = 53)
    by (apply digits2_pos_unique; change (53 - 1) with 52; lia).
  set (P := 2 ^ (73 - du)).
  assert (HP : P = A * 2 ^ 20)
    by (unfold P, A; rewrite <- Z.pow_add_r by lia; f_equal; lia).
  unfold PyFloat.truediv, SFdiv, SFdiv_core_binary.
  cbn [Zdigits2]. rewrite Hdmu.
  change (Z.pos (digits2_pos 8589934592000000)) with 53.
  replace (53 + (du - 53) - (53 + -33)) with (du - 20) by lia.
  rewrite fexp_normal by lia.
  replace (Z.min (du - 20 - 53) (du - 53 - -33)) with (du - 73) by lia.
  replace (du - 53 - -33 - (du - 73)) with 53 by lia.
  rewrite Z.shiftl_mul_pow2 by lia.
  pose proof (Z_div_mod (Z.pos mu * 2 ^ 53) 8589934592000000 ltac:(lia)) as Hdm.
  destruct (Z.div_eucl (Z.pos mu * 2 ^ 53) 8589934592000000) as [q0 r].
  destruct Hdm as [Hdm Hr]. cbn [xorb].
  (* the quotient has 53 or 54 digits *)
  assert (Hq_lo : 2 ^ 52 <= q0).
  { change (2 ^ 52) with 4503599627370496 in *. change (2 ^ 53) with 9007199254740992 in *.
    nia. }
  assert (Hq_hi : q0 < 2 ^ 54).
  { change (2 ^ 52) with 4503599627370496 in *. change (2 ^ 53) with 9007199254740992 in *.
    change (2 ^ 54) with 18014398509481984. nia. }
  assert (Hq_val : (q0 + 2) * 2 ^ 20 <= (2 ^ 20 - 1) * P).
  { assert (Hqu : q0 * 1000000 <= Z.pos u * A * 2 ^ 20).
    { rewrite Hmu in Hdm.
      change (2 ^ 53) with (8589934592 * 2 ^ 20) in Hdm.
      change (2 ^ 20) with 1048576 in *. nia. }
    assert (HA53 : 2 ^ 33 <= A) by (unfold A; apply Z.pow_le_mono_r; lia).
    rewrite HP. change (2 ^ 20) with 1048576 in *. change (2 ^ 33) with 8589934592 in *.
    nia. }
  destruct q0 as [| pq | pq]; try (change (2 ^ 52) with 4503599627370496 in *; lia).
  unfold binary_round_aux.
  assert (Hcase : Z.pos (digits2_pos pq) = 53 \/ Z.pos (digits2_pos pq) = 54).
  { pose proof (digits2_pos_bounds pq) as [Hl Hh].
    set (dq := Z.pos (digits2_pos pq)) in *.
    destruct (Z_lt_le_dec dq 53).
    - assert (2 ^ dq <= 2 ^ 52) by (apply Z.pow_le_mono_r; lia). lia.
    - destruct (Z_lt_le_dec 54 dq); [| lia].
      assert (2 ^ 54 <= 2 ^ (dq - 1)) by (apply Z.pow_le_mono_r; lia). lia. }
  set (l := new_location 8589934592000000 r).
  assert (Hfirst : exists r1 e1,
             shr_fexp PyFloat.prec PyFloat.emax (Z.pos pq) (du - 73) l = (r1, e1)
             /\ du - 73 <= e1 <= du - 72
             /\ 2 ^ 52 <= shr_m r1 < 2 ^ 53
             /\ (shr_m r1 + 1) * 2 ^ (e1 - (du - 73)) <= Z.pos pq + 2).
  { destruct Hcase as [Hd | Hd].
    - exists (shr_record_of_loc (Z.pos pq) l), (du - 73).
      rewrite shr_fexp_normal by (try assumption; lia).
      split; [reflexivity |]. split; [lia |].
      assert (Hm : shr_m (shr_record_of_loc (Z.pos pq) l) = Z.pos pq)
        by (destruct l as [| []]; reflexivity).
      rewrite Hm, Z.sub_diag. pose proof (digits2_pos_bounds pq) as [Hl Hh].
      rewrite Hd in Hl, Hh. change (53 - 1) with 52 in Hl. simpl (2 ^ 0). lia.
    - exists (shr_1 (shr_record_of_loc (Z.pos pq) l)), (du - 73 + 1).
      unfold shr_fexp. cbn [Zdigits2]. rewrite Hd, fexp_normal by lia.
      replace (54 + (du - 73) - 53 - (du - 73)) with 1 by lia.
      split; [reflexivity |]. split; [lia |].
      assert (Hm : shr_m (shr_record_of_loc (Z.pos pq) l) = Z.pos pq)
        by (destruct l as [| []]; reflexivity).
      rewrite shr_1_m by (rewrite Hm; lia). rewrite Hm.
      replace (du - 73 + 1 - (du - 73)) with 1 by lia. change (2 ^ 1) with 2.
      pose proof (digits2_pos_bounds pq) as [Hl Hh].
      rewrite Hd in Hl, Hh. change (54 - 1) with 53 in Hl.
      pose proof (Z.div_mod (Z.pos pq) 2 ltac:(lia)) as Hdiv.
      pose proof (Z.mod_pos_bound (Z.pos pq) 2 ltac:(lia)) as Hmod.
      change (2 ^ 52) with 4503599627370496 in *. change (2 ^ 53) with 9007199254740992 in *.
      change (2 ^ 54) with 18014398509481984 in *. lia. }
  destruct Hfirst as (r1 & e1 & -> & He1 & Hm1 & Hv1).
  pose proof (round_nearest_even_bounds r1) as [Hrne _].
  set (m2 := round_nearest_even (shr_m r1) (loc_of_shr_record r1)) in *.
  destruct (round_carry false m2 e1 ltac:(lia) ltac:(lia)) as (mq & eq & -> & Hmq & Heq & Hval).
  exists mq, eq. split; [reflexivity |].
  assert (Hbound : Z.pos mq * 2 ^ 20 <= (2 ^ 20 - 1) * 2 ^ (- eq)).
  { set (Z1 := 2 ^ (eq - e1)) in *. set (Z2 := 2 ^ (e1 - (du - 73))) in *.
    assert (HZ1 : 0 < Z1) by (apply Z.pow_pos_nonneg; lia).
    assert (HZ2 : 0 < Z2) by (apply Z.pow_pos_nonneg; lia).
    assert (HPe : P = 2 ^ (- eq) * Z1 * Z2).
    { unfold P, Z1, Z2. rewrite <- !Z.pow_add_r by lia. f_equal. lia. }
    assert (H1 : Z.pos mq * Z1 * Z2 <= Z.pos pq + 2).
    { rewrite Hval. apply Z.le_trans with ((shr_m r1 + 1) * Z2); [| exact Hv1].
      apply Z.mul_le_mono_nonneg_r; lia. }
    assert (H2 : Z.pos mq * 2 ^ 20 * (Z1 * Z2) <= (2 ^ 20 - 1) * 2 ^ (- eq) * (Z1 * Z2)).
    { rewrite HPe in Hq_val. change (2 ^ 20) with 1048576 in *. nia. }
    apply Z.mul_le_mono_pos_r in H2; [exact H2 | nia]. }
  split; [| exact Hbound].
  destruct (Z_lt_le_dec (-53) eq) as [Hbig |]; [exfalso | lia].
  assert (Hpw : 2 ^ (- eq) <= 2 ^ 52).
  { destruct (Z_lt_le_dec (- eq) 0).
    - rewrite Z.pow_neg_r by lia. change (2 ^ 52) with 4503599627370496. lia.
    - apply Z.pow_le_mono_r; lia. }
  change (2 ^ 20) with 1048576 in *. change (2 ^ 52) with 4503599627370496 in *. nia.
Qed.

Lemma to_int_of_int (s : positive) :
  Z.pos s < 2 ^ 53 -> PyFloat.to_int (PyFloat.of_int (Z.pos s)) = Z.pos s.
Proof.
  intros Hs. rewrite (of_int_finite s Hs).
  pose proof (digits2_pos_bounds s) as [Hlo Hhi].
  set (ds := Z.pos (digits2_pos s)) in *.
  assert (Hds : 1 <= ds <= 53).
  { split; [unfold ds; lia |].
    destruct (Z_lt_le_dec 53 ds); [| assumption].
    assert (2 ^ 53 <= 2 ^ (ds - 1)) by (apply Z.pow_le_mono_r; lia). lia. }
  assert (HA : 0 < 2 ^ (53 - ds)) by (apply Z.pow_pos_nonneg; lia).
  cbn [PyFloat.to_int cond_Zopp].
  rewrite Z2Pos.id by nia.
  rewrite Z.shiftl_div_pow2 by lia.
  replace (- (ds - 53)) with (53 - ds) by lia.
  apply Z.div_mul. lia.
Qed.

Lemma timestamp_seconds_floor (clock_us : Z) :
  0 <= clock_us < 2 ^ 33 * 1000000 ->
  PyTime.timestamp_seconds clock_us = clock_us / 1000000.
Proof.
  intros Hclock. unfold PyTime.timestamp_seconds, PyTime.timestamp.
  pose proof (Z.mod_pos_bound clock_us 1000000 ltac:(lia)) as Hu.
  assert (Hs : 0 <= clock_us / 1000000 < 2 ^ 33).
  { split; [apply Z.div_pos; lia | apply Z.div_lt_upper_bound; lia]. }
  destruct (clock_us / 1000000) as [| s | s]; [| | lia];
    destruct (clock_us mod 1000000) as [| u | u]; try lia.
  - reflexivity.
  - destruct (div_micro u ltac:(lia)) as (mq & eq & -> & Heq & Hq).
    cbn [PyFloat.of_int binary_normalize PyFloat.add SFadd PyFloat.to_int cond_Zopp].
    rewrite Z.shiftl_div_pow2 by lia.
    apply Z.div_small. split; [lia |].
    assert (0 < 2 ^ (- eq)) by (apply Z.pow_pos_nonneg; lia).
    change (2 ^ 20) with 1048576 in *. nia.
  - assert (Hzero : PyFloat.truediv (PyFloat.of_int 0) (PyFloat.of_int 1000000)
                    = S754_zero false) by (vm_compute; reflexivity).
    rewrite Hzero.
    assert (Hs53 : Z.pos s < 2 ^ 53).
    { assert (2 ^ 33 <= 2 ^ 53) by (apply Z.pow_le_mono_r; lia). lia. }
    pose proof (to_int_of_int s Hs53) as Hid.
    rewrite (of_int_finite s Hs53) in *. exact Hid.
  - destruct (div_micro u ltac:(lia)) as (mq & eq & -> & Heq & Hq).
    apply add_seconds; [lia | exact Heq | exact Hq].
Qed.

End Binary64.

(** The model on readings of the clock around the epoch and far from it:
    [int] rounds towards zero, and from 2^34 seconds on the float of the
    last microsecond of a second is the next whole number. *)
Example timestamp_seconds_cases :
  PyTime.timestamp_seconds 1700000000250000 = 1700000000%Z
  /\ PyTime.timestamp_seconds 1700000000999999 = 1700000000%Z
  /\ PyTime.timestamp_seconds 250000 = 0%Z
  /\ PyTime.timestamp_seconds (-250000) = 0%Z
  /\ PyTime.timestamp_seconds (-1250000) = (-1)%Z
  /\ PyTime.timestamp_seconds 17179869183999999 = 17179869183%Z
  /\ PyTime.timestamp_seconds 34359738367999999 = 34359738368%Z.
Proof. vm_compute. repeat split; reflexivity. Qed.

(** X22: The id of a task depends on the reading of the clock alone: two
    tasks get the same id exactly when [int(timestamp())] is the same
    for their two readings, whatever is entered in the popup.  For
    readings between the epoch and 2^33 seconds after it, that is
    exactly when the two tasks are saved within the same second of the
    clock. *)
Theorem task_ids_collide_within_a_second (p1 p2 : AddTaskPopup) (clock1 clock2 : Z) :
  (task_id (new_task p1 clock1) = task_id (new_task p2 clock2)
   <-> PyTime.timestamp_seconds clock1 = PyTime.timestamp_seconds clock2)
  /\ ((0 <= clock1 < 2 ^ 33 * 1000000)%Z -> (0 <= clock2 < 2 ^ 33 * 1000000)%Z ->
      (task_id (new_task p1 clock1) = task_id (new_task p2 clock2)
       <-> (clock1 / 1000000 = clock2 / 1000000)%Z)).
Proof.
  assert (Hid : task_id (new_task p1 clock1) = task_id (new_task p2 clock2)
                <-> PyTime.timestamp_seconds clock1 = PyTime.timestamp_seconds clock2).
  { unfold new_task. cbn [task_id]. split.
    - intros Heq. simpl in Heq. injection Heq as Heq. now apply of_int_inj.
    - intros ->. reflexivity. }
  split; [exact Hid |].
  intros H1 H2. rewrite Hid.
  now rewrite (timestamp_seconds_floor clock1 H1), (timestamp_seconds_floor clock2 H2).
Qed.

(** ** Clicking a bubble, the columns of the dashboard and the blinking *)

(** X23: Clicking the bubble of a task changes, in the whole document, only
    the completion record of that task for today: the task keeps its
    place and its other fields, the other tasks of the child, the other
    children, the pin and the other users stay as they are, and the
    document is saved. *)
Theorem click_task_bubble_changes_one_task
    (now : datetime) (ci ti : nat) (c : Controller)
    (email : string) (u : User) (child : Child) (task : Task) :
  current_user c = Some email ->
  users (data c) !! email = Some u ->
  children u !! ci = Some child ->
  tasks child !! ti = Some task ->
  exists c' u' child',
    click_task_bubble now ci ti c = inr (c', [save_data])
    /\ users (data c') !! email = Some u'
    /\ pin u' = pin u
    /\ children u' !! ci = Some child'
    /\ name child' = name child /\ gender child' = gender child
    /\ tasks child' !! ti = Some (toggle_task_completion (PyTime.strftime_Ymd now) task)
    /\ length (tasks child') = length (tasks child)
    /\ (forall tj, tj ≠ ti -> tasks child' !! tj = tasks child !! tj)
    /\ (forall cj, cj ≠ ci -> children u' !! cj = children u !! cj)
    /\ length (children u') = length (children u)
    /\ (forall other, other ≠ email -> users (data c') !! other = users (data c) !! other)
    /\ settings (data c') = settings (data c)
    /\ current_user c' = current_user c.
Proof.
  intros Hcu Hu Hci Hti. unfold click_task_bubble, current_user_data.
  rewrite Hcu, Hu.
  eexists. eexists. eexists. split; [reflexivity |].
  split; [apply lookup_set_children |]. cbn [pin children].
  split; [reflexivity |].
  split; [rewrite list_lookup_alter_eq, Hci; reflexivity |].
  cbn [name gender tasks set_tasks].
  split; [reflexivity |]. split; [reflexivity |].
  split; [rewrite list_lookup_alter_eq, Hti; reflexivity |].
  split; [apply length_alter |].
  split; [intros tj Hne; apply list_lookup_alter_ne; congruence |].
  split; [intros cj Hne; apply list_lookup_alter_ne; congruence |].
  split; [apply length_alter |].
  split; [intros other Hne; unfold set_children, set_users; cbn [data users];
          apply lookup_insert_ne; congruence |].
  split; [reflexivity | first [reflexivity | exact Hcu]].
Qed.

Lemma click_task_bubble_changes_one_task_witness :
  children {| pin := hash_pin "123456"; children := [sam; other_sam] |} !! 1%nat
    = Some other_sam
  /\ tasks other_sam !! 0%nat = Some brush_teeth
  /\ exists c' u' child',
       click_task_bubble (at_minute 2026 11 2 9 15) 1 0 (controller_with [sam; other_sam])
         = inr (c', [save_data])
       /\ users (data c') !! "a@b.com" = Some u'
       /\ pin u' = hash_pin "123456"
       /\ children u' !! 1%nat = Some child'
       /\ name child' = name other_sam /\ gender child' = gender other_sam
       /\ tasks child' !! 0%nat
          = Some (toggle_task_completion
                    (PyTime.strftime_Ymd (at_minute 2026 11 2 9 15)) brush_teeth)
       /\ length (tasks child') = length (tasks other_sam)
       /\ (forall tj, tj ≠ 0%nat -> tasks child' !! tj = tasks other_sam !! tj)
       /\ (forall cj, cj ≠ 1%nat ->
             children u' !! cj
             = children {| pin := hash_pin "123456"; children := [sam; other_sam] |} !! cj)
       /\ length (children u') = 2%nat
       /\ (forall other, other ≠ "a@b.com" ->
             users (data c') !! other
             = users (data (controller_with [sam; other_sam])) !! other)
       /\ settings (data c') = settings (data (controller_with [sam; other_sam]))
       /\ current_user c' = current_user (controller_with [sam; other_sam]).
Proof.
  split; [reflexivity |]. split; [reflexivity |].
  exact (click_task_bubble_changes_one_task (at_minute 2026 11 2 9 15) 1 0
           (controller_with [sam; other_sam]) "a@b.com"
           {| pin := hash_pin "123456"; children := [sam; other_sam] |}
           other_sam brush_teeth eq_refl eq_refl eq_refl eq_refl).
Defined.

Lemma rebuild_failed (now : datetime) (cs : list Child) (e : Exception) :
  fold_left (rebuild_child now) cs (inl e) = inl e.
Proof. induction cs as [| child cs IH]; simpl; [reflexivity | exact IH]. Qed.

Lemma rebuild_columns (now : datetime) (cs : list Child) :
  forall (columns columns' : list (list Bubble * list Bubble)) (d d' : Dashboard),
    fold_left (rebuild_child now) cs (inr (columns, d)) = inr (columns', d') ->
    map (fun column => (map bubble_task (fst column), map bubble_task (snd column))) columns'
    = map (fun column => (map bubble_task (fst column), map bubble_task (snd column))) columns
      ++ map (fun child =>
                (List.filter (fun t => is_for_today (PyTime.strftime_A now) t
                                       && negb (is_completed (PyTime.strftime_Ymd now) t))
                             (tasks child),
                 List.filter (fun t => is_for_today (PyTime.strftime_A now) t
                                       && is_completed (PyTime.strftime_Ymd now) t)
                             (tasks child))) cs
    /\ blinking_tasks d'
       = blinking_tasks d
         ++ flat_map (fun child =>
                        map task_id
                          (List.filter
                             (fun t => is_for_today (PyTime.strftime_A now) t
                                       && negb (is_completed (PyTime.strftime_Ymd now) t))
                             (tasks child))) cs.
Proof.
  induction cs as [| child cs IH]; intros columns columns' d d' Hrun.
  - simpl in Hrun. injection Hrun as <- <-. simpl. now rewrite !app_nil_r.
  - cbn [fold_left] in Hrun.
    destruct (rebuild_child now (inr (columns, d)) child) as [e | [columns1 d1]] eqn:Hstep;
      [rewrite rebuild_failed in Hrun; discriminate |].
    destruct (IH _ _ _ _ Hrun) as [Hcols Hblink]. rewrite Hcols, Hblink.
    unfold rebuild_child in Hstep.
    destruct (populate_tasks_for_child now child _) as [e | d2] eqn:Hpop; [discriminate |].
    injection Hstep as <- <-.
    unfold populate_tasks_for_child in Hpop.
    destruct (populate_exact _ _ _ _ _ Hpop) as (Htodo & Hdone & Hb).
    cbn [todo_frame completed_frame blinking_tasks map app] in Htodo, Hdone, Hb.
    rewrite map_app. cbn [map fst snd flat_map].
    rewrite Htodo, Hdone, Hb, <- !app_assoc. now split.
Qed.

(** X24: The dashboard has one column per child of the current user, in the
    order of the children; the column of a child shows the tasks of that
    child that are for today and no others, pending ones in its To-Do
    frame and completed ones in its Completed frame; the blinking list
    runs through the pending tasks of all the children.  Without a
    current user, or for a user that is not in the document, nothing is
    built. *)
Theorem rebuild_dashboard_has_a_column_per_child
    (now : datetime) (c : Controller)
    (columns : list (list Bubble * list Bubble)) (d : Dashboard) :
  rebuild_dashboard now c = inr (columns, d) ->
  length columns = length (children_of_current_user c)
  /\ map (fun column => (map bubble_task (fst column), map bubble_task (snd column))) columns
     = map (fun child =>
              (List.filter (fun t => is_for_today (PyTime.strftime_A now) t
                                     && negb (is_completed (PyTime.strftime_Ymd now) t))
                           (tasks child),
               List.filter (fun t => is_for_today (PyTime.strftime_A now) t
                                     && is_completed (PyTime.strftime_Ymd now) t)
                           (tasks child))) (children_of_current_user c)
  /\ blinking_tasks d
     = flat_map (fun child =>
                   map task_id
                     (List.filter
                        (fun t => is_for_today (PyTime.strftime_A now) t
                                  && negb (is_completed (PyTime.strftime_Ymd now) t))
                        (tasks child))) (children_of_current_user c)
  /\ (children_of_current_user c = [] -> columns = [] /\ d = empty_dashboard).
Proof.
  intros Hrun. unfold rebuild_dashboard in Hrun.
  destruct (rebuild_columns _ _ _ _ _ _ Hrun) as [Hcols Hblink].
  simpl in Hcols, Hblink.
  split; [| split; [exact Hcols | split; [exact Hblink |]]].
  - apply (f_equal length) in Hcols. now rewrite !length_map in Hcols.
  - intros Hnone. rewrite Hnone in Hrun. simpl in Hrun. now injection Hrun as <- <-.
Qed.

Lemma rebuild_dashboard_has_a_column_per_child_witness :
  rebuild_dashboard (at_minute 2026 11 2 9 15) (controller_with [sam_with_two_tasks])
  = inr ([(todo_frame two_pending_dashboard, [])], two_pending_dashboard)
  /\ length [(todo_frame two_pending_dashboard, @nil Bubble)]
     = length (children_of_current_user (controller_with [sam_with_two_tasks])).
Proof.
  assert (Hrun : rebuild_dashboard (at_minute 2026 11 2 9 15)
                   (controller_with [sam_with_two_tasks])
                 = inr ([(todo_frame two_pending_dashboard, [])], two_pending_dashboard))
    by (vm_compute; reflexivity).
  split; [exact Hrun |].
  exact (proj1 (rebuild_dashboard_has_a_column_per_child _ _ _ _ Hrun)).
Defined.

Lemma update_widget_failed (now : datetime) (d : Dashboard) (ids : list string)
    (e : Exception) :
  fold_left (update_widget now d) ids (inl e) = inl e.
Proof. induction ids as [| id ids IH]; simpl; [reflexivity | exact IH]. Qed.

Lemma backgrounds_of_app (id : string) (l1 l2 : list (string * Background)) :
  backgrounds_of id (l1 ++ l2) = backgrounds_of id l1 ++ backgrounds_of id l2.
Proof. unfold backgrounds_of. now rewrite List.filter_app, map_app. Qed.

Lemma update_widgets_of_id (now : datetime) (d : Dashboard) (id : string)
    (widget_info : Bubble) (ids : list string) :
  task_widgets d !! id = Some widget_info ->
  task_colour (PyTime.time_of now) (bubble_task widget_info) = inr task_active ->
  forall configured flags configured' flags',
    fold_left (update_widget now d) ids (inr (configured, flags))
    = inr (configured', flags') ->
    backgrounds_of id configured'
    = backgrounds_of id configured
      ++ alternating (length (List.filter (String.eqb id) ids)) (is_blinking flags id)
    /\ is_blinking flags' id
       = Nat.iter (length (List.filter (String.eqb id) ids)) negb (is_blinking flags id).
Proof.
  intros Hw Hcolour.
  induction ids as [| h ids IH]; intros configured flags configured' flags' Hrun.
  - simpl in Hrun. injection Hrun as <- <-. simpl. now rewrite app_nil_r.
  - cbn [fold_left] in Hrun.
    destruct (update_widget now d (inr (configured, flags)) h) as [e | [c1 f1]] eqn:Hstep;
      [rewrite update_widget_failed in Hrun; discriminate |].
    destruct (IH _ _ _ _ Hrun) as [Hshown Hflag]. rewrite Hshown, Hflag.
    cbn [List.filter]. unfold update_widget in Hstep.
    destruct (String.eqb id h) eqn:Hh.
    + apply String.eqb_eq in Hh. subst h. rewrite Hw, Hcolour in Hstep.
      unfold blink in Hstep.
      assert (Hnew : forall (b : bool), is_blinking (<[id := b]> flags) id = b)
        by (intros b; unfold is_blinking; now rewrite lookup_insert_eq).
      assert (Hone : forall bg, backgrounds_of id [(id, bg)] = [bg])
        by (intros bg; unfold backgrounds_of; cbn [List.filter fst];
            now rewrite String.eqb_refl).
      cbn [length alternating].
      destruct (is_blinking flags id) eqn:Hwas; injection Hstep as <- <-;
        rewrite backgrounds_of_app, Hone, Hnew, Nat.iter_succ_r, <- app_assoc;
        now split.
    + apply String.eqb_neq in Hh.
      destruct (task_widgets d !! h) as [w' |]; [| injection Hstep as <- <-; now split].
      destruct (task_colour (PyTime.time_of now) (bubble_task w')) as [e | k];
        [discriminate |].
      destruct (blink k (is_blinking flags h)) as [background flag].
      injection Hstep as <- <-.
      assert (Hold : is_blinking (<[h := flag]> flags) id = is_blinking flags id)
        by (unfold is_blinking; rewrite lookup_insert_ne by congruence; reflexivity).
      assert (Hnone : backgrounds_of id [(h, background)] = []).
      { unfold backgrounds_of. cbn [List.filter fst].
        assert (Hne : String.eqb id h = false) by now apply String.eqb_neq.
        now rewrite Hne. }
      rewrite backgrounds_of_app, Hnone, Hold, app_nil_r. now split.
Qed.

Lemma filter_eqb_absent (id : string) (ids : list string) :
  (id ∉ ids) -> List.filter (String.eqb id) ids = [].
Proof.
  intros Hno. apply filter_nil_iff. intros x Hx. apply String.eqb_neq.
  intros <-. apply Hno. now apply list_elem_of_In.
Qed.

(** X25: What a pass of the loop does to the bubble of an active task.  The
    widget info is reached through the id, so for an id that is once in
    the blinking list the bubble blinks: the pass gives it the active
    colour when the flag was down and the secondary background when it
    was up, and turns the flag over for the next pass.  For an id that is
    twice in the list, as when two pending tasks share an id, the pass
    gives the bubble both backgrounds in turn and leaves the flag as it
    was, so that every pass ends on the same background. *)
Theorem active_bubble_blinks (now : datetime) (d : Dashboard)
    (flags flags' : gmap string bool) (configured : list (string * Background))
    (id : string) (widget_info : Bubble) :
  task_widgets d !! id = Some widget_info ->
  task_colour (PyTime.time_of now) (bubble_task widget_info) = inr task_active ->
  update_tasks_loop_widgets now d flags = inr (configured, flags') ->
  backgrounds_of id configured
  = alternating (length (List.filter (String.eqb id) (blinking_tasks d)))
                (is_blinking flags id)
  /\ is_blinking flags' id
     = Nat.iter (length (List.filter (String.eqb id) (blinking_tasks d))) negb
                (is_blinking flags id)
  /\ (NoDup (blinking_tasks d) -> id ∈ blinking_tasks d ->
      backgrounds_of id configured
      = [if is_blinking flags id then bg_secondary else colour_of task_active]
      /\ is_blinking flags' id = negb (is_blinking flags id))
  /\ (forall l1 l2 l3,
        blinking_tasks d = l1 ++ id :: l2 ++ id :: l3 ->
        (id ∉ l1) -> (id ∉ l2) -> (id ∉ l3) ->
        backgrounds_of id configured
        = [if is_blinking flags id then bg_secondary else colour_of task_active;
           if is_blinking flags id then colour_of task_active else bg_secondary]
        /\ is_blinking flags' id = is_blinking flags id).
Proof.
  intros Hw Hcolour Hrun. unfold update_tasks_loop_widgets in Hrun.
  destruct (update_widgets_of_id _ _ _ _ _ Hw Hcolour _ _ _ _ Hrun) as [Hshown Hflag].
  cbn [backgrounds_of List.filter map app] in Hshown.
  split; [exact Hshown |]. split; [exact Hflag |]. split.
  - intros Hnodup Hin.
    apply list_elem_of_split in Hin as (l1 & l2 & Hl).
    rewrite Hl in Hnodup. apply NoDup_app in Hnodup as (_ & Hl1 & Hnodup).
    apply NoDup_cons in Hnodup as [Hl2 _].
    assert (Hone : List.filter (String.eqb id) (blinking_tasks d) = [id]).
    { rewrite Hl, List.filter_app. cbn [List.filter]. rewrite String.eqb_refl.
      rewrite !filter_eqb_absent; [reflexivity | exact Hl2 |].
      intros Hin. apply (Hl1 id Hin). apply list_elem_of_here. }
    rewrite Hshown, Hflag, Hone. now split.
  - intros l1 l2 l3 Hl H1 H2 H3.
    assert (Htwo : List.filter (String.eqb id) (blinking_tasks d) = [id; id]).
    { rewrite Hl, List.filter_app. cbn [List.filter]. rewrite String.eqb_refl.
      rewrite List.filter_app. cbn [List.filter]. rewrite String.eqb_refl.
      now rewrite !filter_eqb_absent. }
    rewrite Hshown, Hflag, Htwo. cbn [length alternating Nat.iter].
    destruct (is_blinking flags id); now split.
Qed.

Lemma active_bubble_blinks_witness :
  update_tasks_loop_widgets (at_minute 2026 11 2 9 20) two_pending_dashboard ∅
  = inr ([("task_1700000000", colour_of task_active);
          ("task_1700000001", colour_of task_overdue)],
         <["task_1700000001" := false]> (<["task_1700000000" := true]> ∅))
  /\ backgrounds_of "task_1700000000"
       [("task_1700000000", colour_of task_active);
        ("task_1700000001", colour_of task_overdue)]
     = alternating 1 false.
Proof.
  assert (Hrun : update_tasks_loop_widgets (at_minute 2026 11 2 9 20) two_pending_dashboard ∅
                 = inr ([("task_1700000000", colour_of task_active);
                         ("task_1700000001", colour_of task_overdue)],
                        <["task_1700000001" := false]> (<["task_1700000000" := true]> ∅)))
    by (vm_compute; reflexivity).
  split; [exact Hrun |].
  refine (proj1 (active_bubble_blinks (at_minute 2026 11 2 9 20) two_pending_dashboard
                   ∅ _ _ "task_1700000000"
                   (bubble_of brush_teeth (Time 9 0 0 0) (Time 9 30 0 0)) _ _ Hrun));
    vm_compute; reflexivity.
Defined.

(** Two pending tasks with one id: at 12:05, inside the window of the
    later one, each pass turns the one widget on and off again. *)
Example one_id_bubble_ends_each_pass_switched_off :
  update_tasks_loop_widgets (at_minute 2026 11 2 12 5) one_id_dashboard ∅
  = inr ([("task_1700000000", colour_of task_active); ("task_1700000000", bg_secondary)],
         <["task_1700000000" := false]> (<["task_1700000000" := true]> ∅))
  /\ is_blinking (<["task_1700000000" := false]> (<["task_1700000000" := true]> ∅))
       "task_1700000000" = false.
Proof. vm_compute. split; reflexivity. Qed.

(** X26: When the settings page is shown for a user with children, the
    selector holds the names of the children in their order and shows
    the first one, whatever it showed before, and the tasks listed are
    those of the first child (when its name is not empty).  Without
    children the selector keeps what it showed before. *)
Theorem settings_page_starts_on_the_first_child
    (shown_before : string) (c : Controller) :
  (children_of_current_user c = [] ->
   populate_child_selector shown_before c = ([], shown_before))
  /\ forall first others,
       children_of_current_user c = first :: others ->
       populate_child_selector shown_before c
       = (name first :: map name others, name first)
       /\ (name first ≠ "" ->
           populate_tasks_for_selected_child
             (snd (populate_child_selector shown_before c)) c = tasks first).
Proof.
  unfold populate_child_selector. split; [intros ->; reflexivity |].
  intros first others Hcs. rewrite Hcs. cbn [map snd].
  split; [reflexivity |].
  intros Hne. unfold populate_tasks_for_selected_child.
  rewrite (proj2 (truthy_true_iff _) Hne), Hcs. cbn [negb].
  rewrite (find_child_first (name first) (first :: others) 0 first);
    [reflexivity | reflexivity | reflexivity |].
  intros k ck Hk. lia.
Qed.

Lemma rebuild_returns (now : datetime) (cs : list Child) :
  (forall child t, child ∈ cs -> t ∈ tasks child ->
     is_for_today (PyTime.strftime_A now) t = true ->
     exists b, create_task_bubble t = inr b) ->
  forall columns d, exists r, fold_left (rebuild_child now) cs (inr (columns, d)) = inr r.
Proof.
  induction cs as [| child cs IH]; intros Hok columns d.
  - now eexists.
  - cbn [fold_left]. unfold rebuild_child at 2, populate_tasks_for_child.
    destruct (populate_returns (PyTime.strftime_Ymd now) (PyTime.strftime_A now)
                (tasks child)
                (fun t Hin => Hok child t (list_elem_of_here _ _) Hin)
                {| todo_frame := []; completed_frame := [];
                   task_widgets := task_widgets d;
                   blinking_tasks := blinking_tasks d |}) as [d' ->].
    apply IH. intros child' t Hin. apply Hok. now apply list_elem_of_further.
Qed.

(** X12: A successful login is remembered.  Started from the document that
    the login leaves, the application never shows the login page: it
    stops with [KeyError] when the theme is not a key of [THEMES], it
    stops with the exception of [rebuild_dashboard] when that raises,
    and otherwise it shows the dashboard with the same user logged in,
    which it does whenever the theme is a key of [THEMES] and the tasks
    of the user that are for today have well-formed times.  Started from
    the document that [logout] leaves, it shows the login page.  Neither
    command touches the users or the theme. *)
Theorem session_is_remembered_until_logout
    (email_entry pin_entry : string) (c : Controller) (now_theme now_show : datetime) :
  (logged_in (snd (login email_entry pin_entry c)) = true ->
   users (data (fst (login email_entry pin_entry c))) = users (data c)
   /\ theme (settings (data (fst (login email_entry pin_entry c))))
      = theme (settings (data c))
   /\ __init__ now_theme now_show (data (fst (login email_entry pin_entry c)))
      = (if bool_decide (theme (settings (data c)) ∈ THEMES) then
           match rebuild_dashboard now_theme (fst (login email_entry pin_entry c)),
                 rebuild_dashboard now_show (fst (login email_entry pin_entry c)) with
           | inl e, _ => inl e
           | inr _, inl e => inl e
           | inr _, inr _ =>
               inr (fst (login email_entry pin_entry c), [show_frame "DashboardPage"])
           end
         else inl KeyError)
   /\ (theme (settings (data c)) ∈ THEMES ->
       (forall now u child t,
          now = now_theme \/ now = now_show ->
          users (data c) !! PyStr.lower email_entry = Some u ->
          child ∈ children u -> t ∈ tasks child ->
          is_for_today (PyTime.strftime_A now) t = true ->
          exists b, create_task_bubble t = inr b) ->
       __init__ now_theme now_show (data (fst (login email_entry pin_entry c)))
       = inr (fst (login email_entry pin_entry c), [show_frame "DashboardPage"])))
  /\ __init__ now_theme now_show (data (fst (logout c)))
     = (if bool_decide (theme (settings (data c)) ∈ THEMES)
        then inr (fst (logout c), [show_frame "LoginPage"]) else inl KeyError)
  /\ current_user (fst (logout c)) = None
  /\ users (data (fst (logout c))) = users (data c)
  /\ theme (settings (data (fst (logout c)))) = theme (settings (data c)).
Proof.
  split; [| split; [| repeat split]].
  - intros Hin.
    destruct (login_cases email_entry pin_entry c)
      as [(Hl & _) | [(Hl & _) | (_ & _ & _ & He & Hp & u & Hu & Hpin)]];
      try (rewrite Hl in Hin; discriminate).
    assert (Hlow : PyStr.truthy (PyStr.lower email_entry) = true).
    { apply truthy_true_iff. intros H0. apply He. now apply lower_empty_iff. }
    assert (Hp' : PyStr.truthy pin_entry = true) by now apply truthy_true_iff.
    assert (Hlogin : login email_entry pin_entry c
                     = ({| data := {| users := users (data c);
                                      settings :=
                                        {| theme := theme (settings (data c));
                                           last_logged_in_user :=
                                             Some (PyStr.lower email_entry) |} |};
                           current_user := Some (PyStr.lower email_entry) |},
                        [save_data; show_frame "DashboardPage"])).
    { unfold login. rewrite Hlow, Hp', Hu, Hpin, String.eqb_refl. reflexivity. }
    rewrite Hlogin. cbn [fst data users settings theme].
    split; [reflexivity |]. split; [reflexivity |].
    assert (Hinit : forall r1 r2,
              rebuild_dashboard now_theme
                {| data := {| users := users (data c);
                              settings :=
                                {| theme := theme (settings (data c));
                                   last_logged_in_user :=
                                     Some (PyStr.lower email_entry) |} |};
                   current_user := Some (PyStr.lower email_entry) |} = r1 ->
              rebuild_dashboard now_show
                {| data := {| users := users (data c);
                              settings :=
                                {| theme := theme (settings (data c));
                                   last_logged_in_user :=
                                     Some (PyStr.lower email_entry) |} |};
                   current_user := Some (PyStr.lower email_entry) |} = r2 ->
              __init__ now_theme now_show
                {| users := users (data c);
                   settings := {| theme := theme (settings (data c));
                                  last_logged_in_user :=
                                    Some (PyStr.lower email_entry) |} |}
              = (if bool_decide (theme (settings (data c)) ∈ THEMES) then
                   match r1, r2 with
                   | inl e, _ => inl e
                   | inr _, inl e => inl e
                   | inr _, inr _ =>
                       inr ({| data := {| users := users (data c);
                                          settings :=
                                            {| theme := theme (settings (data c));
                                               last_logged_in_user :=
                                                 Some (PyStr.lower email_entry) |} |};
                               current_user := Some (PyStr.lower email_entry) |},
                            [show_frame "DashboardPage"])
                   end
                 else inl KeyError)).
    { intros r1 r2 H1 H2. unfold __init__.
      cbn [settings theme last_logged_in_user current_user users].
      destruct (bool_decide (theme (settings (data c)) ∈ THEMES)); [| reflexivity].
      cbn [negb]. rewrite H1, H2, Hlow, Hu.
      rewrite bool_decide_eq_true_2 by eauto. cbn [andb].
      destruct r1 as [e1 | ?]; [reflexivity |]. destruct r2; reflexivity. }
    split; [now apply Hinit |].
    intros Htheme Hok.
    rewrite (Hinit _ _ eq_refl eq_refl), bool_decide_eq_true_2 by exact Htheme.
    unfold rebuild_dashboard, children_of_current_user.
    cbn [current_user data users]. rewrite Hu.
    destruct (rebuild_returns now_theme (children u)
                (fun child t Hc Ht Hd => Hok now_theme u child t (or_introl eq_refl)
                                           Hu Hc Ht Hd) [] empty_dashboard) as [r1 ->].
    destruct (rebuild_returns now_show (children u)
                (fun child t Hc Ht Hd => Hok now_show u child t (or_intror eq_refl)
                                           Hu Hc Ht Hd) [] empty_dashboard) as [r2 ->].
    reflexivity.
  - unfold __init__, logout, rebuild_dashboard, children_of_current_user.
    cbn [fst data settings theme last_logged_in_user current_user users fold_left].
    destruct (bool_decide (theme (settings (data c)) ∈ THEMES)); reflexivity.
Qed.

(** A start time that [strptime] refuses can be entered in the popup, and
    a document that holds such a task for today stops the application
    when it starts. *)
Example init_raises_on_a_malformed_time :
  start_time (new_task {| child_name := "Sam"; task_text_entry := "Tidy up";
                          start_hour := "7a"; start_min := "00";
                          end_hour := "08"; end_min := "00";
                          day_vars := fun _ => true |} 1700000002000000)
    = start_time malformed_task
  /\ __init__ (at_minute 2026 11 2 9 15) (at_minute 2026 11 2 9 15) malformed_document
     = inl ValueError.
Proof. vm_compute. split; reflexivity. Qed.
